(** * AI wellness planner: the response-parsing, scoring and context layer

    A shallow embedding of the Python backend's service functions
    ([core/ai_client.py], [core/nutrition_api.py], [apps/chat/services.py],
    [apps/chat/models.py], [apps/nutrition/services.py]) together with the
    properties the specification states about them.

    Conventions.
    - A Python [str] is a [string]: one [ascii] per code point, so the text
      covered is the code-point range 0..255.
    - A call that can raise returns an [outcome]; [try_except] is the Python
      [try: ... except Exception:] block.
    - Numbers that the code only compares against literals are exact
      rationals ([Q]): every Python int and every finite float is one. *)

From Stdlib Require Import String Ascii List ZArith NArith QArith Lqa Lia Bool.
From stdpp Require Import base option list gmap strings.
Import ListNotations.

Local Open Scope string_scope.
Local Open Scope list_scope.

(** ** Python strings *)

Module PyStr.

(** [str.isspace] of one character, which is also the class [\s] of [re]
    for [str] patterns. *)
Definition isspace (c : ascii) : bool :=
  let n := N_of_ascii c in
  ((9 <=? n) && (n <=? 13) || (28 <=? n) && (n <=? 32)
   || (n =? 133) || (n =? 160))%N.

(** [str.lower] of one character: A-Z, and the capital letters
    U+00C0..U+00DE apart from the multiplication sign U+00D7. *)
Definition lower_char (c : ascii) : ascii :=
  let n := N_of_ascii c in
  if ((65 <=? n) && (n <=? 90)
      || (192 <=? n) && (n <=? 222) && negb (n =? 215))%N
  then ascii_of_N (n + 32) else c.

(** [s.lower()] *)
Fixpoint lower (s : string) : string :=
  match s with
  | EmptyString => EmptyString
  | String c s' => String (lower_char c) (lower s')
  end.

(** [s.startswith(p)] *)
Fixpoint startswith (p s : string) : bool :=
  match p, s with
  | EmptyString, _ => true
  | String a p', String b s' => if Ascii.eqb a b then startswith p' s' else false
  | String _ _, EmptyString => false
  end.

(** [p in s] for two strings: [p] occurs in [s] as a substring. *)
Fixpoint contains (p s : string) : bool :=
  if startswith p s then true
  else match s with
       | EmptyString => false
       | String _ s' => contains p s'
       end.

(** [s.split()]: the maximal runs of characters that are not whitespace,
    in order.  [cur] is the run being read. *)
Fixpoint split_from (cur : string) (s : string) : list string :=
  match s with
  | EmptyString => match cur with EmptyString => [] | _ => [cur] end
  | String c s' =>
      if isspace c
      then match cur with
           | EmptyString => split_from EmptyString s'
           | _ => cur :: split_from EmptyString s'
           end
      else split_from (cur ++ String c EmptyString) s'
  end.

Definition split (s : string) : list string := split_from EmptyString s.

(** [x in xs] for a list of strings. *)
Definition in_list (x : string) (xs : list string) : bool :=
  existsb (String.eqb x) xs.

End PyStr.

(** ** The two regular expressions of [_parse_json_response]

    Both patterns are sequences of literal characters and starred character
    classes, one of them with a capture group.  [match_here] is the
    backtracking matcher of [re] for such patterns: a greedy star tries the
    longest repetition first, a lazy star the shortest, and the first
    alternative under which the rest of the pattern matches is the answer.
    [re.DOTALL] makes [.] the class of every character. *)

Module Regex.

Inductive atom : Type :=
| Lit (c : ascii)                    (* a literal character *)
| Greedy (cls : ascii -> bool)       (* cls* *)
| Lazy (cls : ascii -> bool)         (* cls*? *)
| GroupOpen                          (* ( *)
| GroupClose.                        (* ) *)

Definition any (_ : ascii) : bool := true.

Fixpoint lits (s : string) : list atom :=
  match s with
  | EmptyString => []
  | String c s' => Lit c :: lits s'
  end.

(** The positions a match records, each as the text that remains there. *)
Record marks : Type := Marks {
  group_start : option string;
  group_end : option string;
  match_end : string
}.

Definition set_start (s : string) (m : marks) : marks :=
  Marks (Some s) (group_end m) (match_end m).
Definition set_end (s : string) (m : marks) : marks :=
  Marks (group_start m) (Some s) (match_end m).

Fixpoint match_here (pat : list atom) : string -> option marks :=
  match pat with
  | [] => fun s => Some (Marks None None s)
  | Lit c :: pat' => fun s =>
      match s with
      | String x s' => if Ascii.eqb x c then match_here pat' s' else None
      | EmptyString => None
      end
  | Greedy cls :: pat' =>
      fix greedy (s : string) : option marks :=
        match s with
        | String x s' =>
            if cls x
            then match greedy s' with
                 | Some m => Some m
                 | None => match_here pat' s
                 end
            else match_here pat' s
        | EmptyString => match_here pat' s
        end
  | Lazy cls :: pat' =>
      fix lazy (s : string) : option marks :=
        match match_here pat' s with
        | Some m => Some m
        | None =>
            match s with
            | String x s' => if cls x then lazy s' else None
            | EmptyString => None
            end
        end
  | GroupOpen :: pat' => fun s => set_start s <$> match_here pat' s
  | GroupClose :: pat' => fun s => set_end s <$> match_here pat' s
  end.

(** The text between two positions of the same string, each given by the
    text that remains there. *)
Definition between (from to : string) : string :=
  substring 0 (String.length from - String.length to) from.

(** What a match object answers. *)
Record match_obj : Type := Match {
  group0 : string;              (* m.group(0) *)
  group1 : option string        (* m.group(1), when the pattern has a group *)
}.

Definition match_at (pat : list atom) (s : string) : option match_obj :=
  m ← match_here pat s;
  Some (Match (between s (match_end m))
              (match group_start m, group_end m with
               | Some a, Some b => Some (between a b)
               | _, _ => None
               end)).

(** [re.search(pat, s)]: the match at the leftmost position that has one. *)
Fixpoint search (pat : list atom) (s : string) : option match_obj :=
  match match_at pat s with
  | Some m => Some m
  | None =>
      match s with
      | EmptyString => None
      | String _ s' => search pat s'
      end
  end.

(** r'```json\s*(.*?)\s*```' *)
Definition fence_pattern : list atom :=
  lits "```json" ++ [Greedy PyStr.isspace; GroupOpen; Lazy any; GroupClose;
                     Greedy PyStr.isspace] ++ lits "```".

(** r'\{.*\}' *)
Definition brace_pattern : list atom :=
  [Lit "{"%char; Greedy any; Lit "}"%char].

(** The parts of the two patterns that follow their first literal. *)
Definition fence_close : list atom := Greedy PyStr.isspace :: lits "```".
Definition fence_lazy : list atom := Lazy any :: GroupClose :: fence_close.
Definition fence_group : list atom := GroupOpen :: fence_lazy.
Definition fence_open : list atom := Greedy PyStr.isspace :: fence_group.
Definition brace_tail : string -> option marks :=
  match_here [Greedy any; Lit "}"%char].

End Regex.

(** ** Python values, exceptions and calls that can raise *)

Module Py.

Inductive exn : Type :=
| JSONDecodeError                  (* json.JSONDecodeError, a ValueError *)
| ValueError (msg : string)
| TypeError (msg : string)
| AttributeError (msg : string)
| NameError (name : string)
| ZeroDivisionError
| OtherError (msg : string).       (* any other exception: what the network or
                                      the database raise, RecursionError *)

Definition is_JSONDecodeError (e : exn) : bool :=
  match e with JSONDecodeError => true | _ => false end.

(** [isinstance(e, ValueError)] *)
Definition is_ValueError (e : exn) : bool :=
  match e with JSONDecodeError | ValueError _ => true | _ => false end.

(** [str(e)]; the text of a decoding error is not modelled. *)
Definition str_of_exn (e : exn) : string :=
  match e with
  | JSONDecodeError => "Expecting value"
  | ValueError msg | TypeError msg | AttributeError msg | OtherError msg => msg
  | NameError name => "name '" ++ name ++ "' is not defined"
  | ZeroDivisionError => "division by zero"
  end.

Inductive outcome (A : Type) : Type :=
| Returns (a : A)
| Raises (e : exn).
Arguments Returns {A} a.
Arguments Raises {A} e.

Definition bind {A B} (c : outcome A) (k : A -> outcome B) : outcome B :=
  match c with
  | Returns a => k a
  | Raises e => Raises e
  end.

(** [try: body  except <caught>: handler] *)
Definition try_except_on {A} (caught : exn -> bool)
    (body : outcome A) (handler : exn -> outcome A) : outcome A :=
  match body with
  | Returns a => Returns a
  | Raises e => if caught e then handler e else Raises e
  end.

(** [try: body  except Exception as e: handler] *)
Definition try_except {A} (body : outcome A) (handler : exn -> outcome A)
  : outcome A :=
  try_except_on (fun _ => true) body handler.

(** The values [json.loads] produces, and generator objects.  A dict keeps
    its entries in insertion order; a generator is given by the chunks it
    yields once it is iterated. *)
#[warnings="-register-all"]
Inductive pyval : Type :=
| PyNone
| PyBool (b : bool)
| PyInt (n : Z)
| PyFloat (x : Q)
| PyStr (s : string)
| PyList (items : list pyval)
| PyDict (entries : list (string * pyval))
| PyGenerator (yields : list string).

(** [d[key]] looked up in the entries of a dict. *)
Fixpoint dict_lookup (key : string) (entries : list (string * pyval))
  : option pyval :=
  match entries with
  | [] => None
  | (k, v) :: rest => if String.eqb k key then Some v else dict_lookup key rest
  end.

(** [d[key] = v]: in place when the key is there, at the end otherwise. *)
Fixpoint dict_set (key : string) (v : pyval) (entries : list (string * pyval))
  : list (string * pyval) :=
  match entries with
  | [] => [(key, v)]
  | (k, w) :: rest =>
      if String.eqb k key then (k, v) :: rest else (k, w) :: dict_set key v rest
  end.

(** [d.update(e)] *)
Definition dict_update (d e : list (string * pyval)) : list (string * pyval) :=
  fold_left (fun acc kv => dict_set (fst kv) (snd kv) acc) e d.

(** [x == key] for a string [key]. *)
Definition eq_str (key : string) (x : pyval) : bool :=
  match x with
  | PyStr s => String.eqb s key
  | _ => false
  end.

(** [key in container] for a string [key]: the keys of a dict, the items of
    a list, the substrings of a str, what a generator yields; the other
    values are not iterable. *)
Definition contains (key : string) (container : pyval) : outcome bool :=
  match container with
  | PyDict entries => Returns (bool_decide (is_Some (dict_lookup key entries)))
  | PyList items => Returns (existsb (eq_str key) items)
  | PyStr s => Returns (PyStr.contains key s)
  | PyGenerator yields => Returns (existsb (String.eqb key) yields)
  | PyNone => Raises (TypeError "argument of type 'NoneType' is not iterable")
  | PyBool _ => Raises (TypeError "argument of type 'bool' is not iterable")
  | PyInt _ => Raises (TypeError "argument of type 'int' is not iterable")
  | PyFloat _ => Raises (TypeError "argument of type 'float' is not iterable")
  end.

(** [all(key in container for key in keys)] *)
Fixpoint all_in (keys : list string) (container : pyval) : outcome bool :=
  match keys with
  | [] => Returns true
  | key :: keys' =>
      bind (contains key container) (fun b =>
        if b then all_in keys' container else Returns false)
  end.

(** [obj.get(key, default)]: a method of dicts only. *)
Definition call_get (obj : pyval) (key : string) (default : pyval)
  : outcome pyval :=
  match obj with
  | PyDict entries =>
      Returns (match dict_lookup key entries with Some v => v | None => default end)
  | PyGenerator _ =>
      Raises (AttributeError "'generator' object has no attribute 'get'")
  | _ => Raises (AttributeError "object has no attribute 'get'")
  end.

(** The values that are dicts and have the key. *)
Definition has_key (key : string) (v : pyval) : Prop :=
  match v with
  | PyDict entries => is_Some (dict_lookup key entries)
  | _ => False
  end.

End Py.

Import Py.

#[global] Instance outcome_ret : MRet outcome := @Returns.
#[global] Instance outcome_bind : MBind outcome :=
  fun A B k c => Py.bind c k.

(** ** core/ai_client.py *)

Module AIClient.

(** What the client reaches outside the program: its settings, the prompt
    templates, the HTTP calls to the three providers and the JSON decoder.
    A streamed call is given by the chunks it yields and by what it raises
    after them, if anything.  [json_loads s] is [json.loads(s)]: the value,
    or what it raises, which is [json.JSONDecodeError] for a text that is no
    JSON, a plain [ValueError] for an integer of more digits than the
    interpreter converts, [RecursionError] for brackets nested too deep. *)
Record Env : Type := {
  provider : string;                                    (* settings.AI_PROVIDER *)
  get_meal_plan_prompt : pyval -> outcome string;
  get_workout_prompt : pyval -> outcome string;
  get_chat_prompt : string -> pyval -> outcome string;
  _call_deepseek : string -> Z -> outcome string;
  _call_localai : string -> Z -> outcome string;
  _call_huggingface : string -> Z -> outcome string;
  _call_deepseek_stream : string -> list string * option exn;
  _call_localai_stream : string -> list string * option exn;
  json_loads : string -> outcome pyval
}.

Section WithEnv.
Variable env : Env.

Definition _call_ai_api (prompt : string) (max_tokens : Z) : outcome string :=
  if String.eqb (provider env) "deepseek" then _call_deepseek env prompt max_tokens
  else if String.eqb (provider env) "localai" then _call_localai env prompt max_tokens
  else if String.eqb (provider env) "huggingface"
  then _call_huggingface env prompt max_tokens
  else Raises (ValueError ("Unsupported AI provider: " ++ provider env)).

Definition _call_ai_api_stream (prompt : string) : list string * option exn :=
  if String.eqb (provider env) "deepseek" then _call_deepseek_stream env prompt
  else if String.eqb (provider env) "localai" then _call_localai_stream env prompt
  else
    (* Fallback to non-streaming for unsupported providers *)
    match _call_ai_api prompt 1000 with
    | Returns response =>
        (map (fun word => word ++ " ")%string (PyStr.split response), None)
    | Raises e => ([], Some e)
    end.

Definition loads (s : string) : outcome pyval := json_loads env s.

Definition _parse_json_response (response : string) : outcome pyval :=
  try_except_on is_JSONDecodeError
    (loads response)
    (fun _ =>
       match Regex.search Regex.fence_pattern response with
       | Some json_match =>
           loads (default EmptyString (Regex.group1 json_match))
       | None =>
           match Regex.search Regex.brace_pattern response with
           | Some json_match => loads (Regex.group0 json_match)
           | None => Raises (ValueError "No valid JSON found in response")
           end
       end).

Definition _validate_meal_plan (meal_plan : pyval) : outcome bool :=
  let required_keys := ["daily_calories"; "days"] in
  all_in required_keys meal_plan.

Definition _validate_workout_plan (workout_plan : pyval) : outcome bool :=
  let required_keys := ["plan_name"; "days"] in
  all_in required_keys workout_plan.

Definition _get_fallback_meal_plan (user_profile : pyval) : pyval :=
  PyDict [
    ("daily_calories", PyInt 1800);
    ("days", PyList [
       PyDict [
         ("day", PyStr "Monday");
         ("meals", PyDict [
            ("breakfast", PyDict [
               ("name", PyStr "Oatmeal with berries");
               ("calories", PyInt 350);
               ("ingredients", PyList [PyStr "1 cup oatmeal";
                  PyStr "1/2 cup mixed berries"; PyStr "1 tbsp honey"])]);
            ("lunch", PyDict [
               ("name", PyStr "Grilled chicken salad");
               ("calories", PyInt 450);
               ("ingredients", PyList [PyStr "4oz grilled chicken";
                  PyStr "2 cups mixed greens"; PyStr "1 tbsp olive oil"])]);
            ("dinner", PyDict [
               ("name", PyStr "Baked salmon with vegetables");
               ("calories", PyInt 500);
               ("ingredients", PyList [PyStr "5oz salmon fillet";
                  PyStr "1 cup broccoli"; PyStr "1/2 cup brown rice"])]);
            ("snack", PyDict [
               ("name", PyStr "Greek yogurt with almonds");
               ("calories", PyInt 200);
               ("ingredients", PyList [PyStr "1 cup Greek yogurt";
                  PyStr "1oz almonds"])])])]])].

Definition _get_fallback_workout_plan (user_profile : pyval) : pyval :=
  PyDict [
    ("plan_name", PyStr "Basic Fitness Plan");
    ("days", PyList [
       PyDict [
         ("day", PyStr "Monday");
         ("type", PyStr "Upper Body");
         ("duration", PyStr "30 minutes");
         ("exercises", PyList [
            PyDict [("name", PyStr "Push-ups"); ("sets", PyInt 3);
                    ("reps", PyInt 10)];
            PyDict [("name", PyStr "Plank"); ("sets", PyInt 3);
                    ("duration", PyStr "30 seconds")]])]])].

Definition generate_meal_plan (user_profile : pyval) : outcome pyval :=
  try_except
    (prompt ← get_meal_plan_prompt env user_profile;
     response ← _call_ai_api prompt 2000;
     meal_plan ← _parse_json_response response;
     valid ← _validate_meal_plan meal_plan;
     if valid : bool then Returns meal_plan
     else Returns (_get_fallback_meal_plan user_profile))
    (fun e => Returns (_get_fallback_meal_plan user_profile)).

Definition generate_workout_plan (user_profile : pyval) : outcome pyval :=
  try_except
    (prompt ← get_workout_prompt env user_profile;
     response ← _call_ai_api prompt 1500;
     workout_plan ← _parse_json_response response;
     valid ← _validate_workout_plan workout_plan;
     if valid : bool then Returns workout_plan
     else Returns (_get_fallback_workout_plan user_profile))
    (fun e => Returns (_get_fallback_workout_plan user_profile)).

(** What the generator of [chat_response] yields when it is iterated: the
    streamed chunks, and the apology once the prompt or the stream fails. *)
Definition chat_response_yields (message : string) (context : pyval)
  : list string :=
  let apology :=
    "I apologize, but I'm having trouble responding right now. Please try again later." in
  match get_chat_prompt env message context with
  | Raises _ => [apology]
  | Returns prompt =>
      match _call_ai_api_stream prompt with
      | (chunks, None) => chunks
      | (chunks, Some _) => chunks ++ [apology]
      end
  end.

(** [chat_response] has [yield] in its body: calling it runs none of the
    body and returns a generator object. *)
Definition chat_response (message : string) (context : pyval) : pyval :=
  PyGenerator (chat_response_yields message context).

End WithEnv.

End AIClient.

(** ** core/nutrition_api.py *)

Module NutritionAPI.

(** [x >= y] and [x > y] on numbers. *)
Definition Qgeb (x y : Q) : bool := Qle_bool y x.
Definition Qgtb (x y : Q) : bool := negb (Qle_bool x y).

(** [nutrition.get(key, default)] on a mapping from nutrient names to
    amounts. *)
Definition get (nutrition : gmap string Q) (key : string) (default : Q) : Q :=
  match nutrition !! key with
  | Some amount => amount
  | None => default
  end.

Definition _calculate_health_score (nutrition : gmap string Q) : Z :=
  let score := 50%Z in
  (* Positive factors *)
  let score :=
    if Qgeb (get nutrition "fiber" 0) 25 then (score + 15)%Z
    else if Qgeb (get nutrition "fiber" 0) 15 then (score + 10)%Z
    else score in
  let score :=
    if Qgeb (get nutrition "protein" 0) 50 then (score + 10)%Z
    else if Qgeb (get nutrition "protein" 0) 30 then (score + 5)%Z
    else score in
  let score :=
    if Qgeb (get nutrition "vitamin_c" 0) 90 then (score + 10)%Z else score in
  let score :=
    if Qgeb (get nutrition "calcium" 0) 1000 then (score + 5)%Z else score in
  (* Negative factors *)
  let score :=
    if Qgtb (get nutrition "sodium" 0) 2300 then (score - 20)%Z
    else if Qgtb (get nutrition "sodium" 0) 1500 then (score - 10)%Z
    else score in
  let score :=
    if Qgtb (get nutrition "sugars" 0) 50 then (score - 15)%Z
    else if Qgtb (get nutrition "sugars" 0) 25 then (score - 8)%Z
    else score in
  let score :=
    if Qgtb (get nutrition "fat" 0) 78 then (score - 10)%Z else score in
  Z.max 0 (Z.min 100 score).

End NutritionAPI.

(** ** apps/chat/models.py and the context service of apps/chat/services.py *)

Module ChatContextService.

(** The float literals of the module, as the rationals they denote. *)
Definition float_0_6 : Q := 5404319552844595 # 9007199254740992.
Definition float_0_7 : Q := 3152519739159347 # 4503599627370496.

(** A row of [ChatContext] within one session.  Times are instants on one
    clock. *)
Record ChatContext : Type := {
  context_type : string;
  key : string;
  value : pyval;
  importance_score : Q;
  last_referenced : option Z;
  reference_count : Z;
  expires_at : option Z
}.

(** [unique_together = ['session', 'context_type', 'key']]: what tells the
    rows of one session apart. *)
Definition unique_together (item : ChatContext) : string * string :=
  (context_type item, key item).

(** [ChatContext.is_expired] *)
Definition is_expired (now : Z) (self : ChatContext) : bool :=
  match expires_at self with
  | None => false
  | Some t => (t <? now)%Z
  end.

(** [ChatContext.mark_referenced] *)
Definition mark_referenced (now : Z) (self : ChatContext) : ChatContext :=
  {| context_type := context_type self;
     key := key self;
     value := value self;
     importance_score := importance_score self;
     last_referenced := Some now;
     reference_count := (reference_count self + 1)%Z;
     expires_at := expires_at self |}.

(** [.filter(importance_score__gte=0.7)] *)
Definition importance_score__gte (bound : Q) (item : ChatContext) : bool :=
  Qle_bool bound (importance_score item).

(** [expires_at__lt=now]: a row without [expires_at] does not satisfy the
    lookup, so [.exclude] keeps it. *)
Definition expires_at__lt (now : Z) (item : ChatContext) : bool :=
  match expires_at item with
  | Some t => (t <? now)%Z
  | None => false
  end.

(** [session.context_items.filter(...).exclude(...)] *)
Definition high_importance_context (now : Z) (context_items : list ChatContext)
  : list ChatContext :=
  filter (fun item => negb (expires_at__lt now item))
    (filter (fun item => importance_score__gte float_0_7 item) context_items).

(** One round of the loop of [get_relevant_context] on [context_data]. *)
Definition add_context_item (context_data : gmap string (gmap string pyval))
    (context_item : ChatContext) : gmap string (gmap string pyval) :=
  let context_data :=
    match context_data !! context_type context_item with
    | None => <[context_type context_item := ∅]> context_data
    | Some _ => context_data
    end in
  <[context_type context_item :=
      <[key context_item := value context_item]>
        (default ∅ (context_data !! context_type context_item))]> context_data.

(** [get_relevant_context]: the context data returned, and the rows of the
    session after the selected ones were marked as referenced. *)
Definition get_relevant_context (now : Z) (context_items : list ChatContext)
  : gmap string (gmap string pyval) * list ChatContext :=
  let selected := high_importance_context now context_items in
  (fold_left add_context_item selected ∅,
   map (fun item =>
          if importance_score__gte float_0_7 item && negb (expires_at__lt now item)
          then mark_referenced now item else item)
       context_items).

(** The scan of the words of a message: every word that follows one of the
    [triggers] is appended.

      for i, word in enumerate(words):
          if word in triggers and i + 1 < len(words):
              found.append(words[i + 1])                                  *)
Definition scan_step (triggers words : list string) (found : list string)
    (iw : nat * string) : list string :=
  let (i, word) := iw in
  if PyStr.in_list word triggers && (i + 1 <? List.length words)%nat
  then match words !! (i + 1) with
       | Some next => found ++ [next]
       | None => found          (* IndexError, excluded by the test above *)
       end
  else found.

Definition enumerate {A} (l : list A) : list (nat * A) :=
  combine (seq 0 (List.length l)) l.

Definition scan (triggers words : list string) : list string :=
  fold_left (scan_step triggers words) (enumerate words) [].

(** [food_likes] and [food_dislikes] as they stand after the two scans;
    [content] is the lowercased message. *)
Definition food_likes (content : string) : list string :=
  if PyStr.contains "love" content || PyStr.contains "like" content
  then scan ["love"; "like"; "enjoy"] (PyStr.split content)
  else [].

Definition food_dislikes (content : string) : list string :=
  if PyStr.contains "hate" content || PyStr.contains "dislike" content
  then scan ["hate"; "dislike"; "avoid"] (PyStr.split content)
  else [].

(** The [preferences] dict built from the message. *)
Definition extracted_preferences (message_content : string)
  : list (string * pyval) :=
  let content := PyStr.lower message_content in
  let preferences := [] in
  let preferences :=
    if PyStr.contains "vegetarian" content
    then dict_set "diet_type" (PyStr "vegetarian") preferences
    else if PyStr.contains "vegan" content
    then dict_set "diet_type" (PyStr "vegan") preferences
    else if PyStr.contains "keto" content
    then dict_set "diet_type" (PyStr "ketogenic") preferences
    else preferences in
  let preferences :=
    if PyStr.contains "morning workout" content
       || PyStr.contains "morning exercise" content
    then dict_set "preferred_workout_time" (PyStr "morning") preferences
    else if PyStr.contains "evening workout" content
            || PyStr.contains "evening exercise" content
    then dict_set "preferred_workout_time" (PyStr "evening") preferences
    else preferences in
  let preferences :=
    match food_likes content with
    | [] => preferences
    | likes => dict_set "food_likes" (PyList (map PyStr likes)) preferences
    end in
  let preferences :=
    match food_dislikes content with
    | [] => preferences
    | dislikes => dict_set "food_dislikes" (PyList (map PyStr dislikes)) preferences
    end in
  preferences.

(** [existing_context.value = existing_prefs.update(preferences)] on the
    row [get_or_create] found. *)
Fixpoint merge_into (preferences : list (string * pyval))
    (context_items : list ChatContext) : outcome (list ChatContext) :=
  match context_items with
  | [] =>
      Returns [ {| context_type := "nutrition_preferences";
                   key := "extracted_preferences";
                   value := PyDict preferences;
                   importance_score := float_0_6;
                   last_referenced := None;
                   reference_count := 0;
                   expires_at := None |} ]
  | item :: rest =>
      if String.eqb (context_type item) "nutrition_preferences"
         && String.eqb (key item) "extracted_preferences"
      then match value item with
           | PyDict existing_prefs =>
               Returns ({| context_type := context_type item;
                           key := key item;
                           value := PyDict (dict_update existing_prefs preferences);
                           importance_score := importance_score item;
                           last_referenced := last_referenced item;
                           reference_count := reference_count item;
                           expires_at := expires_at item |} :: rest)
           | _ => Raises (AttributeError "object has no attribute 'update'")
           end
      else rest' ← merge_into preferences rest; Returns (item :: rest')
  end.

(** [_extract_preferences_from_message] on the rows of the session. *)
Definition _extract_preferences_from_message
    (context_items : list ChatContext) (message_content : string)
  : outcome (list ChatContext) :=
  match extracted_preferences message_content with
  | [] => Returns context_items
  | preferences => merge_into preferences context_items
  end.

End ChatContextService.

(** ** The chat service of apps/chat/services.py *)

Module ChatService.

(** A row of [Message] within one session. *)
Record Message : Type := {
  id : string;
  role : string;
  content : pyval;
  message_type : pyval;
  ai_model : pyval;
  prompt_tokens : pyval;
  completion_tokens : pyval;
  total_tokens : pyval;
  confidence_score : pyval;
  response_time_ms : pyval;
  structured_data : pyval;
  context_data : pyval;
  parent_message : option string;
  created_at : Z
}.

(** The analytics columns of the [ChatSession] object. *)
Record ChatSession : Type := {
  message_count : Z;
  total_tokens_used : Z;
  avg_response_time : Q
}.

(** The session object and the tables the service writes. *)
Record State : Type := {
  session : ChatSession;
  messages : list Message;
  analytics : list (string * pyval)
}.

(** A method that reads and writes the state and can raise; what was
    written before an exception stays written. *)
Definition M (A : Type) : Type := State -> outcome A * State.

#[export] Instance M_ret : MRet M := fun A a st => (Returns a, st).
#[export] Instance M_bind : MBind M := fun A B k c st =>
  match c st with
  | (Returns a, st') => k a st'
  | (Raises e, st') => (Raises e, st')
  end.

Definition lift {A} (o : outcome A) : M A := fun st => (o, st).

(** [try: body  except Exception as e: handler] *)
Definition try_except_M {A} (body : M A) (handler : exn -> M A) : M A :=
  fun st =>
    match body st with
    | (Returns a, st') => (Returns a, st')
    | (Raises e, st') => handler e st'
    end.

(** What the service reaches outside itself. *)
Record Env : Type := {
  ai_client : AIClient.Env;
  (* the context built for the prompt; it reads the database and marks
     context rows as referenced *)
  _build_conversation_context : Message -> M pyval;
  (* (timezone.now() - start_time).total_seconds() * 1000 *)
  response_time : State -> Q;
  uuid4 : State -> string;
  now : State -> Z;
  isoformat : Z -> string;
  (* ChatAnalyticsService.track_response_generated, which catches what it
     raises *)
  track_response_generated : Message -> State -> State
}.

Definition apology : string :=
  "I apologize, but I'm having trouble processing your request right now. Please try again.".

(** [s.lower()] on a value: a method of str. *)
Definition call_lower (v : pyval) : outcome string :=
  match v with
  | PyStr s => Returns (PyStr.lower s)
  | _ => Raises (AttributeError "object has no attribute 'lower'")
  end.

(** [structured_data.get('type') == t] *)
Definition type_is (structured_data : pyval) (t : string) : outcome bool :=
  v ← call_get structured_data "type" PyNone; Returns (eq_str t v).

Definition _determine_response_type (ai_response_data : pyval) : outcome string :=
  c ← call_get ai_response_data "content" (PyStr "");
  content ← call_lower c;
  structured_data ← call_get ai_response_data "structured_data" (PyDict []);
  is_meal ← (if PyStr.contains "meal plan" content then Returns true
             else type_is structured_data "meal_plan");
  if is_meal : bool then Returns "meal_plan" else
  is_workout ← (if PyStr.contains "workout" content then Returns true
                else type_is structured_data "workout_plan");
  if is_workout : bool then Returns "workout_plan"
  else if PyStr.contains "nutrition" content && PyStr.contains "analysis" content
  then Returns "nutrition_analysis"
  else if PyStr.contains "progress" content || PyStr.contains "tracking" content
  then Returns "progress_update"
  else if PyStr.contains "recommend" content || PyStr.contains "suggest" content
  then Returns "recommendation"
  else Returns "text".

(** The columns of [Message] that are not nullable, of those a new row is
    given here. *)
Definition not_null_columns (row : Message) : list pyval :=
  [ content row; message_type row; ai_model row; prompt_tokens row;
    completion_tokens row; total_tokens row; structured_data row;
    context_data row ].

Definition is_None (v : pyval) : bool :=
  match v with PyNone => true | _ => false end.

(** [Message.objects.create(...)]: the row gets its id and creation time
    and is appended to the table, unless a column that is not nullable is
    given [None], which the database refuses with [IntegrityError].  What
    else a database may refuse (a text longer than its column where lengths
    are enforced, a value that does not convert to the type of its column)
    is left out. *)
Definition Message_objects_create (env : Env) (fields : string -> Z -> Message)
  : M Message :=
  fun st =>
    let row := fields (uuid4 env st) (now env st) in
    if existsb is_None (not_null_columns row)
    then (Raises (OtherError "IntegrityError"), st)
    else
      (Returns row,
       {| session := session st;
          messages := messages st ++ [row];
          analytics := analytics st |}).

(** An integer column read back as a number. *)
Definition as_int (v : pyval) : outcome Z :=
  match v with
  | PyInt n => Returns n
  | PyBool b => Returns (if b then 1 else 0)%Z
  | _ => Raises (TypeError "unsupported operand type(s) for +=")
  end.

(** [int(x)] of a number: towards zero. *)
Definition int_of (x : Q) : Z := Z.quot (Qnum x) (Zpos (Qden x)).

(** The update of the session's analytics columns, saved with the object. *)
Definition update_session_analytics (tokens : Z) (response_time : Q) : M unit :=
  fun st =>
    let s := session st in
    if (message_count s =? 0)%Z
    then (Raises ZeroDivisionError,
          {| session := {| message_count := message_count s;
                           total_tokens_used := (total_tokens_used s + tokens)%Z;
                           avg_response_time := avg_response_time s |};
             messages := messages st;
             analytics := analytics st |})
    else (Returns tt,
          {| session :=
               {| message_count := message_count s;
                  total_tokens_used := (total_tokens_used s + tokens)%Z;
                  avg_response_time :=
                    ((avg_response_time s * inject_Z (message_count s - 1)
                      + response_time) / inject_Z (message_count s))%Q |};
             messages := messages st;
             analytics := analytics st |}).

Definition generate_ai_response (env : Env) (user_message : Message) : M pyval :=
  try_except_M
    (context ← _build_conversation_context env user_message;
     (* Generate response using AI client *)
     let ai_response_data :=
       AIClient.chat_response (ai_client env)
         (match content user_message with PyStr s => s | _ => "" end) context in
     response_time ← (fun st => (Returns (response_time env st), st)) : M Q;
     (* Create AI message *)
     content_ ← lift (call_get ai_response_data "content" (PyStr ""));
     message_type_ ← lift (_determine_response_type ai_response_data);
     ai_model_ ← lift (call_get ai_response_data "model" (PyStr "unknown"));
     prompt_tokens_ ← lift (call_get ai_response_data "prompt_tokens" (PyInt 0));
     completion_tokens_ ←
       lift (call_get ai_response_data "completion_tokens" (PyInt 0));
     total_tokens_ ← lift (call_get ai_response_data "total_tokens" (PyInt 0));
     confidence_score_ ←
       lift (call_get ai_response_data "confidence_score" PyNone);
     structured_data_ ←
       lift (call_get ai_response_data "structured_data" (PyDict []));
     ai_message ← Message_objects_create env (fun new_id created =>
       {| id := new_id;
          role := "assistant";
          content := content_;
          message_type := PyStr message_type_;
          ai_model := ai_model_;
          prompt_tokens := prompt_tokens_;
          completion_tokens := completion_tokens_;
          total_tokens := total_tokens_;
          confidence_score := confidence_score_;
          response_time_ms := PyInt (int_of response_time);
          structured_data := structured_data_;
          context_data := context;
          parent_message := Some (id user_message);
          created_at := created |});
     (* Update session analytics *)
     tokens ← lift (as_int (total_tokens ai_message));
     _ ← update_session_analytics tokens response_time;
     (* Track analytics *)
     _ ← ((fun st => (Returns tt, track_response_generated env ai_message st))
            : M unit);
     mret (PyDict [
       ("message_id", PyStr (id ai_message));
       ("content", content ai_message);
       ("message_type", message_type ai_message);
       ("structured_data", structured_data ai_message);
       ("confidence_score", confidence_score ai_message);
       ("response_time_ms", response_time_ms ai_message);
       ("created_at", PyStr (isoformat env (created_at ai_message)))]))
    (fun e =>
       (* Create error message *)
       error_message ← Message_objects_create env (fun new_id created =>
         {| id := new_id;
            role := "assistant";
            content := PyStr apology;
            message_type := PyStr "error";
            ai_model := PyStr "";
            prompt_tokens := PyInt 0;
            completion_tokens := PyInt 0;
            total_tokens := PyInt 0;
            confidence_score := PyNone;
            response_time_ms := PyNone;
            structured_data := PyDict [];
            context_data := PyDict [];
            parent_message := Some (id user_message);
            created_at := created |});
       mret (PyDict [
         ("message_id", PyStr (id error_message));
         ("content", content error_message);
         ("message_type", PyStr "error");
         ("error", PyStr (str_of_exn e))])).

End ChatService.

(** ** The analytics service of apps/chat/services.py *)

Module ChatAnalyticsService.

(** The names bound at the top level of apps/chat/services.py: its
    imports, [logger] and its four classes. *)
Definition module_globals : list string :=
  [ "json"; "logging"; "datetime"; "timedelta";
    "Dict"; "List"; "Optional"; "Generator"; "Tuple";
    "User"; "transaction"; "Q"; "Avg"; "Sum"; "Count"; "timezone";
    "AIClient"; "UserProfile"; "MealPlan"; "NutritionLog";
    "WorkoutPlan"; "Workout";
    "ChatSession"; "Message"; "ChatContext"; "ChatTemplate";
    "ConversationSummary"; "ChatAnalytics";
    "logger";
    "ChatService"; "ChatContextService"; "ChatAnalyticsService";
    "ConversationSummaryService" ].

(** The built-in functions, and the built-in constants and classes the
    module uses. *)
Definition builtins : list string :=
  [ "abs"; "aiter"; "all"; "anext"; "any"; "ascii"; "bin"; "bool";
    "breakpoint"; "bytearray"; "bytes"; "callable"; "chr"; "classmethod";
    "compile"; "complex"; "delattr"; "dict"; "dir"; "divmod"; "enumerate";
    "eval"; "exec"; "filter"; "float"; "format"; "frozenset"; "getattr";
    "globals"; "hasattr"; "hash"; "help"; "hex"; "id"; "input"; "int";
    "isinstance"; "issubclass"; "iter"; "len"; "list"; "locals"; "map";
    "max"; "memoryview"; "min"; "next"; "object"; "oct"; "open"; "ord";
    "pow"; "print"; "property"; "range"; "repr"; "reversed"; "round";
    "set"; "setattr"; "slice"; "sorted"; "staticmethod"; "str"; "sum";
    "super"; "tuple"; "type"; "vars"; "zip";
    "True"; "False"; "None"; "Exception" ].

(** A name that is not local is looked up among the globals of the module
    and then among the built-ins. *)
Definition load_global (name : string) : outcome unit :=
  if PyStr.in_list name module_globals || PyStr.in_list name builtins
  then Returns tt
  else Raises (NameError name).

(** The columns of [Message] and [ChatSession] the analysis reads. *)
Record Message : Type := {
  user : string;
  role : string;
  content : string;
  created_at : Z
}.

Record ChatSession : Type := {
  session_user : string;
  chat_type : string;
  session_created_at : Z
}.

(** What the service reaches outside itself. *)
Record Env : Type := {
  Message_objects : list Message;
  ChatSession_objects : list ChatSession;
  (* timezone.now() - timedelta(days=period_days); OverflowError when the
     period or the date is out of range *)
  start_date_of : Z -> outcome Z;
  hour_of : Z -> nat;                       (* created_at.hour *)
  weekday_of : Z -> string;                 (* created_at.strftime('%A') *)
  round_ : Q -> Z -> Q;                     (* round(x, ndigits) *)
  _analyze_preferred_topics : list ChatSession -> outcome pyval;
  _analyze_engagement_trends : list ChatSession -> outcome pyval;
  _analyze_ai_performance : list Message -> outcome pyval;
  _identify_personalization_opportunities : string -> outcome pyval;
  _recommend_features : string -> outcome pyval
}.

(** [f"{hour:02d}:00"] *)
Definition digit (n : nat) : string :=
  String (ascii_of_nat (48 + n)) EmptyString.
Definition hour_label (hour : nat) : string :=
  digit (hour / 10) ++ digit (hour mod 10) ++ ":00".

(** [daily_counts[day] = daily_counts.get(day, 0) + 1] *)
Fixpoint count_day (day : string) (daily_counts : list (string * Z))
  : list (string * Z) :=
  match daily_counts with
  | [] => [(day, 1%Z)]
  | (d, n) :: rest =>
      if String.eqb d day then (d, (n + 1)%Z) :: rest
      else (d, n) :: count_day day rest
  end.

(** [sorted(items, key=lambda x: x[1], reverse=True)]: by descending
    count, entries with equal counts in their first order. *)
Fixpoint insert_desc (x : string * Z) (sorted : list (string * Z))
  : list (string * Z) :=
  match sorted with
  | [] => [x]
  | y :: rest =>
      if (snd y <? snd x)%Z then x :: y :: rest else y :: insert_desc x rest
  end.

Definition sorted_desc (items : list (string * Z)) : list (string * Z) :=
  fold_left (fun acc x => insert_desc x acc) items [].

Section WithEnv.
Variable env : Env.

Definition _analyze_communication_patterns (messages : list Message)
  : outcome pyval :=
  let user_messages := filter (fun m => String.eqb (role m) "user") messages in
  (* Message frequency by time of day *)
  _ ← load_global "range";
  let hourly_distribution :=
    map (fun hour =>
           (hour_label hour,
            PyInt (Z.of_nat (List.length
              (filter (fun m => Nat.eqb (hour_of env (created_at m)) hour)
                      user_messages)))))
        (seq 0 24) in
  (* Average message length *)
  _ ← load_global "Avg";
  _ ← load_global "models";
  let avg_length :=
    match user_messages with
    | [] => 0%Q
    | _ =>
        (inject_Z (Z.of_nat
           (list_sum (map (fun m => String.length (content m)) user_messages)))
         / inject_Z (Z.of_nat (List.length user_messages)))%Q
    end in
  (* Most active days *)
  let daily_counts :=
    fold_left (fun acc m => count_day (weekday_of env (created_at m)) acc)
              user_messages [] in
  _ ← load_global "round";
  _ ← load_global "dict";
  _ ← load_global "sorted";
  Returns (PyDict [
    ("hourly_distribution", PyDict hourly_distribution);
    ("average_message_length", PyFloat (round_ env avg_length 1));
    ("most_active_days",
       PyDict (map (fun dn => (fst dn, PyInt (snd dn))) (sorted_desc daily_counts)));
    ("total_messages", PyInt (Z.of_nat (List.length user_messages)))]).

Definition generate_user_insights (user_ : string) (period_days : Z)
  : outcome pyval :=
  try_except
    (start_date ← start_date_of env period_days;
     (* Get user's chat sessions *)
     let sessions :=
       filter (fun s => String.eqb (session_user s) user_
                        && (start_date <=? session_created_at s)%Z)
              (ChatSession_objects env) in
     (* Get user's messages *)
     let messages :=
       filter (fun m => String.eqb (user m) user_
                        && (start_date <=? created_at m)%Z)
              (Message_objects env) in
     communication_patterns ← _analyze_communication_patterns messages;
     preferred_topics ← _analyze_preferred_topics env sessions;
     engagement_trends ← _analyze_engagement_trends env sessions;
     ai_performance ← _analyze_ai_performance env messages;
     personalization_opportunities ←
       _identify_personalization_opportunities env user_;
     recommended_features ← _recommend_features env user_;
     let insights := PyDict [
       ("communication_patterns", communication_patterns);
       ("preferred_topics", preferred_topics);
       ("engagement_trends", engagement_trends);
       ("ai_performance", ai_performance);
       ("personalization_opportunities", personalization_opportunities);
       ("recommended_features", recommended_features)] in
     Returns (PyDict [
       ("success", PyBool true);
       ("insights", insights);
       ("period_days", PyInt period_days)]))
    (fun e =>
       Returns (PyDict [
         ("success", PyBool false);
         ("error", PyStr (str_of_exn e))])).

End WithEnv.

End ChatAnalyticsService.

(** ** apps/nutrition/services.py *)

(** The float arithmetic of the grocery list.  No law is assumed of it, so
    what is proved holds of the machine's floats as of exact numbers. *)
Class FloatOps (float : Type) : Type := {
  float_zero : float;                             (* 0 *)
  float_add : float -> float -> float;            (* x + y *)
  float_cost : float -> Q -> float;               (* round((x / 100) * rate, 2) *)
  float_round2 : float -> float                   (* round(x, 2) *)
}.

Module MealPlanningService.

Section WithFloat.
Context {float : Type} `{FloatOps float}.

Record FoodItem : Type := {
  name : string;
  category : string
}.

Record MealFood : Type := {
  food_item : FoodItem;
  quantity : float;
  unit : string
}.

Record Meal : Type := { foods : list MealFood }.

Record MealPlan : Type := { meals : list Meal }.

(** An entry of [grocery_items]. *)
Record GroceryItem : Type := {
  item_name : string;
  item_quantity : float;
  item_unit : string;
  item_category : string;
  estimated_cost : float
}.

Definition cost_per_100g : list (string * Q) :=
  [ ("chicken", 3 # 1); ("beef", 5 # 1); ("salmon", 8 # 1);
    ("rice", 1 # 2); ("pasta", 3 # 4); ("bread", 3 # 2);
    ("milk", 1 # 1); ("eggs", 5 # 2); ("cheese", 4 # 1);
    ("yogurt", 3 # 2); ("apple", 1 # 1); ("banana", 3 # 5);
    ("broccoli", 6 # 5); ("spinach", 2 # 1); ("olive oil", 3 # 1) ]%Q.

Definition _estimate_item_cost (food_name : string) (quantity : float) : float :=
  match
    find (fun ic => PyStr.contains (PyStr.lower (fst ic)) (PyStr.lower food_name))
         cost_per_100g
  with
  | Some (_, cost) => float_cost quantity cost
  | None => float_cost quantity (3 # 2)
  end.

(** [item['quantity'] += quantity] *)
Definition add_to_item (quantity_ : float) (item : GroceryItem) : GroceryItem :=
  {| item_name := item_name item;
     item_quantity := float_add (item_quantity item) quantity_;
     item_unit := item_unit item;
     item_category := item_category item;
     estimated_cost := estimated_cost item |}.

(** [grocery_items[food_name]['quantity'] += quantity] on the entries of
    the dict, which stay in insertion order. *)
Fixpoint add_quantity (food_name : string) (quantity : float)
    (grocery_items : list (string * GroceryItem)) : list (string * GroceryItem) :=
  match grocery_items with
  | [] => []
  | (k, item) :: rest =>
      if String.eqb k food_name
      then (k, add_to_item quantity item) :: rest
      else (k, item) :: add_quantity food_name quantity rest
  end.

Definition has_key (food_name : string)
    (grocery_items : list (string * GroceryItem)) : bool :=
  existsb (fun kv => String.eqb (fst kv) food_name) grocery_items.

(** [categories]: each list holds the item objects themselves, so an entry
    is kept as the key of the object in [grocery_items]. *)
Fixpoint add_to_category (category food_name : string)
    (categories : list (string * list string)) : list (string * list string) :=
  match categories with
  | [] => [(category, [food_name])]
  | (c, names) :: rest =>
      if String.eqb c category
      then (c, if PyStr.in_list food_name names then names
               else names ++ [food_name]) :: rest
      else (c, names) :: add_to_category category food_name rest
  end.

(** One round of the inner loop. *)
Definition collect (st : list (string * GroceryItem) * list (string * list string))
    (meal_food : MealFood)
  : list (string * GroceryItem) * list (string * list string) :=
  let (grocery_items, categories) := st in
  let food_name := name (food_item meal_food) in
  let quantity_ := quantity meal_food in
  let category_ :=
    match category (food_item meal_food) with
    | EmptyString => "Other"
    | c => c
    end in
  let grocery_items :=
    if has_key food_name grocery_items
    then add_quantity food_name quantity_ grocery_items
    else grocery_items ++
         [(food_name,
           {| item_name := food_name;
              item_quantity := quantity_;
              item_unit := unit meal_food;
              item_category := category_;
              estimated_cost := _estimate_item_cost food_name quantity_ |})] in
  (grocery_items, add_to_category category_ food_name categories).

(** The meal foods in the order the two loops visit them. *)
Definition all_foods (meal_plan : MealPlan) : list MealFood :=
  concat (map foods (meals meal_plan)).

Definition lookup_item (grocery_items : list (string * GroceryItem))
    (food_name : string) : option GroceryItem :=
  snd <$> find (fun kv => String.eqb (fst kv) food_name) grocery_items.

Definition category_length (categories : list (string * list string))
    (category : string) : option nat :=
  (fun cn => List.length (snd cn)) <$>
    find (fun cn => String.eqb (fst cn) category) categories.

Definition _generate_shopping_tips (categories : list (string * list string))
  : list string :=
  let tips := [] in
  let tips :=
    match category_length categories "Fruits" with
    | Some n =>
        if (3 <? n)%nat
        then tips ++ ["Buy fruits at varying ripeness levels to last the whole week"]
        else tips
    | None => tips
    end in
  let tips :=
    match category_length categories "Vegetables" with
    | Some _ =>
        tips ++ ["Shop for vegetables 2-3 times per week for maximum freshness"]
    | None => tips
    end in
  let tips :=
    match category_length categories "Proteins" with
    | Some n =>
        if (2 <? n)%nat
        then tips ++ ["Consider buying proteins in bulk and freezing portions"]
        else tips
    | None => tips
    end in
  tips ++ ["Check store flyers for weekly specials on your list items";
           "Bring reusable bags and stick to your list to avoid impulse purchases"].

(** The dict the function returns when nothing was raised. *)
Record GroceryList : Type := {
  items : list GroceryItem;
  categories : list (string * list GroceryItem);
  total_items : nat;
  estimated_total_cost : float;
  shopping_tips : list string
}.

Definition generate_grocery_list (meal_plan : MealPlan) : GroceryList :=
  let (grocery_items, categories_) :=
    fold_left
      (fun st meal => fold_left collect (foods meal) st)
      (meals meal_plan) ([], []) in
  (* Calculate totals *)
  let total_items_ := List.length grocery_items in
  let estimated_total_cost_ :=
    fold_left float_add (map (fun kv => estimated_cost (snd kv)) grocery_items)
              float_zero in
  {| items := map snd grocery_items;
     categories :=
       map (fun cn =>
              (fst cn, omap (lookup_item grocery_items) (snd cn)))
           categories_;
     total_items := total_items_;
     estimated_total_cost := float_round2 estimated_total_cost_;
     shopping_tips := _generate_shopping_tips categories_ |}.

End WithFloat.

End MealPlanningService.

(** * The properties, in the words of the specification *)

Module Spec.

(** The text from the first occurrence of the character [c] on. *)
Fixpoint from_first (c : ascii) (s : string) : option string :=
  match s with
  | EmptyString => None
  | String x s' => if Ascii.eqb x c then Some s else from_first c s'
  end.

(** The text up to and including the last occurrence of [c]. *)
Fixpoint upto_last (c : ascii) (s : string) : option string :=
  match s with
  | EmptyString => None
  | String x s' =>
      match upto_last c s' with
      | Some p => Some (String x p)
      | None => if Ascii.eqb x c then Some (String x EmptyString) else None
      end
  end.

(** The substring from the first ['{'] to the last ['}'] after it. *)
Definition brace_span (s : string) : option string :=
  match from_first "{" s with
  | Some (String x rest) => String x <$> upto_last "}" rest
  | _ => None
  end.

(** What follows the prefix [p] of [s]. *)
Fixpoint strip_prefix (p s : string) : option string :=
  match p, s with
  | EmptyString, _ => Some s
  | String a p', String b s' => if Ascii.eqb a b then strip_prefix p' s' else None
  | String _ _, EmptyString => None
  end.

(** The text before and the text after the first occurrence of [p]. *)
Fixpoint split_at_first (p s : string) : option (string * string) :=
  match strip_prefix p s with
  | Some after => Some (EmptyString, after)
  | None =>
      match s with
      | EmptyString => None
      | String x s' =>
          match split_at_first p s' with
          | Some (before, after) => Some (String x before, after)
          | None => None
          end
      end
  end.

(** [s.lstrip()] and [s.rstrip()] *)
Fixpoint lstrip (s : string) : string :=
  match s with
  | String x s' => if PyStr.isspace x then lstrip s' else s
  | EmptyString => EmptyString
  end.

Fixpoint rstrip (s : string) : string :=
  match s with
  | EmptyString => EmptyString
  | String x s' =>
      match rstrip s' with
      | EmptyString => if PyStr.isspace x then EmptyString else String x EmptyString
      | r => String x r
      end
  end.

(** The contents of the first fenced block: what stands between the first
    "```json" and the first "```" after it, without the whitespace at
    either end. *)
Definition fence_contents (s : string) : option string :=
  match split_at_first "```json" s with
  | Some (_, after) =>
      match split_at_first "```" (lstrip after) with
      | Some (body, _) => Some (rstrip body)
      | None => None
      end
  | None => None
  end.

(** [p] occurs in [s] as a substring. *)
Definition occurs_in (p s : string) : Prop :=
  exists before after, s = (before ++ p ++ after)%string.

(** The words that immediately follow a word of [triggers], in order. *)
Fixpoint followers (triggers words : list string) : list string :=
  match words with
  | word :: (next :: _) as rest =>
      if decide (word ∈ triggers)
      then next :: followers triggers rest
      else followers triggers rest
  | _ => []
  end.

(** The row of a session that holds the preferences read from messages, and
    what it records under a field of its value. *)
Definition preferences_row (context_items : list ChatContextService.ChatContext)
  : option ChatContextService.ChatContext :=
  find (fun item =>
          String.eqb (ChatContextService.context_type item) "nutrition_preferences"
          && String.eqb (ChatContextService.key item) "extracted_preferences")
       context_items.

Definition recorded (field : string)
    (context_items : list ChatContextService.ChatContext) : option pyval :=
  match preferences_row context_items with
  | Some row =>
      match ChatContextService.value row with
      | PyDict entries => dict_lookup field entries
      | _ => None
      end
  | None => None
  end.

(** Every exercise entry of every day of a workout plan. *)
Definition day_exercises (day : pyval) : list pyval :=
  match day with
  | PyDict entries =>
      match dict_lookup "exercises" entries with
      | Some (PyList exercises) => exercises
      | _ => []
      end
  | _ => []
  end.

Definition plan_exercises (plan : pyval) : list pyval :=
  match plan with
  | PyDict entries =>
      match dict_lookup "days" entries with
      | Some (PyList days) => flat_map day_exercises days
      | _ => []
      end
  | _ => []
  end.

(** The health score as the sum the specification gives: the amount of a
    nutrient that is missing is 0. *)
Definition amount (nutrition : gmap string Q) (nutrient : string) : Q :=
  default 0%Q (nutrition !! nutrient).

Definition at_least (x bound : Q) : bool :=
  if Qlt_le_dec x bound then false else true.
Definition above (x bound : Q) : bool :=
  if Qlt_le_dec bound x then true else false.

Definition bonuses (nutrition : gmap string Q) : Z :=
  ((if at_least (amount nutrition "fiber") 25 then 15
    else if at_least (amount nutrition "fiber") 15 then 10 else 0)
   + (if at_least (amount nutrition "protein") 50 then 10
      else if at_least (amount nutrition "protein") 30 then 5 else 0)
   + (if at_least (amount nutrition "vitamin_c") 90 then 10 else 0)
   + (if at_least (amount nutrition "calcium") 1000 then 5 else 0))%Z.

Definition penalties (nutrition : gmap string Q) : Z :=
  ((if above (amount nutrition "sodium") 2300 then 20
    else if above (amount nutrition "sodium") 1500 then 10 else 0)
   + (if above (amount nutrition "sugars") 50 then 15
      else if above (amount nutrition "sugars") 25 then 8 else 0)
   + (if above (amount nutrition "fat") 78 then 10 else 0))%Z.

Definition clamp (lo hi x : Z) : Z := Z.max lo (Z.min hi x).

(** The value the context data holds under a context type and a key. *)
Definition context_value (context_data : gmap string (gmap string pyval))
    (type_ key_ : string) : option pyval :=
  context_data !! type_ ≫= (fun inner => inner !! key_).

(** A context row is relevant: important enough and not expired. *)
Definition relevant (now : Z) (item : ChatContextService.ChatContext) : Prop :=
  (ChatContextService.float_0_7 <= ChatContextService.importance_score item)%Q
  /\ forall t, ChatContextService.expires_at item = Some t -> ~ (t < now)%Z.

(** The quantities of the food called [food_name], over its occurrences
    among meal foods, and their sum from left to right. *)
Definition food_name_of {float : Type} (mf : @MealPlanningService.MealFood float)
  : string :=
  MealPlanningService.name (MealPlanningService.food_item mf).

Definition quantities {float : Type} (food_name : string)
    (l : list (@MealPlanningService.MealFood float)) : list float :=
  map MealPlanningService.quantity
      (filter (fun mf => food_name_of mf = food_name) l).

Definition quantities_of {float : Type} (food_name : string)
    (meal_plan : @MealPlanningService.MealPlan float) : list float :=
  quantities food_name (MealPlanningService.all_foods meal_plan).

Definition sum_of `{FloatOps float} (quantities : list float) : option float :=
  match quantities with
  | [] => None
  | q :: rest => Some (fold_left float_add rest q)
  end.

Definition food_names {float : Type}
    (meal_plan : @MealPlanningService.MealPlan float) : list string :=
  map food_name_of (MealPlanningService.all_foods meal_plan).

(** What holds of [grocery_items] once the meal foods [l] were collected. *)
Record collected `{FloatOps float} (l : list (@MealPlanningService.MealFood float))
    (gi : list (string * @MealPlanningService.GroceryItem float)) : Prop := {
  keys_NoDup : NoDup (map fst gi);
  keys_names : forall n, n ∈ map fst gi <-> n ∈ map food_name_of l;
  entries : forall k item, (k, item) ∈ gi ->
              MealPlanningService.item_name item = k
              /\ sum_of (quantities k l) = Some (MealPlanningService.item_quantity item)
}.

End Spec.

(** * Concrete inputs *)

Module Examples.

Definition quote : string := String (ascii_of_nat 34) EmptyString.

(** The reply [["daily_calories", "days"]]: a JSON array of two strings. *)
Definition list_reply : string :=
  "[" ++ quote ++ "daily_calories" ++ quote ++ ", "
      ++ quote ++ "days" ++ quote ++ "]".

Definition list_reply_value : pyval :=
  PyList [PyStr "daily_calories"; PyStr "days"].

(** A provider that answers every prompt with [list_reply]; [json_loads] is
    [json.loads] on the one text it is given. *)
Definition env_list_reply : AIClient.Env :=
  {| AIClient.provider := "deepseek";
     AIClient.get_meal_plan_prompt := fun _ => Returns "meal plan prompt";
     AIClient.get_workout_prompt := fun _ => Returns "workout prompt";
     AIClient.get_chat_prompt := fun _ _ => Returns "chat prompt";
     AIClient._call_deepseek := fun _ _ => Returns list_reply;
     AIClient._call_localai := fun _ _ => Returns list_reply;
     AIClient._call_huggingface := fun _ _ => Returns list_reply;
     AIClient._call_deepseek_stream := fun _ => ([], None);
     AIClient._call_localai_stream := fun _ => ([], None);
     AIClient.json_loads := fun s =>
       if String.eqb s list_reply then Returns list_reply_value
       else Raises JSONDecodeError |}.

(** A provider that cannot be reached. *)
Definition env_api_down : AIClient.Env :=
  {| AIClient.provider := "deepseek";
     AIClient.get_meal_plan_prompt := fun _ => Returns "meal plan prompt";
     AIClient.get_workout_prompt := fun _ => Returns "workout prompt";
     AIClient.get_chat_prompt := fun _ _ => Returns "chat prompt";
     AIClient._call_deepseek := fun _ _ => Raises (OtherError "ConnectionError");
     AIClient._call_localai := fun _ _ => Raises (OtherError "ConnectionError");
     AIClient._call_huggingface := fun _ _ => Raises (OtherError "ConnectionError");
     AIClient._call_deepseek_stream :=
       fun _ => ([], Some (OtherError "ConnectionError"));
     AIClient._call_localai_stream :=
       fun _ => ([], Some (OtherError "ConnectionError"));
     AIClient.json_loads := fun _ => Raises JSONDecodeError |}.

(** A reply with a fenced block that is no JSON, followed by an object that
    is; [json_loads] is [json.loads] on the texts it is given here. *)
Definition fenced_reply : string :=
  "```json" ++ String "010" ("not json" ++ String "010" "``` {}").

Definition env_fenced_reply : AIClient.Env :=
  {| AIClient.provider := "deepseek";
     AIClient.get_meal_plan_prompt := fun _ => Returns "meal plan prompt";
     AIClient.get_workout_prompt := fun _ => Returns "workout prompt";
     AIClient.get_chat_prompt := fun _ _ => Returns "chat prompt";
     AIClient._call_deepseek := fun _ _ => Returns fenced_reply;
     AIClient._call_localai := fun _ _ => Returns fenced_reply;
     AIClient._call_huggingface := fun _ _ => Returns fenced_reply;
     AIClient._call_deepseek_stream := fun _ => ([], None);
     AIClient._call_localai_stream := fun _ => ([], None);
     AIClient.json_loads := fun s =>
       if String.eqb s "{}" then Returns (PyDict [])
       else Raises JSONDecodeError |}.

(** A reply that is a workout plan whose one exercise has a name only:
    {"plan_name": "Run", "days": [{"exercises": [{"name": "Jog"}]}]} *)
Definition bare_plan_reply : string :=
  "{" ++ quote ++ "plan_name" ++ quote ++ ": " ++ quote ++ "Run" ++ quote ++ ", "
      ++ quote ++ "days" ++ quote ++ ": [{" ++ quote ++ "exercises" ++ quote
      ++ ": [{" ++ quote ++ "name" ++ quote ++ ": " ++ quote ++ "Jog" ++ quote
      ++ "}]}]}".

Definition bare_plan : pyval :=
  PyDict [("plan_name", PyStr "Run");
          ("days", PyList [PyDict [("exercises",
                                    PyList [PyDict [("name", PyStr "Jog")]])]])].

Definition env_bare_plan : AIClient.Env :=
  {| AIClient.provider := "deepseek";
     AIClient.get_meal_plan_prompt := fun _ => Returns "meal plan prompt";
     AIClient.get_workout_prompt := fun _ => Returns "workout prompt";
     AIClient.get_chat_prompt := fun _ _ => Returns "chat prompt";
     AIClient._call_deepseek := fun _ _ => Returns bare_plan_reply;
     AIClient._call_localai := fun _ _ => Returns bare_plan_reply;
     AIClient._call_huggingface := fun _ _ => Returns bare_plan_reply;
     AIClient._call_deepseek_stream := fun _ => ([], None);
     AIClient._call_localai_stream := fun _ => ([], None);
     AIClient.json_loads := fun s =>
       if String.eqb s bare_plan_reply then Returns bare_plan
       else Raises JSONDecodeError |}.

(** Two days of totals that differ in sodium only. *)
Definition low_sodium : gmap string Q :=
  {[ "fiber" := 30%Q; "sodium" := 1200%Q; "sugars" := 20%Q ]}.
Definition high_sodium : gmap string Q := <["sodium" := 2400%Q]> low_sodium.

(** Three context rows of importance 0.8: a goal that expires later, one that
    has expired and one that never expires. *)
Definition goal_row (k : string) (expires : option Z)
  : ChatContextService.ChatContext :=
  {| ChatContextService.context_type := "conversation_memory";
     ChatContextService.key := k;
     ChatContextService.value := PyStr "run 5k";
     ChatContextService.importance_score := 4 # 5;
     ChatContextService.last_referenced := None;
     ChatContextService.reference_count := 0;
     ChatContextService.expires_at := expires |}.

Definition context_rows : list ChatContextService.ChatContext :=
  [ goal_row "goal_mentioned_1" (Some 500%Z);
    goal_row "goal_mentioned_2" (Some 50%Z);
    goal_row "goal_mentioned_3" None ].

End Examples.

(** * More of the code *)

From Stdlib Require Import Sorted.

(** ** More Python strings *)

Module PyStrMore.

(** [s.split(sep)] for a separator of one character: the pieces between the
    separators, empty ones included. *)
Fixpoint split_on (sep : ascii) (s : string) : list string :=
  match s with
  | EmptyString => [EmptyString]
  | String c s' =>
      if Ascii.eqb c sep then EmptyString :: split_on sep s'
      else match split_on sep s' with
           | piece :: pieces => String c piece :: pieces
           | [] => [String c EmptyString]
           end
  end.

(** [s.strip()] *)
Definition strip (s : string) : string := Spec.rstrip (Spec.lstrip s).

(** [xs[:n]] for [n >= 0] *)
Definition slice_to {A} (n : nat) (xs : list A) : list A := firstn n xs.

(** [any(word in s for word in words)] *)
Definition any_in (words : list string) (s : string) : bool :=
  existsb (fun word => PyStr.contains word s) words.

(** Every character of [s] passes the test [p]. *)
Fixpoint all_chars (p : ascii -> bool) (s : string) : bool :=
  match s with
  | EmptyString => true
  | String c s' => p c && all_chars p s'
  end.

(** [s.replace(old, new)] for a non-empty [old]: the occurrences of [old]
    from left to right, not overlapping.  [skip] counts the characters of an
    occurrence that are still to be passed over. *)
Fixpoint replace_from (old new : string) (skip : nat) (s : string) : string :=
  match s with
  | EmptyString => EmptyString
  | String c s' =>
      match skip with
      | S skip' => replace_from old new skip' s'
      | O =>
          if PyStr.startswith old s
          then (new ++ replace_from old new (String.length old - 1) s')%string
          else String c (replace_from old new 0 s')
      end
  end.

Definition replace (old new s : string) : string := replace_from old new 0 s.

(** [value[0]] *)
Definition IndexError : Py.exn := Py.OtherError "list index out of range".

End PyStrMore.

(** ** core/ai_client.py: the nutrition analysis *)

Module AIClientAnalysis.

Record Env : Type := {
  client : AIClient.Env;
  get_nutrition_analysis_prompt : pyval -> outcome string
}.

Definition _extract_recommendations (analysis : string) : list string :=
  let lines := PyStrMore.split_on "010" analysis in
  let recommendations :=
    flat_map (fun line =>
                if PyStr.contains "recommend" (PyStr.lower line)
                   || PyStr.contains "suggest" (PyStr.lower line)
                then [PyStrMore.strip line] else [])
             lines in
  PyStrMore.slice_to 5 recommendations.

Definition _extract_insights (analysis : string) : list string :=
  let lines := PyStrMore.split_on "010" analysis in
  let insights :=
    flat_map (fun line =>
                if PyStrMore.any_in ["high"; "low"; "deficient"; "excess"]
                                    (PyStr.lower line)
                then [PyStrMore.strip line] else [])
             lines in
  PyStrMore.slice_to 5 insights.

Definition analyze_nutrition (env : Env) (food_data : pyval) : outcome pyval :=
  try_except
    (prompt ← get_nutrition_analysis_prompt env food_data;
     response ← AIClient._call_ai_api (client env) prompt 1000;
     Returns (PyDict [
       ("analysis", PyStr response);
       ("recommendations", PyList (map PyStr (_extract_recommendations response)));
       ("insights", PyList (map PyStr (_extract_insights response)))]))
    (fun e =>
       Returns (PyDict [
         ("analysis", PyStr "Analysis unavailable");
         ("recommendations", PyList []);
         ("insights", PyList [])])).

End AIClientAnalysis.

(** ** More concrete inputs *)

Module ExamplesMore.

(** The values that are not containers. *)
Definition not_iterable (v : pyval) : Prop :=
  match v with
  | PyNone | PyBool _ | PyInt _ | PyFloat _ => True
  | _ => False
  end.

(** A client configured for a provider the code does not know. *)
Definition env_unsupported : AIClient.Env :=
  {| AIClient.provider := "openai";
     AIClient.get_meal_plan_prompt := fun _ => Returns "meal plan prompt";
     AIClient.get_workout_prompt := fun _ => Returns "workout prompt";
     AIClient.get_chat_prompt := fun _ _ => Returns "chat prompt";
     AIClient._call_deepseek := fun _ _ => Returns "{}";
     AIClient._call_localai := fun _ _ => Returns "{}";
     AIClient._call_huggingface := fun _ _ => Returns "{}";
     AIClient._call_deepseek_stream := fun _ => ([], None);
     AIClient._call_localai_stream := fun _ => ([], None);
     AIClient.json_loads := fun _ => Raises JSONDecodeError |}.

(** A provider that answers every prompt with the JSON number 42. *)
Definition env_number_reply : AIClient.Env :=
  {| AIClient.provider := "deepseek";
     AIClient.get_meal_plan_prompt := fun _ => Returns "meal plan prompt";
     AIClient.get_workout_prompt := fun _ => Returns "workout prompt";
     AIClient.get_chat_prompt := fun _ _ => Returns "chat prompt";
     AIClient._call_deepseek := fun _ _ => Returns "42";
     AIClient._call_localai := fun _ _ => Returns "42";
     AIClient._call_huggingface := fun _ _ => Returns "42";
     AIClient._call_deepseek_stream := fun _ => ([], None);
     AIClient._call_localai_stream := fun _ => ([], None);
     AIClient.json_loads := fun s =>
       if String.eqb s "42" then Returns (PyInt 42) else Raises JSONDecodeError |}.

End ExamplesMore.

(** ** apps/chat/services.py: what a message adds to the context *)

Module ChatContextMemory.

Import ChatContextService.

(** [0.8] as the rational the float literal denotes. *)
Definition float_0_8 : Q := 3602879701896397 # 4503599627370496.

(** [timedelta(days=n)] on the clock of the rows, which counts
    microseconds. *)
Definition days (n : Z) : Z := (n * 86400000000)%Z.

(** [ChatContext.objects.create(...)] in one session: the database refuses a
    second row of the same context type and key. *)
Definition ChatContext_objects_create (row : ChatContext)
    (context_items : list ChatContext) : outcome (list ChatContext) :=
  if existsb (fun item => String.eqb (context_type item) (context_type row)
                          && String.eqb (key item) (key row)) context_items
  then Raises (OtherError "IntegrityError")
  else Returns (context_items ++ [row]).

(** [_store_conversation_memory]; [message_id] and [timestamp] are
    [user_message.id] and [user_message.created_at.isoformat()]. *)
Definition _store_conversation_memory (now : Z) (context_items : list ChatContext)
    (message_id message_content timestamp : string) : outcome (list ChatContext) :=
  let content := PyStr.lower message_content in
  if PyStrMore.any_in ["goal"; "want to"; "trying to"; "plan to"] content
  then ChatContext_objects_create
         {| context_type := "conversation_memory";
            key := "goal_mentioned_" ++ message_id;
            value := PyDict [("user_message", PyStr message_content);
                             ("timestamp", PyStr timestamp);
                             ("context", PyStr "goal_setting")];
            importance_score := float_0_8;
            last_referenced := None;
            reference_count := 0;
            expires_at := Some (now + days 30)%Z |}
         context_items
  else Returns context_items.

(** [update_context_from_message]: the rows after the call.  Nothing that is
    raised leaves it; the rows written before stay written. *)
Definition update_context_from_message (now : Z) (context_items : list ChatContext)
    (message_id message_content timestamp : string) : list ChatContext :=
  match _extract_preferences_from_message context_items message_content with
  | Raises _ => context_items
  | Returns context_items' =>
      match _store_conversation_memory now context_items'
              message_id message_content timestamp with
      | Raises _ => context_items'
      | Returns context_items'' => context_items''
      end
  end.

End ChatContextMemory.

(** ** apps/chat/models.py: the title of a session *)

Module ChatSessionTitle.

(** A session with its title and its messages, which come ordered by
    [created_at] as [Message.Meta.ordering] has them. *)
Record ChatSession : Type := {
  title : string;
  messages : list (string * string)       (* role and content *)
}.

(** [s[:n]] *)
Definition prefix (n : nat) (s : string) : string := substring 0 n s.

(** [ChatSession.generate_title] *)
Definition generate_title (self : ChatSession) : ChatSession :=
  match title self with
  | EmptyString =>
      let recent_messages :=
        firstn 3 (filter (fun m => fst m = "user") (messages self)) in
      match recent_messages with
      | [] => self
      | first :: _ =>
          let first_message := prefix 50 (snd first) in
          {| title := if Nat.eqb (String.length first_message) 50
                      then first_message ++ "..." else first_message;
             messages := messages self |}
      end
  | _ => self
  end.

(** The title a session without one gets from the content of its first
    message of the user, as a function of that content. *)
Definition title_of (content : string) : string :=
  if (String.length content <? 50)%nat then content
  else (prefix 50 content ++ "...")%string.

End ChatSessionTitle.

Module ExamplesChat.

(** A stored row of extracted preferences. *)
Definition stored_preferences : ChatContextService.ChatContext :=
  {| ChatContextService.context_type := "nutrition_preferences";
     ChatContextService.key := "extracted_preferences";
     ChatContextService.value :=
       PyDict [("diet_type", PyStr "vegan"); ("food_likes", PyList [PyStr "pizza"])];
     ChatContextService.importance_score := ChatContextService.float_0_6;
     ChatContextService.last_referenced := None;
     ChatContextService.reference_count := 0;
     ChatContextService.expires_at := None |}.

End ExamplesChat.

(** ** apps/chat/services.py: sending, streaming and summarising *)

Module ChatServiceMore.

Import ChatService.

(** The attributes of an [AIClient] object besides those of every object:
    what [__init__] sets and the methods of the class. *)
Definition AIClient_attributes : list string :=
  [ "provider"; "api_key"; "base_url"; "prompts";
    "generate_meal_plan"; "generate_workout_plan"; "chat_response";
    "analyze_nutrition"; "_call_ai_api"; "_call_ai_api_stream";
    "_call_deepseek"; "_call_deepseek_stream"; "_call_localai";
    "_call_localai_stream"; "_call_huggingface"; "_parse_json_response";
    "_validate_meal_plan"; "_validate_workout_plan"; "_get_fallback_meal_plan";
    "_get_fallback_workout_plan"; "_extract_recommendations"; "_extract_insights" ].

(** [self.ai_client.<name>]: the lookup of a method of the client. *)
Definition getattr_ai_client (name : string) : outcome unit :=
  if PyStr.in_list name AIClient_attributes then Returns tt
  else Raises (AttributeError
                 ("'AIClient' object has no attribute '" ++ name ++ "'")).

(** [ChatSession.DoesNotExist] *)
Definition DoesNotExist : exn := OtherError "ChatSession matching query does not exist.".
Definition is_DoesNotExist (e : exn) : bool :=
  match e with
  | OtherError msg => String.eqb msg "ChatSession matching query does not exist."
  | _ => false
  end.

(** [obj[key]] for a string [key]; a missing key raises [KeyError], whose
    text is the key in quotes. *)
Definition subscript (obj : pyval) (key : string) : outcome pyval :=
  match obj with
  | PyDict entries =>
      match dict_lookup key entries with
      | Some v => Returns v
      | None => Raises (OtherError ("'" ++ key ++ "'"))
      end
  | PyList _ => Raises (TypeError "list indices must be integers or slices, not str")
  | PyStr _ => Raises (TypeError "string indices must be integers, not 'str'")
  | _ => Raises (TypeError "object is not subscriptable")
  end.

(** The [parent_message_id] of a new row: none, or the id of a row of the
    table. *)
Definition parent_of (v : pyval) (st : State) : outcome (option string) :=
  match v with
  | PyNone => Returns None
  | PyStr parent_id =>
      if existsb (fun m => String.eqb (id m) parent_id) (messages st)
      then Returns (Some parent_id)
      else Raises (OtherError "IntegrityError")
  | _ => Raises (OtherError "ValidationError")
  end.

(** What the three methods reach besides the environment of the service:
    whether [ChatSession.objects.get] finds the session, what the context
    service does to the state ([update_context_from_message] catches what it
    raises), and what a method of the client that exists answers when the
    summary or the stream asks for it. *)
Record Env : Type := {
  service : ChatService.Env;
  session_found : bool;
  update_context_from_message : Message -> pyval -> State -> State;
  stream_chat_response : string -> pyval -> list pyval * option exn;
  generate_conversation_summary : string -> string -> outcome pyval;
  title_case : string -> string;                      (* str.title *)
  summary_id : string            (* the id of a new ConversationSummary *)
}.

Definition ChatSession_objects_get (env : Env) : M unit :=
  fun st => if session_found env then (Returns tt, st) else (Raises DoesNotExist, st).

(** [session.message_count += 1] and its save. *)
Definition count_message : M unit :=
  fun st =>
    (Returns tt,
     {| session := {| message_count := (message_count (session st) + 1)%Z;
                      total_tokens_used := total_tokens_used (session st);
                      avg_response_time := avg_response_time (session st) |};
        messages := messages st;
        analytics := analytics st |}).

(** The user's message as [send_message] and [stream_ai_response] create
    it. *)
Definition user_message_row (content_ message_type_ context_data_ : pyval)
    (parent : option string) (new_id : string) (created : Z) : Message :=
  {| id := new_id;
     role := "user";
     content := content_;
     message_type := message_type_;
     ai_model := PyStr "";
     prompt_tokens := PyInt 0;
     completion_tokens := PyInt 0;
     total_tokens := PyInt 0;
     confidence_score := PyNone;
     response_time_ms := PyNone;
     structured_data := PyDict [];
     context_data := context_data_;
     parent_message := parent;
     created_at := created |}.

(** A text of at most [n] characters, and a dict. *)
Definition is_short_str (n : nat) (v : pyval) : bool :=
  match v with
  | PyStr s => (String.length s <=? n)%nat
  | _ => false
  end.

Definition is_dict (v : pyval) : bool :=
  match v with PyDict _ => true | _ => false end.

Definition send_message (env : Env) (message_data : pyval) : M pyval :=
  fun st =>
    match
      (_ ← ChatSession_objects_get env;
       (* Create user message *)
       content_ ← lift (subscript message_data "message");
       message_type_ ← lift (call_get message_data "message_type" (PyStr "text"));
       context_data_ ← lift (call_get message_data "context" (PyDict []));
       parent_id ← lift (call_get message_data "parent_message_id" PyNone);
       parent ← ((fun st => (parent_of parent_id st, st)) : M (option string));
       user_message ← Message_objects_create (service env)
         (user_message_row content_ message_type_ context_data_ parent);
       (* Update session activity: the time of the last activity is no part of
          the state kept here *)
       _ ← count_message;
       (* Generate AI response *)
       ai_response ← generate_ai_response (service env) user_message;
       (* Update context based on conversation *)
       _ ← ((fun st => (Returns tt,
                        update_context_from_message env user_message ai_response st))
              : M unit);
       mret (PyDict [
         ("success", PyBool true);
         ("user_message_id", PyStr (id user_message));
         ("ai_response", ai_response)])) st
    with
    | (Returns result, st') => (Returns result, st')
    | (Raises e, st') =>
        if is_DoesNotExist e
        then (Returns (PyDict [("success", PyBool false);
                               ("error", PyStr "Chat session not found")]), st')
        else (Returns (PyDict [("success", PyBool false);
                               ("error", PyStr (str_of_exn e))]), st')
    end.

(** [full_content += content_chunk] *)
Definition str_concat (full_content : string) (chunk : pyval) : outcome string :=
  match chunk with
  | PyStr s => Returns (full_content ++ s)%string
  | _ => Raises (TypeError "can only concatenate str to str")
  end.

(** The loop of [stream_ai_response] over the chunks of the client: what it
    yields, and the full content or what it raised. *)
Fixpoint stream_chunks (session_id message_id : string) (chunks : list pyval)
    (failure : option exn) (full_content : string)
  : list pyval * outcome string :=
  match chunks with
  | [] =>
      match failure with
      | None => ([], Returns full_content)
      | Some e => ([], Raises e)
      end
  | chunk :: chunks' =>
      match
        (content_chunk ← call_get chunk "content" (PyStr "");
         full_content' ← str_concat full_content content_chunk;
         is_complete ← call_get chunk "is_complete" (PyBool false);
         metadata ← call_get chunk "metadata" (PyDict []);
         Returns (full_content',
                  PyDict [("session_id", PyStr session_id);
                          ("message_id", PyStr message_id);
                          ("content_chunk", content_chunk);
                          ("is_complete", is_complete);
                          ("metadata", metadata)]))
      with
      | Raises e => ([], Raises e)
      | Returns (full_content', item) =>
          let (items, result) :=
            stream_chunks session_id message_id chunks' failure full_content' in
          (item :: items, result)
      end
  end.

(** [ai_message.content = full_content] and the response time, saved. *)
Definition finish_message (message_id full_content : string) (elapsed : Q) : M unit :=
  fun st =>
    (Returns tt,
     {| session := session st;
        messages :=
          map (fun m =>
                 if String.eqb (id m) message_id
                 then {| id := id m; role := role m;
                         content := PyStr full_content;
                         message_type := message_type m;
                         ai_model := ai_model m;
                         prompt_tokens := prompt_tokens m;
                         completion_tokens := completion_tokens m;
                         total_tokens := total_tokens m;
                         confidence_score := confidence_score m;
                         response_time_ms := PyInt (int_of elapsed);
                         structured_data := structured_data m;
                         context_data := context_data m;
                         parent_message := parent_message m;
                         created_at := created_at m |}
                 else m)
              (messages st);
        analytics := analytics st |}).

(** [stream_ai_response]: the items the generator yields when it is run to
    its end, and the state it leaves. *)
Definition stream_ai_response (env : Env) (session_id : string) (message_data : pyval)
    (st : State) : list pyval * State :=
  let failed (e : exn) : pyval :=
    PyDict [("error", PyStr (str_of_exn e)); ("is_complete", PyBool true)] in
  match
    (_ ← ChatSession_objects_get env;
     (* Create user message *)
     content_ ← lift (subscript message_data "message");
     message_type_ ← lift (call_get message_data "message_type" (PyStr "text"));
     context_data_ ← lift (call_get message_data "context" (PyDict []));
     user_message ← Message_objects_create (service env)
       (user_message_row content_ message_type_ context_data_ None);
     (* Build context *)
     context ← _build_conversation_context (service env) user_message;
     (* Create placeholder AI message *)
     ai_message ← Message_objects_create (service env) (fun new_id created =>
       {| id := new_id;
          role := "assistant";
          content := PyStr "";
          message_type := PyStr "text";
          ai_model := PyStr "";
          prompt_tokens := PyInt 0;
          completion_tokens := PyInt 0;
          total_tokens := PyInt 0;
          confidence_score := PyNone;
          response_time_ms := PyNone;
          structured_data := PyDict [];
          context_data := PyDict [];
          parent_message := Some (id user_message);
          created_at := created |});
     (* Stream response *)
     _ ← lift (getattr_ai_client "stream_chat_response");
     mret (user_message, context, ai_message)) st
  with
  | (Raises e, st') => ([failed e], st')
  | (Returns (user_message, context, ai_message), st') =>
      let (chunks, failure) :=
        stream_chat_response env
          (match content user_message with PyStr s => s | _ => "" end) context in
      match stream_chunks session_id (id ai_message) chunks failure "" with
      | (items, Raises e) => (items ++ [failed e], st')
      | (items, Returns full_content) =>
          match
            (_ ← finish_message (id ai_message) full_content
                   (response_time (service env) st');
             count_message) st'
          with
          | (Returns _, st'') => (items, st'')
          | (Raises e, st'') => (items ++ [failed e], st'')
          end
      end
  end.

(** [_build_conversation_text] *)
Definition _build_conversation_text (messages : list ChatAnalyticsService.Message)
  : string :=
  String.concat (String "010" (String "010" EmptyString))
    (map (fun message =>
            ((if String.eqb (ChatAnalyticsService.role message) "user"
              then "User" else "Assistant")
             ++ ": " ++ ChatAnalyticsService.content message)%string)
         messages).

(** [generate_session_summary] on the messages of the session, ordered by
    [created_at]: the result, and the columns of the summary record that come
    from the summary data, when a record is created. *)
Definition generate_session_summary (env : Env) (chat_type : string)
    (messages : list ChatAnalyticsService.Message)
  : outcome pyval * option pyval :=
  match
    (if (List.length messages <? 3)%nat
     then Returns (PyDict [("success", PyBool false);
                           ("error", PyStr "Session too short to summarize")],
                   None)
     else
       (* Build conversation text *)
       let conversation_text := _build_conversation_text messages in
       (* Generate summary using AI *)
       _ ← getattr_ai_client "generate_conversation_summary";
       summary_data ← generate_conversation_summary env conversation_text chat_type;
       (* Create summary record *)
       title_ ← call_get summary_data "title"
                  (PyStr (title_case env chat_type ++ " Session Summary"));
       summary_text ← call_get summary_data "summary" (PyStr "");
       key_topics ← call_get summary_data "key_topics" (PyList []);
       action_items ← call_get summary_data "action_items" (PyList []);
       preferences ← call_get summary_data "preferences" (PyDict []);
       confidence ← call_get summary_data "confidence_score"
                      (PyFloat ChatContextMemory.float_0_8);
       let summary := PyDict [
         ("summary_type", PyStr "session");
         ("title", title_);
         ("summary_text", summary_text);
         ("key_topics", key_topics);
         ("action_items", action_items);
         ("user_preferences_learned", preferences);
         ("confidence_score", confidence)] in
       Returns (PyDict [("success", PyBool true);
                        ("summary_id", PyStr (summary_id env));
                        ("summary", summary_data)],
                Some summary))
  with
  | Returns (result, created) => (Returns result, created)
  | Raises e =>
      (Returns (PyDict [("success", PyBool false);
                        ("error", PyStr (str_of_exn e))]), None)
  end.

End ChatServiceMore.

Module ExamplesNutrition.

(** A day that earns every bonus and one that earns every penalty. *)
Definition best_day : gmap string Q :=
  {[ "fiber" := 25%Q; "protein" := 50%Q; "vitamin_c" := 90%Q; "calcium" := 1000%Q ]}.
Definition worst_day : gmap string Q :=
  {[ "sodium" := 2301%Q; "sugars" := 51%Q; "fat" := 79%Q ]}.

End ExamplesNutrition.

(** ** core/nutrition_api.py: names, totals, daily values, analysis *)

(** The arithmetic of nutrient amounts, which are ints and floats.  No law is
    assumed of it. *)
Class NumberOps (number : Type) : Type := {
  number_0 : number;                                   (* 0 *)
  number_add_scaled : number -> number -> number -> number;
                                                       (* total + value * quantity *)
  number_percent : number -> Z -> number;  (* round((value / reference) * 100, 1) *)
  number_ge : number -> Z -> bool;                     (* x >= n *)
  number_lt : number -> Z -> bool;                     (* x < n *)
  number_gt : number -> Z -> bool;                     (* x > n *)
  number_str : number -> string                        (* x in an f-string *)
}.

Module NutritionFacts.

(** [d.get(key)] and [d[key] = v] on a dict with string keys, its items in
    insertion order. *)
Fixpoint lookup {A} (key : string) (d : list (string * A)) : option A :=
  match d with
  | [] => None
  | (k, v) :: rest => if String.eqb k key then Some v else lookup key rest
  end.

Fixpoint assign {A} (key : string) (v : A) (d : list (string * A))
  : list (string * A) :=
  match d with
  | [] => [(key, v)]
  | (k, w) :: rest =>
      if String.eqb k key then (k, v) :: rest else (k, w) :: assign key v rest
  end.

(** [s.replace(c, by)] for a one-character [c]. *)
Fixpoint replace_char (c : ascii) (by_ : string) (s : string) : string :=
  match s with
  | EmptyString => EmptyString
  | String x s' =>
      if Ascii.eqb x c then (by_ ++ replace_char c by_ s')%string
      else String x (replace_char c by_ s')
  end.

(** A character that [lower] and the two [replace] calls leave alone. *)
Definition standard_char (c : ascii) : bool :=
  Ascii.eqb (PyStr.lower_char c) c && negb (Ascii.eqb c " ")
  && negb (Ascii.eqb c ",").

Definition name_mapping : list (string * string) :=
  [ ("Energy", "calories");
    ("Protein", "protein");
    ("Total lipid (fat)", "fat");
    ("Carbohydrate, by difference", "carbohydrates");
    ("Fiber, total dietary", "fiber");
    ("Sugars, total including NLEA", "sugars");
    ("Sodium, Na", "sodium");
    ("Calcium, Ca", "calcium");
    ("Iron, Fe", "iron");
    ("Vitamin C, total ascorbic acid", "vitamin_c");
    ("Vitamin D (D2 + D3)", "vitamin_d");
    ("Potassium, K", "potassium");
    ("Magnesium, Mg", "magnesium");
    ("Phosphorus, P", "phosphorus");
    ("Zinc, Zn", "zinc") ].

Definition _standardize_nutrient_name (name : string) : string :=
  match lookup name name_mapping with
  | Some standard => standard
  | None => replace_char "," "" (replace_char " " "_" (PyStr.lower name))
  end.

Definition daily_values_reference : list (string * Z) :=
  [ ("calories", 2000); ("protein", 50); ("fat", 65); ("carbohydrates", 300);
    ("fiber", 25); ("sodium", 2300); ("calcium", 1000); ("iron", 18);
    ("vitamin_c", 90); ("vitamin_d", 20); ("potassium", 3500);
    ("magnesium", 400); ("phosphorus", 1250); ("zinc", 11) ]%Z.

Section WithNumber.
Context {number : Type} `{NumberOps number}.

Definition _initialize_nutrition_totals : list (string * number) :=
  map (fun key => (key, number_0))
    [ "calories"; "protein"; "fat"; "carbohydrates"; "fiber"; "sugars";
      "sodium"; "calcium"; "iron"; "vitamin_c"; "vitamin_d"; "potassium";
      "magnesium"; "phosphorus"; "zinc" ].

(** [_add_to_nutrition_totals]: [nutrients] is the dict of the food, each
    nutrient with its 'value' if it has one.  The loop visits each key of
    [totals] once and assigns to that key only. *)
Definition _add_to_nutrition_totals (totals : list (string * number))
    (nutrients : list (string * option number)) (quantity : number)
  : list (string * number) :=
  map (fun '(key, total) =>
         match lookup key nutrients with
         | Some data =>
             (key, number_add_scaled total (default number_0 data) quantity)
         | None => (key, total)
         end)
      totals.

(** A value of the daily values: the int 0, or what [round] gave. *)
Inductive percentage : Type :=
| IntZero
| Rounded (x : number).

Definition _calculate_daily_values (nutrition : list (string * number))
  : list (string * percentage) :=
  fold_left
    (fun percentages '(nutrient, value) =>
       match lookup nutrient daily_values_reference with
       | Some reference =>
           if (reference >? 0)%Z
           then assign nutrient (Rounded (number_percent value reference)) percentages
           else assign nutrient IntZero percentages
       | None => assign nutrient IntZero percentages
       end)
    nutrition [].

Definition percentage_ge (p : percentage) (n : Z) : bool :=
  match p with IntZero => (0 >=? n)%Z | Rounded x => number_ge x n end.
Definition percentage_lt (p : percentage) (n : Z) : bool :=
  match p with IntZero => (0 <? n)%Z | Rounded x => number_lt x n end.
Definition percentage_gt (p : percentage) (n : Z) : bool :=
  match p with IntZero => (0 >? n)%Z | Rounded x => number_gt x n end.
Definition percentage_str (p : percentage) : string :=
  match p with IntZero => "0" | Rounded x => number_str x end.

Record Analysis : Type := {
  strengths : list string;
  concerns : list string;
  recommendations : list string
}.

(** The body of the loop over the daily values. *)
Definition analyze_nutrient (analysis : Analysis) (item : string * percentage)
  : Analysis :=
  let (nutrient, percentage) := item in
  let said (what : string) : string :=
    (what ++ " " ++ nutrient ++ ": " ++ percentage_str percentage
     ++ "% of daily value")%string in
  let strength (what : string) : Analysis :=
    {| strengths := strengths analysis ++ [said what];
       concerns := concerns analysis;
       recommendations := recommendations analysis |} in
  let concern (what : string) : Analysis :=
    {| strengths := strengths analysis;
       concerns := concerns analysis ++ [said what];
       recommendations := recommendations analysis |} in
  if percentage_ge percentage 100 then
    if PyStr.in_list nutrient ["sodium"; "sugars"] then concern "High"
    else strength "Excellent"
  else if percentage_ge percentage 75 then strength "Good"
  else if percentage_lt percentage 25 then concern "Low"
  else analysis.

Definition _generate_nutrition_analysis (nutrition : list (string * number))
  : Analysis :=
  (* Analyze each nutrient *)
  let daily_values := _calculate_daily_values nutrition in
  let analysis :=
    fold_left analyze_nutrient daily_values
      {| strengths := []; concerns := []; recommendations := [] |} in
  (* Generate recommendations *)
  let get (nutrient : string) : percentage :=
    default IntZero (lookup nutrient daily_values) in
  {| strengths := strengths analysis;
     concerns := concerns analysis;
     recommendations :=
       (if percentage_lt (get "fiber") 50
        then ["Increase fiber intake with whole grains, fruits, and vegetables"]
        else [])
       ++ (if percentage_gt (get "sodium") 100
           then ["Reduce sodium intake by limiting processed foods"] else [])
       ++ (if percentage_lt (get "protein") 75
           then ["Consider adding lean protein sources to your meals"] else []) |}.

(** The totals of a list of foods, each with its nutrients and quantity, as
    [get_nutrition_facts] and [_analyze_recipe_fallback] add them up. *)
Definition total_nutrition
    (foods : list (list (string * option number) * number))
  : list (string * number) :=
  fold_left (fun totals '(nutrients, quantity) =>
               _add_to_nutrition_totals totals nutrients quantity)
            foods _initialize_nutrition_totals.

End WithNumber.

End NutritionFacts.


(** ** core/nutrition_api.py: ingredients *)

Module Ingredients.

(** [\d] of a [str] pattern, among the characters below 256: 0-9. *)
Definition is_digit (c : ascii) : bool :=
  let n := N_of_ascii c in ((48 <=? n) && (n <=? 57))%N.

(** [str.isdigit] of one character: the superscripts 2, 3 and 1 as well. *)
Definition isdigit_char (c : ascii) : bool :=
  let n := N_of_ascii c in
  (is_digit c || (n =? 178) || (n =? 179) || (n =? 185))%N.

(** [s.isdigit()] *)
Definition isdigit (s : string) : bool :=
  match s with
  | EmptyString => false
  | _ => PyStrMore.all_chars isdigit_char s
  end.

(** The digits at the start of [s], and what follows them. *)
Fixpoint span_digits (s : string) : string * string :=
  match s with
  | String c s' =>
      if is_digit c
      then let (digits, rest) := span_digits s' in (String c digits, rest)
      else (EmptyString, s)
  | EmptyString => (EmptyString, EmptyString)
  end.

(** [\d+] at the start of [s], followed in the pattern by something that is
    no digit: the match takes every digit there, as giving one back leaves a
    digit where the pattern wants something else. *)
Definition digits1 (s : string) : option (string * string) :=
  match span_digits s with
  | (EmptyString, _) => None
  | (digits, rest) => Some (digits, rest)
  end.

Definition lit (c : ascii) (s : string) : option string :=
  match s with
  | String x s' => if Ascii.eqb x c then Some s' else None
  | EmptyString => None
  end.

(** [$]: the end of the string, or the newline that ends it. *)
Definition at_end (s : string) : bool :=
  match s with
  | EmptyString => true
  | String c EmptyString => Ascii.eqb c "010"
  | _ => false
  end.

(** [re.match(r'^\d+/\d+$', word)], as a truth value *)
Definition fraction_pattern (word : string) : bool :=
  match
    ('(_, r) ← digits1 word; r ← lit "/" r; '(_, r) ← digits1 r; Some r)
  with
  | Some r => at_end r
  | None => false
  end.

(** [re.match(r'^\d+-\d+/\d+$', word)], as a truth value *)
Definition mixed_pattern (word : string) : bool :=
  match
    ('(_, r) ← digits1 word; r ← lit "-" r; '(_, r) ← digits1 r;
     r ← lit "/" r; '(_, r) ← digits1 r; Some r)
  with
  | Some r => at_end r
  | None => false
  end.

Definition _is_number_or_fraction (word : string) : bool :=
  (* Check for regular numbers *)
  if isdigit (NutritionFacts.replace_char "," ""
                (NutritionFacts.replace_char "." "" word))
  then true
  (* Check for fractions like 1/2, 3/4, etc. *)
  else if fraction_pattern word then true
  (* Check for mixed numbers like 1-1/2 *)
  else if mixed_pattern word then true
  else false.

Definition quantity_words : list string :=
  [ "cup"; "cups"; "tbsp"; "tsp"; "tablespoon"; "tablespoons"; "teaspoon";
    "teaspoons"; "oz"; "ounce"; "ounces"; "lb"; "lbs"; "pound"; "pounds";
    "gram"; "grams"; "g"; "kg"; "kilogram"; "kilograms"; "ml"; "milliliter";
    "milliliters"; "liter"; "liters"; "l"; "pint"; "pints"; "quart"; "quarts";
    "gallon"; "gallons"; "piece"; "pieces"; "slice"; "slices"; "whole"; "half";
    "quarter"; "large"; "medium"; "small"; "can"; "cans"; "package";
    "packages"; "container"; "containers"; "fresh"; "frozen"; "dried";
    "chopped"; "diced"; "minced"; "sliced"; "grated"; "shredded"; "cooked";
    "raw" ].

(** The words the loop of [_extract_food_name] keeps. *)
Definition is_food_word (word : string) : bool :=
  (* Skip if it's a number (including fractions) *)
  if _is_number_or_fraction word then false
  (* Skip if it's a quantity word *)
  else if PyStr.in_list word quantity_words then false
  (* Skip common prepositions and articles *)
  else if PyStr.in_list word
            ["of"; "the"; "a"; "an"; "and"; "or"; "with"; "without"]
  then false
  else true.

Definition _extract_food_name (ingredient : string) : outcome string :=
  (* Clean and normalize the ingredient string *)
  let ingredient_clean := PyStrMore.strip (PyStr.lower ingredient) in
  let words := PyStr.split ingredient_clean in
  (* Remove numbers and quantity words *)
  let food_words := List.filter is_food_word words in
  (* Join remaining words *)
  let food_name := String.concat " " food_words in
  (* Clean up common ingredient modifiers *)
  let food_name :=
    PyStrMore.strip
      (PyStrMore.replace "organic" ""
         (PyStrMore.replace "extra virgin" "" food_name)) in
  match food_name with
  | String _ _ => Returns food_name
  | EmptyString =>
      (* Fallback to first word *)
      match PyStr.split ingredient with
      | word :: _ => Returns word
      | [] => Raises PyStrMore.IndexError
      end
  end.

(** The truth value of a value. *)
Definition truthy (v : pyval) : bool :=
  match v with
  | PyNone => false
  | PyBool b => b
  | PyInt n => negb (n =? 0)%Z
  | PyFloat x => negb (Qeq_bool x 0)
  | PyStr s => negb (String.eqb s "")
  | PyList items => match items with [] => false | _ => true end
  | PyDict entries => match entries with [] => false | _ => true end
  | PyGenerator _ => true
  end.

(** [value[0]] *)
Definition first_of (v : pyval) : outcome pyval :=
  match v with
  | PyList (item :: _) => Returns item
  | PyList [] => Raises PyStrMore.IndexError
  | PyStr (String c _) => Returns (PyStr (String c EmptyString))
  | PyStr EmptyString => Raises (OtherError "string index out of range")
  | PyDict _ => Raises (OtherError "0")
  | _ => Raises (TypeError "object is not subscriptable")
  end.

(** What [validate_ingredient_list] reaches of the rest of the class: the
    search, which answers from the cache or from the service, and the
    suggestions. *)
Record Env : Type := {
  search_food : string -> Z -> outcome pyval;
  get_food_suggestions : string -> Z -> outcome pyval
}.

Record Validated : Type := {
  valid_ingredients : list pyval;
  invalid_ingredients : list pyval;
  suggestions : list pyval;
  warnings : list string
}.

Definition add_valid (validated : Validated) (entry : pyval) : Validated :=
  {| valid_ingredients := valid_ingredients validated ++ [entry];
     invalid_ingredients := invalid_ingredients validated;
     suggestions := suggestions validated;
     warnings := warnings validated |}.

Definition add_invalid (validated : Validated) (ingredient reason : string)
  : Validated :=
  {| valid_ingredients := valid_ingredients validated;
     invalid_ingredients :=
       invalid_ingredients validated
       ++ [PyDict [("original", PyStr ingredient); ("reason", PyStr reason)]];
     suggestions := suggestions validated;
     warnings := warnings validated |}.

Definition add_suggestions (validated : Validated) (entry : pyval) : Validated :=
  {| valid_ingredients := valid_ingredients validated;
     invalid_ingredients := invalid_ingredients validated;
     suggestions := suggestions validated ++ [entry];
     warnings := warnings validated |}.

Definition add_warning (validated : Validated) (ingredient : string) : Validated :=
  {| valid_ingredients := valid_ingredients validated;
     invalid_ingredients := invalid_ingredients validated;
     suggestions := suggestions validated;
     warnings :=
       warnings validated
       ++ [("Could not validate ingredient: " ++ ingredient)%string] |}.

(** The body of the loop of [validate_ingredient_list] for one ingredient. *)
Definition validate_ingredient (env : Env) (validated : Validated)
    (ingredient : string) : outcome Validated :=
  if String.eqb ingredient ""
     || (String.length (PyStrMore.strip ingredient) <? 2)%nat
  then Returns (add_invalid validated ingredient "Too short or empty")
  else
    (* Check if ingredient can be parsed *)
    food_name ← Ingredients._extract_food_name ingredient;
    if String.eqb food_name ""
    then Returns (add_invalid validated ingredient "Could not extract food name")
    else
      (* Try to find the food in database *)
      match search_food env food_name 1 with
      | Raises _ => Returns (add_warning validated ingredient)
      | Returns search_results =>
          match call_get search_results "foods" PyNone with
          | Raises _ => Returns (add_warning validated ingredient)
          | Returns foods =>
              if truthy foods
              then
                match
                  (foods ← ChatServiceMore.subscript search_results "foods";
                   food ← first_of foods;
                   call_get food "description" (PyStr ""))
                with
                | Returns found_food =>
                    Returns (add_valid validated
                               (PyDict [("original", PyStr ingredient);
                                        ("cleaned", PyStr food_name);
                                        ("found_food", found_food)]))
                | Raises _ => Returns (add_warning validated ingredient)
                end
              else
                let validated :=
                  add_invalid validated ingredient "Food not found in database" in
                (* Try to provide suggestions *)
                match get_food_suggestions env food_name 3 with
                | Raises _ => Returns (add_warning validated ingredient)
                | Returns found =>
                    if truthy found
                    then Returns (add_suggestions validated
                                    (PyDict [("original", PyStr ingredient);
                                             ("suggestions", found)]))
                    else Returns validated
                end
          end
      end.

Fixpoint validate_loop (env : Env) (validated : Validated)
    (ingredients : list string) : outcome Validated :=
  match ingredients with
  | [] => Returns validated
  | ingredient :: rest =>
      validated ← validate_ingredient env validated ingredient;
      validate_loop env validated rest
  end.

Definition validate_ingredient_list (env : Env) (ingredients : list string)
  : outcome Validated :=
  validate_loop env
    {| valid_ingredients := []; invalid_ingredients := [];
       suggestions := []; warnings := [] |}
    ingredients.

End Ingredients.

(** The float arithmetic of [_estimate_quantity]; a float literal is given
    by the decimal number it is written as.  No law is assumed here. *)
Class QuantityOps (float : Type) : Type := {
  float_of_str : string -> outcome float;      (* float(s) *)
  float_times : float -> Q -> float;           (* x * literal *)
  float_div : float -> float -> outcome float; (* x / y *)
  float_1 : float                              (* 1.0 *)
}.

Module Quantity.

Import Ingredients.

(** [re.findall(r'\d+\.?\d*', s)[0]], when there is a match: the first run
    of digits, with the point that follows it and the digits after that
    point, if any.  Each part of the pattern takes all it can, and nothing
    follows in the pattern that could make it give any back. *)
Fixpoint first_number (s : string) : option string :=
  match s with
  | EmptyString => None
  | String c s' =>
      if is_digit c
      then
        let (digits, rest) := span_digits s in
        match rest with
        | String "." rest' =>
            let (more, _) := span_digits rest' in
            Some (digits ++ String "." more)%string
        | _ => Some digits
        end
      else first_number s'
  end.

(** [(\d+)/(\d+)] at the start of [s]: the two groups. *)
Definition fraction_at (s : string) : option (string * string) :=
  '(numerator, r) ← digits1 s;
  r ← lit "/" r;
  '(denominator, _) ← digits1 r;
  Some (numerator, denominator).

(** [re.search(r'(\d+)/(\d+)', s)] *)
Fixpoint fraction_search (s : string) : option (string * string) :=
  match fraction_at s with
  | Some groups => Some groups
  | None =>
      match s with
      | EmptyString => None
      | String _ s' => fraction_search s'
      end
  end.

(** The multiplier of the unit named in the ingredient. *)
Definition unit_factor (ingredient_lower : string) : Q :=
  if PyStrMore.any_in ["cup"; "cups"] ingredient_lower
  then 8 # 10                                   (* Cups are substantial *)
  else if PyStrMore.any_in ["tbsp"; "tablespoon"; "tablespoons"] ingredient_lower
  then 1 # 10                                   (* Tablespoons are small *)
  else if PyStrMore.any_in ["tsp"; "teaspoon"; "teaspoons"] ingredient_lower
  then 3 # 100                                  (* Teaspoons are very small *)
  else if PyStrMore.any_in ["oz"; "ounce"; "ounces"] ingredient_lower
  then 3 # 10                                   (* Ounces *)
  else if PyStrMore.any_in ["lb"; "lbs"; "pound"; "pounds"] ingredient_lower
  then 4 # 1                                    (* Pounds are large *)
  else 5 # 10.                                  (* Default moderate amount *)

(** A decimal numeral: digits, then possibly a point and digits or nothing
    after it. *)
Definition decimal_numeral (s : string) : bool :=
  match digits1 s with
  | Some (_, EmptyString) => true
  | Some (_, String "." rest) =>
      match span_digits rest with
      | (_, EmptyString) => true
      | _ => false
      end
  | _ => false
  end.

Section WithFloat.
Context {float : Type} `{QuantityOps float}.

Definition _estimate_quantity (ingredient : string) : outcome float :=
  let otherwise : outcome float :=
    (* Look for fraction patterns *)
    match fraction_search ingredient with
    | Some (group1, group2) =>
        numerator ← float_of_str group1;
        denominator ← float_of_str group2;
        ratio ← float_div numerator denominator;
        Returns (float_times ratio (5 # 10))  (* Default multiplier for fractions *)
    | None => Returns float_1                 (* Default quantity *)
    end in
  (* Look for numbers in the ingredient *)
  match first_number ingredient with
  | Some number =>
      match float_of_str number with
      | Returns quantity =>
          (* Adjust based on units (rough estimation) *)
          Returns (float_times quantity (unit_factor (PyStr.lower ingredient)))
      | Raises e => if is_ValueError e then otherwise else Raises e
      end
  | None => otherwise
  end.

End WithFloat.

(** Floats as the text they were read from with the factors applied to it,
    for examples. *)
Definition symbolic : QuantityOps (string * list Q) := {|
  float_of_str := fun s =>
    if decimal_numeral s then Returns (s, [])
    else Raises (ValueError "could not convert string to float");
  float_times := fun x factor => (fst x, snd x ++ [factor]);
  float_div := fun x y => Returns (fst x ++ "/" ++ fst y, snd x)%string;
  float_1 := ("1.0", [])
|}.

End Quantity.

(** ** apps/nutrition/services.py: more of the grocery list *)

Module GroceryMore.

(** [meal_food.food_item.category or 'Other'] *)
Definition category_of {float : Type} (meal_food : @MealPlanningService.MealFood float)
  : string :=
  match MealPlanningService.category (MealPlanningService.food_item meal_food) with
  | EmptyString => "Other"
  | c => c
  end.

(** The first meal food of the plan with the name. *)
Definition first_with_name {float : Type} (food_name : string)
    (l : list (@MealPlanningService.MealFood float))
  : option (@MealPlanningService.MealFood float) :=
  find (fun mf =>
          String.eqb (MealPlanningService.name (MealPlanningService.food_item mf))
                     food_name) l.

(** What an entry of [grocery_items] keeps of the first meal food with its
    name. *)
Definition from_first {float : Type} `{FloatOps float}
    (l : list (@MealPlanningService.MealFood float))
    (gi : list (string * @MealPlanningService.GroceryItem float)) : Prop :=
  forall k item, (k, item) ∈ gi ->
    exists first,
      first_with_name k l = Some first
      /\ MealPlanningService.estimated_cost item
         = MealPlanningService._estimate_item_cost k (MealPlanningService.quantity first)
      /\ MealPlanningService.item_unit item = MealPlanningService.unit first
      /\ MealPlanningService.item_category item = category_of first.

(** Amounts as exact numbers, without the rounding, for examples. *)
Definition exact : FloatOps Q := {|
  float_zero := 0%Q;
  float_add := Qplus;
  float_cost := fun x rate => Qred (x / 100 * rate)%Q;
  float_round2 := fun x => x
|}.

(** Rice in two meals and spinach in one. *)
Definition rice (grams : Q) : @MealPlanningService.MealFood Q :=
  {| MealPlanningService.food_item :=
       {| MealPlanningService.name := "Brown rice";
          MealPlanningService.category := "Grains" |};
     MealPlanningService.quantity := grams;
     MealPlanningService.unit := "g" |}.

Definition spinach : @MealPlanningService.MealFood Q :=
  {| MealPlanningService.food_item :=
       {| MealPlanningService.name := "Spinach";
          MealPlanningService.category := "Vegetables" |};
     MealPlanningService.quantity := 50%Q;
     MealPlanningService.unit := "g" |}.

Definition two_meals : @MealPlanningService.MealPlan Q :=
  {| MealPlanningService.meals :=
       [ {| MealPlanningService.foods := [rice 100; spinach] |};
         {| MealPlanningService.foods := [rice 300] |} ] |}.

End GroceryMore.

(** ** apps/fitness/services.py: the caller of [generate_workout_plan] *)

Module WorkoutPlanningService.

(** The attributes of the class [PromptTemplates] besides those of every
    class: its methods. *)
Definition PromptTemplates_attributes : list string :=
  [ "get_meal_plan_prompt"; "get_workout_prompt"; "get_chat_prompt";
    "get_nutrition_analysis_prompt"; "_get_current_season"; "_get_age_group";
    "_get_activity_modifier"; "_calculate_bmi"; "_get_bmi_category";
    "_assess_fitness_level"; "_assess_recovery_capacity" ].

(** [PromptTemplates.<name>] *)
Definition getattr_PromptTemplates (name : string) : outcome unit :=
  if PyStr.in_list name PromptTemplates_attributes then Returns tt
  else Raises (AttributeError
                 ("type object 'PromptTemplates' has no attribute '" ++ name ++ "'")).

(** The fields of [UserProfile] in apps/users/models.py.  A profile is given
    by the values of its fields.  The other attributes of a profile are the
    properties [bmi], [bmi_category], [bmr], [tdee], [calorie_goal] and
    [protein_goal], the method [get_macro_targets], the three lists of
    choices and what every model has; none of them is among the names that
    are read below. *)
Definition UserProfile_fields : list string :=
  [ "user"; "age"; "gender"; "height"; "weight"; "target_weight";
    "activity_level"; "fitness_level"; "primary_goal"; "dietary_restrictions";
    "food_preferences"; "food_dislikes"; "medical_conditions";
    "previous_injuries"; "sleep_hours"; "stress_level"; "water_intake";
    "preferred_meal_count"; "cooking_time_available"; "workout_time_available";
    "kitchen_equipment"; "workout_equipment"; "created_at"; "updated_at" ].

(** [user_profile.<name>] for the names read below. *)
Definition getattr_user_profile (user_profile : string -> pyval) (name : string)
  : outcome pyval :=
  if PyStr.in_list name UserProfile_fields then Returns (user_profile name)
  else Raises (AttributeError
                 ("'UserProfile' object has no attribute '" ++ name ++ "'")).

(** [hasattr(user_profile, name)] and [getattr(user_profile, name, default)] *)
Definition hasattr_user_profile (user_profile : string -> pyval) (name : string)
  : bool :=
  match getattr_user_profile user_profile name with
  | Returns _ => true
  | Raises _ => false
  end.

Definition getattr_user_profile_or (user_profile : string -> pyval)
    (name : string) (default : pyval) : pyval :=
  match getattr_user_profile user_profile name with
  | Returns v => v
  | Raises _ => default
  end.

(** What the method reaches outside itself: the profile row, what a method
    [calculate_bmi] of the profile and a method [get_workout_plan_prompt] of
    the prompt templates would answer, the date, the client, and the two
    methods that parse the reply and save the plan. *)
Record Env : Type := {
  ai_client : AIClient.Env;
  UserProfile_objects_get : outcome (string -> pyval);
  calculate_bmi : (string -> pyval) -> outcome pyval;
  current_date : string;                 (* datetime.now().strftime('%Y-%m-%d') *)
  month : Z;                             (* datetime.now().month *)
  get_workout_plan_prompt : pyval -> outcome string;
  _parse_ai_workout_plan : pyval -> outcome pyval;
  _save_workout_plan_to_db : pyval -> pyval -> outcome pyval  (* the id of the plan *)
}.

Definition _get_current_season (env : Env) : string :=
  if existsb (Z.eqb (month env)) [12; 1; 2]%Z then "winter"
  else if existsb (Z.eqb (month env)) [3; 4; 5]%Z then "spring"
  else if existsb (Z.eqb (month env)) [6; 7; 8]%Z then "summer"
  else "fall".

(** [_assess_fitness_level]; the activity level is a text or [None]. *)
Definition _assess_fitness_level (user_profile : string -> pyval) : string :=
  let activity_level :=
    getattr_user_profile_or user_profile "activity_level" (PyStr "sedentary") in
  match activity_level with
  | PyStr "sedentary" => "beginner"
  | PyStr "lightly_active" => "beginner"
  | PyStr "moderately_active" => "intermediate"
  | PyStr "very_active" => "intermediate"
  | PyStr "extremely_active" => "advanced"
  | _ => "beginner"
  end.

Definition _build_workout_plan_prompt (env : Env) (user_profile : string -> pyval)
    (params : pyval) : outcome string :=
  (* Calculate user metrics *)
  bmi ← (if hasattr_user_profile user_profile "calculate_bmi"
         then calculate_bmi env user_profile
         else Returns (PyInt 25));
  let fitness_level := _assess_fitness_level user_profile in
  (* prompt_data, entry by entry *)
  age ← getattr_user_profile user_profile "age";
  gender ← getattr_user_profile user_profile "gender";
  height ← getattr_user_profile user_profile "height_cm";
  weight ← getattr_user_profile user_profile "weight_kg";
  activity_level ← getattr_user_profile user_profile "activity_level";
  let health_conditions :=
    getattr_user_profile_or user_profile "health_conditions" (PyList []) in
  injuries_limitations ← call_get params "injuries_limitations" (PyStr "");
  duration_weeks ← call_get params "duration_weeks" (PyInt 12);
  workouts_per_week ← call_get params "workout_days_per_week" (PyInt 3);
  workout_duration ← call_get params "workout_duration" (PyInt 45);
  fitness_goals ← call_get params "fitness_goals" (PyList []);
  preferred_workout_types ← call_get params "preferred_workout_types" (PyList []);
  available_equipment ← call_get params "available_equipment"
                          (PyList [PyStr "bodyweight"]);
  preferred_times ← call_get params "preferred_times" (PyList []);
  experience_level ← call_get params "experience_level" (PyStr "beginner");
  let prompt_data := PyDict [
    ("user_profile", PyDict [
       ("age", age);
       ("gender", gender);
       ("height", height);
       ("weight", weight);
       ("bmi", bmi);
       ("activity_level", activity_level);
       ("fitness_level", PyStr fitness_level);
       ("health_conditions", health_conditions);
       ("injuries_limitations", injuries_limitations)]);
    ("plan_preferences", PyDict [
       ("duration_weeks", duration_weeks);
       ("workouts_per_week", workouts_per_week);
       ("workout_duration", workout_duration);
       ("fitness_goals", fitness_goals);
       ("preferred_workout_types", preferred_workout_types);
       ("available_equipment", available_equipment);
       ("preferred_times", preferred_times);
       ("experience_level", experience_level)]);
    ("context", PyDict [
       ("current_date", PyStr (current_date env));
       ("season", PyStr (_get_current_season env))])] in
  _ ← getattr_PromptTemplates "get_workout_plan_prompt";
  get_workout_plan_prompt env prompt_data.

Definition exercise (name : string) (sets : Z) (measure : string) (amount : Z)
  : pyval :=
  PyDict [("name", PyStr name); ("sets", PyInt sets); (measure, PyInt amount)].

Definition _generate_fallback_plan (params : pyval) : outcome pyval :=
  duration_weeks ← call_get params "duration_weeks" (PyInt 4);
  Returns (PyDict [
    ("program_overview", PyDict [
       ("name", PyStr "Basic Fitness Plan");
       ("description",
        PyStr "A simple bodyweight workout plan for general fitness");
       ("duration_weeks", duration_weeks);
       ("difficulty", PyStr "beginner")]);
    ("weekly_schedule", PyDict [
       ("monday", PyDict [
          ("name", PyStr "Upper Body");
          ("type", PyStr "strength");
          ("exercises", PyList [
             exercise "Push-ups" 3 "reps" 10;
             exercise "Pull-ups" 3 "reps" 5;
             exercise "Plank" 3 "duration" 30])]);
       ("wednesday", PyDict [
          ("name", PyStr "Lower Body");
          ("type", PyStr "strength");
          ("exercises", PyList [
             exercise "Squats" 3 "reps" 15;
             exercise "Lunges" 3 "reps" 10;
             exercise "Calf Raises" 3 "reps" 15])]);
       ("friday", PyDict [
          ("name", PyStr "Cardio");
          ("type", PyStr "cardio");
          ("exercises", PyList [
             exercise "Jumping Jacks" 3 "duration" 60;
             exercise "High Knees" 3 "duration" 30;
             exercise "Burpees" 3 "reps" 5])])])]).

Definition generate_personalized_workout_plan (env : Env) (params : pyval)
  : outcome pyval :=
  match
    ((* Get user profile for personalization *)
     user_profile ← UserProfile_objects_get env;
     (* Build AI prompt with user data and preferences *)
     prompt ← _build_workout_plan_prompt env user_profile params;
     (* Generate plan using AI *)
     ai_response ← AIClient.generate_workout_plan (ai_client env) (PyStr prompt);
     (* Parse and validate AI response *)
     parsed_plan ← _parse_ai_workout_plan env ai_response;
     (* Save plan to database *)
     workout_plan_id ← _save_workout_plan_to_db env params parsed_plan;
     ai_confidence ← call_get parsed_plan "confidence_score"
                       (PyFloat ChatContextMemory.float_0_8);
     Returns (PyDict [
       ("success", PyBool true);
       ("workout_plan_id", workout_plan_id);
       ("plan_data", parsed_plan);
       ("ai_confidence", ai_confidence)]))
  with
  | Returns result => Returns result
  | Raises e =>
      fallback_plan ← _generate_fallback_plan params;
      Returns (PyDict [
        ("success", PyBool false);
        ("error", PyStr (str_of_exn e));
        ("fallback_plan", fallback_plan)])
  end.

End WorkoutPlanningService.

(** ** apps/nutrition/services.py: [NutritionAnalysisService] *)

(** The numbers of the nutrition patterns, which are floats and ints: how
    they compare with an int literal, how an f-string shows them, and the
    share of protein.  No law is assumed. *)
Class PatternOps (number : Type) : Type := {
  pattern_lt : number -> Z -> bool;                 (* x < n *)
  pattern_gt : number -> Z -> bool;                 (* x > n *)
  pattern_f0 : number -> string;                    (* f'{x:.0f}' *)
  pattern_f1 : number -> string;                    (* f'{x:.1f}' *)
  protein_percent_of : number -> number -> number
                                (* (avg_protein * 4) / avg_calories * 100 *)
}.

Module NutritionAnalysisService.

Section WithNumber.
Context {number : Type} `{PatternOps number}.

(** What [_analyze_nutrition_patterns] returns for logs that are not empty,
    as far as the insights read it. *)
Record Patterns : Type := {
  avg_calories : number;
  avg_protein : number;
  avg_adherence : number;
  avg_energy : number;
  calorie_trend : number;
  energy_trend : number
}.

Definition insight (type_ priority title message recommendation action : string)
  : pyval :=
  PyDict [("type", PyStr type_); ("priority", PyStr priority);
          ("title", PyStr title); ("message", PyStr message);
          ("recommendation", PyStr recommendation); ("action", PyStr action)].

Definition _generate_calorie_insights (patterns : Patterns) : list pyval :=
  let insights := [] in
  let insights :=
    if pattern_lt (avg_calories patterns) 1200
    then insights ++ [insight "calorie_concern" "high" "Very Low Calorie Intake"
           ("Your average intake of " ++ pattern_f0 (avg_calories patterns)
            ++ " calories may be too low for optimal health.")
           "Consider increasing your calorie intake with nutrient-dense foods."
           "Consult with a healthcare provider about appropriate calorie goals."]
    else if pattern_gt (avg_calories patterns) 3000
    then insights ++ [insight "calorie_concern" "medium" "High Calorie Intake"
           ("Your average intake of " ++ pattern_f0 (avg_calories patterns)
            ++ " calories is quite high.")
           "Review portion sizes and consider more nutrient-dense, lower-calorie options."
           "Track your hunger and fullness cues to guide portion sizes."]
    else insights in
  if pattern_gt (calorie_trend patterns) 200
  then insights ++ [insight "trend" "medium" "Increasing Calorie Trend"
         ("Your calorie intake has increased by "
          ++ pattern_f0 (calorie_trend patterns) ++ " calories recently.")
         "Monitor this trend and ensure it aligns with your health goals."
         "Review recent meal choices and portion sizes."]
  else insights.

Definition _generate_macronutrient_insights (patterns : Patterns) : list pyval :=
  if pattern_gt (avg_calories patterns) 0
  then
    let protein_percent :=
      protein_percent_of (avg_protein patterns) (avg_calories patterns) in
    if pattern_lt protein_percent 15
    then [insight "macronutrient" "medium" "Low Protein Intake"
            ("Protein makes up only " ++ pattern_f1 protein_percent
             ++ "% of your calories.")
            "Aim for 15-25% of calories from protein for optimal health."
            "Add lean proteins like chicken, fish, beans, or Greek yogurt to meals."]
    else if pattern_gt protein_percent 30
    then [insight "macronutrient" "low" "High Protein Intake"
            ("Protein makes up " ++ pattern_f1 protein_percent
             ++ "% of your calories.")
            "Ensure adequate carbohydrate intake for energy and fiber."
            "Balance meals with whole grains, fruits, and vegetables."]
    else []
  else [].

Definition _generate_adherence_insights (patterns : Patterns) : list pyval :=
  if pattern_lt (avg_adherence patterns) 70
  then [insight "adherence" "high" "Low Meal Plan Adherence"
          ("Your meal plan adherence is " ++ pattern_f1 (avg_adherence patterns)
           ++ "%.")
          "Identify barriers to following your meal plan."
          "Consider adjusting your meal plan to better fit your lifestyle and preferences."]
  else if pattern_gt (avg_adherence patterns) 90
  then [insight "adherence" "positive" "Excellent Adherence"
          ("Great job! Your meal plan adherence is "
           ++ pattern_f1 (avg_adherence patterns) ++ "%.")
          "Keep up the excellent work with your nutrition plan."
          "Consider sharing your success strategies with others."]
  else [].

Definition _generate_energy_insights (patterns : Patterns) : list pyval :=
  if pattern_lt (avg_energy patterns) 4
  then [insight "energy" "high" "Low Energy Levels"
          ("Your average energy level is " ++ pattern_f1 (avg_energy patterns)
           ++ "/10.")
          "Review your nutrition timing and meal balance."
          "Ensure adequate calories, regular meal timing, and balanced macronutrients."]
  else if pattern_lt (energy_trend patterns) (-1)
  then [insight "energy" "medium" "Declining Energy Trend"
          "Your energy levels have been declining recently."
          "Evaluate recent changes in diet, sleep, or stress levels."
          "Consider adjusting meal timing or adding energizing foods like complex carbs."]
  else [].

(** [_get_priority_score] of an insight, which is a dict. *)
Definition _get_priority_score (insight_ : pyval) : Z :=
  match insight_ with
  | PyDict entries =>
      match default (PyStr "low") (dict_lookup "priority" entries) with
      | PyStr "high" => 3
      | PyStr "medium" => 2
      | PyStr "low" => 1
      | PyStr "positive" => 1
      | _ => 1
      end
  | _ => 1
  end.

(** [insights.sort(key=..., reverse=True)]: a stable sort, the higher scores
    first; of two insights with the same score the one that came first in
    the list stays first.  [place x sorted] puts [x], which came before all
    of [sorted], after the insights of a higher score. *)
Fixpoint place (x : pyval) (sorted : list pyval) : list pyval :=
  match sorted with
  | [] => [x]
  | y :: rest =>
      if (_get_priority_score x <? _get_priority_score y)%Z
      then y :: place x rest
      else x :: sorted
  end.

Fixpoint sort_by_priority (insights : list pyval) : list pyval :=
  match insights with
  | [] => []
  | x :: rest => place x (sort_by_priority rest)
  end.

(** [generate_user_insights]: [logs_empty] tells whether the list of logs is
    empty, [patterns] is what [_analyze_nutrition_patterns] does on it. *)
Definition generate_user_insights (logs_empty : bool)
    (patterns : outcome Patterns) : list pyval :=
  if logs_empty then []
  else
    match patterns with
    | Raises _ => []
    | Returns patterns =>
        let insights :=
          _generate_calorie_insights patterns
          ++ _generate_macronutrient_insights patterns
          ++ _generate_adherence_insights patterns
          ++ _generate_energy_insights patterns in
        (* Sort by priority *)
        let insights := sort_by_priority insights in
        firstn 10 insights                      (* Return top 10 insights *)
    end.

End WithNumber.

End NutritionAnalysisService.

(** * Proofs *)

(** ** The regular expressions find what the specification describes *)

Lemma append_cons (a : ascii) (p e : string) :
  (String a p ++ e)%string = String a (p ++ e)%string.
Proof. reflexivity. Qed.

Lemma length_append (p e : string) :
  String.length (p ++ e) = String.length p + String.length e.
Proof. induction p as [|x p IH]; simpl; [reflexivity|now rewrite IH]. Qed.

Lemma substring_prefix (p e : string) : substring 0 (String.length p) (p ++ e) = p.
Proof.
  induction p as [|x p IH]; simpl.
  - destruct e; reflexivity.
  - now rewrite IH.
Qed.

Lemma between_app (p e : string) : Regex.between (p ++ e) e = p.
Proof.
  unfold Regex.between. rewrite length_append.
  replace (String.length p + String.length e - String.length e)
    with (String.length p) by lia.
  apply substring_prefix.
Qed.

Lemma brace_tail_eq (s : string) :
  Regex.brace_tail s =
    match s with
    | String x s' =>
        match Regex.brace_tail s' with
        | Some m => Some m
        | None => if Ascii.eqb x "}" then Some (Regex.Marks None None s') else None
        end
    | EmptyString => None
    end.
Proof. destruct s; reflexivity. Qed.

Lemma brace_tail_spec (s : string) :
  match Regex.brace_tail s, Spec.upto_last "}" s with
  | Some m, Some p => m = Regex.Marks None None (Regex.match_end m) /\ s = (p ++ Regex.match_end m)%string
  | None, None => True
  | _, _ => False
  end.
Proof.
  induction s as [|x s IH]; [exact I|].
  rewrite brace_tail_eq. simpl Spec.upto_last.
  destruct (Regex.brace_tail s) as [m|], (Spec.upto_last "}" s) as [p|]; try contradiction.
  - destruct IH as [Hm ->]. split; [exact Hm|reflexivity].
  - destruct (Ascii.eqb x "}"); [|exact I]. split; reflexivity.
Qed.

Lemma match_at_brace (s : string) :
  Regex.match_at Regex.brace_pattern s =
    match s with
    | String x rest =>
        if Ascii.eqb x "{"
        then (fun p => Regex.Match (String x p) None) <$> Spec.upto_last "}" rest
        else None
    | EmptyString => None
    end.
Proof.
  destruct s as [|x rest]; [reflexivity|].
  unfold Regex.match_at, Regex.brace_pattern.
  change (Regex.match_here (Regex.Lit "{"%char :: ?p) (String x rest))
    with (if Ascii.eqb x "{" then Regex.match_here p rest else None).
  destruct (Ascii.eqb x "{"); [|reflexivity].
  fold Regex.brace_tail. pose proof (brace_tail_spec rest) as H.
  destruct (Regex.brace_tail rest) as [m|], (Spec.upto_last "}" rest) as [p|];
    try contradiction; [|reflexivity].
  destruct H as [Hm Hs]. simpl. rewrite Hm. simpl. f_equal. f_equal.
  rewrite Hs at 1. apply (between_app (String x p)).
Qed.

Lemma upto_last_none_tail c x s :
  Spec.upto_last c (String x s) = None -> Spec.upto_last c s = None.
Proof. simpl. destruct (Spec.upto_last c s); [discriminate|reflexivity]. Qed.

Lemma search_brace_none (s : string) :
  Spec.upto_last "}" s = None -> Regex.search Regex.brace_pattern s = None.
Proof.
  induction s as [|x s IH]; intros H.
  - reflexivity.
  - pose proof (upto_last_none_tail _ _ _ H) as H'.
    cbn [Regex.search]. rewrite match_at_brace, H'.
    destruct (Ascii.eqb x "{"); simpl; auto.
Qed.

(** [re.search] with the pattern of braces finds the text from the first
    ['{'] to the last ['}']. *)
Lemma search_brace_span (s : string) :
  Regex.group0 <$> Regex.search Regex.brace_pattern s = Spec.brace_span s.
Proof.
  unfold Spec.brace_span.
  induction s as [|x s IH]; [reflexivity|].
  cbn [Regex.search Spec.from_first]. rewrite match_at_brace.
  destruct (Ascii.eqb x "{") eqn:Hx.
  - destruct (Spec.upto_last "}" s) as [p|] eqn:Hp; simpl; [reflexivity|].
    now rewrite search_brace_none.
  - exact IH.
Qed.

(** ** The fence pattern *)

Lemma match_here_lits (p : string) (pat : list Regex.atom) (t : string) :
  Regex.match_here (Regex.lits p ++ pat) t =
    match Spec.strip_prefix p t with
    | Some e => Regex.match_here pat e
    | None => None
    end.
Proof.
  revert t. induction p as [|a p IH]; intros t; [reflexivity|].
  destruct t as [|b t]; [reflexivity|].
  simpl. rewrite Ascii.eqb_sym. destruct (Ascii.eqb a b); [apply IH|reflexivity].
Qed.

Lemma strip_prefix_app (p t e : string) :
  Spec.strip_prefix p t = Some e -> t = (p ++ e)%string.
Proof.
  revert t. induction p as [|a p IH]; intros t H; simpl in *.
  - now inversion H.
  - destruct t as [|b t]; [discriminate|].
    destruct (Ascii.eqb a b) eqn:E; [|discriminate].
    apply Ascii.eqb_eq in E. subst b. rewrite append_cons. f_equal. now apply IH.
Qed.

Lemma isspace_not_backtick x : PyStr.isspace x = true -> Ascii.eqb "`" x = false.
Proof.
  intros H. destruct (Ascii.eqb "`" x) eqn:E; [|reflexivity].
  apply Ascii.eqb_eq in E. subst x. discriminate H.
Qed.

Lemma strip_backticks_space x t :
  PyStr.isspace x = true -> Spec.strip_prefix "```" (String x t) = None.
Proof. intros H. cbn [Spec.strip_prefix]. now rewrite (isspace_not_backtick _ H). Qed.

(** [\s*```] matches where the text, its leading whitespace apart, starts
    with the three backticks. *)
Lemma fence_close_spec (t : string) :
  Regex.match_here Regex.fence_close t =
    Regex.Marks None None <$> Spec.strip_prefix "```" (Spec.lstrip t).
Proof.
  assert (Hl : forall u, Regex.match_here (Regex.lits "```") u
                         = Regex.Marks None None <$> Spec.strip_prefix "```" u).
  { intros u. rewrite <- (app_nil_r (Regex.lits "```")), match_here_lits.
    destruct (Spec.strip_prefix "```" u); reflexivity. }
  induction t as [|x t IH].
  - reflexivity.
  - change (Regex.match_here Regex.fence_close (String x t))
      with (if PyStr.isspace x
            then match Regex.match_here Regex.fence_close t with
                 | Some m => Some m
                 | None => Regex.match_here (Regex.lits "```") (String x t)
                 end
            else Regex.match_here (Regex.lits "```") (String x t)).
    cbn [Spec.lstrip]. destruct (PyStr.isspace x) eqn:Hx.
    + rewrite IH. destruct (Spec.strip_prefix "```" (Spec.lstrip t)); [reflexivity|].
      rewrite Hl, (strip_backticks_space _ _ Hx). reflexivity.
    + apply Hl.
Qed.

Lemma fence_lazy_eq (t : string) :
  Regex.match_here Regex.fence_lazy t =
    match Regex.set_end t <$> Regex.match_here Regex.fence_close t with
    | Some m => Some m
    | None =>
        match t with
        | String _ t' => Regex.match_here Regex.fence_lazy t'
        | EmptyString => None
        end
    end.
Proof. destruct t; reflexivity. Qed.

Lemma lstrip_space x t : PyStr.isspace x = true -> Spec.lstrip (String x t) = Spec.lstrip t.
Proof. intros H. cbn [Spec.lstrip]. now rewrite H. Qed.

Lemma lstrip_nonspace x t : PyStr.isspace x = false -> Spec.lstrip (String x t) = String x t.
Proof. intros H. cbn [Spec.lstrip]. now rewrite H. Qed.

Lemma split_at_first_cons p x t :
  Spec.strip_prefix p (String x t) = None ->
  Spec.split_at_first p (String x t) =
    (fun ba => (String x (fst ba), snd ba)) <$> Spec.split_at_first p t.
Proof.
  intros H. cbn [Spec.split_at_first]. rewrite H.
  destruct (Spec.split_at_first p t) as [[b a]|]; reflexivity.
Qed.

Lemma split_at_first_here p s e :
  Spec.strip_prefix p s = Some e -> Spec.split_at_first p s = Some (EmptyString, e).
Proof. intros H. destruct s; cbn [Spec.split_at_first]; now rewrite H. Qed.

Lemma strip_backticks_lstrip (t : string) :
  Spec.strip_prefix "```" (Spec.lstrip t) = None -> Spec.strip_prefix "```" t = None.
Proof.
  destruct t as [|x t]; [trivial|].
  destruct (PyStr.isspace x) eqn:Hx.
  - intros _. now apply strip_backticks_space.
  - now rewrite lstrip_nonspace.
Qed.

Lemma strip_backticks_nonspace x t e :
  Spec.strip_prefix "```" (String x t) = Some e -> PyStr.isspace x = false.
Proof.
  intros H. destruct (PyStr.isspace x) eqn:Hx; [|reflexivity].
  now rewrite strip_backticks_space in H.
Qed.

Lemma rstrip_cons_empty x b :
  Spec.rstrip (String x b) = EmptyString ->
  PyStr.isspace x = true /\ Spec.rstrip b = EmptyString.
Proof.
  cbn [Spec.rstrip]. destruct (Spec.rstrip b); [|discriminate].
  destruct (PyStr.isspace x); [auto|discriminate].
Qed.

Lemma rstrip_cons x b :
  Spec.rstrip (String x b) =
    if PyStr.isspace x && String.eqb (Spec.rstrip b) EmptyString
    then EmptyString else String x (Spec.rstrip b).
Proof.
  cbn [Spec.rstrip]. destruct (Spec.rstrip b); [|now rewrite andb_false_r].
  now destruct (PyStr.isspace x).
Qed.

(** The closing backticks stand right after leading whitespace exactly when
    the text before the first three backticks is all whitespace. *)
Lemma close_after_space (t e : string) :
  Spec.strip_prefix "```" (Spec.lstrip t) = Some e <->
  exists body, Spec.split_at_first "```" t = Some (body, e)
               /\ Spec.rstrip body = EmptyString.
Proof.
  induction t as [|x t IH].
  - split; [discriminate|]. intros (b & H & _). discriminate H.
  - destruct (PyStr.isspace x) eqn:Hx.
    + rewrite (lstrip_space _ _ Hx), IH.
      rewrite (split_at_first_cons _ _ _ (strip_backticks_space _ t Hx)).
      split.
      * intros (b & -> & Hr). exists (String x b). split; [reflexivity|].
        rewrite rstrip_cons, Hx, Hr. reflexivity.
      * intros (b & H & Hr).
        destruct (Spec.split_at_first "```" t) as [[b' e']|]; [|discriminate].
        simpl in H. inversion H; subst. apply rstrip_cons_empty in Hr as [_ Hr].
        eauto.
    + rewrite (lstrip_nonspace _ _ Hx). split.
      * intros H. exists EmptyString. now rewrite (split_at_first_here _ _ _ H).
      * intros (b & H & Hr).
        destruct (Spec.strip_prefix "```" (String x t)) as [e'|] eqn:Hp.
        -- rewrite (split_at_first_here _ _ _ Hp) in H. now inversion H.
        -- rewrite (split_at_first_cons _ _ _ Hp) in H.
           destruct (Spec.split_at_first "```" t) as [[b' e']|]; [|discriminate].
           simpl in H. inversion H; subst.
           apply rstrip_cons_empty in Hr as [Hr _]. congruence.
Qed.

(** [.*?] followed by [\s*```]: the group ends where the text before the
    first three backticks, stripped on the right, ends. *)
Lemma fence_lazy_spec (t : string) :
  match Regex.match_here Regex.fence_lazy t, Spec.split_at_first "```" t with
  | Some m, Some (body, e) =>
      exists te, m = Regex.Marks None (Some te) e
                 /\ t = (Spec.rstrip body ++ te)%string
  | None, None => True
  | _, _ => False
  end.
Proof.
  induction t as [|x t IH].
  - exact I.
  - rewrite fence_lazy_eq, fence_close_spec.
    destruct (Spec.strip_prefix "```" (Spec.lstrip (String x t))) as [e|] eqn:Hc.
    + apply close_after_space in Hc as (body & -> & Hr).
      exists (String x t). rewrite Hr. split; reflexivity.
    + pose proof (strip_backticks_lstrip _ Hc) as Hp.
      rewrite (split_at_first_cons _ _ _ Hp). cbn [fmap option_fmap option_map].
      destruct (Regex.match_here Regex.fence_lazy t) as [m|],
               (Spec.split_at_first "```" t) as [[body e]|] eqn:Hs;
        try contradiction; [|exact I].
      destruct IH as (te & -> & Ht). exists te. split; [reflexivity|].
      cbn [fst snd]. rewrite rstrip_cons.
      destruct (PyStr.isspace x && String.eqb (Spec.rstrip body) EmptyString) eqn:Hx.
      * apply andb_true_iff in Hx as [Hx Hr]. apply String.eqb_eq in Hr.
        assert (Spec.strip_prefix "```" (Spec.lstrip (String x t)) = Some e) as Hc'.
        { rewrite (lstrip_space _ _ Hx). apply close_after_space. eauto. }
        congruence.
      * rewrite append_cons. now f_equal.
Qed.

Lemma fence_open_eq (t : string) :
  Regex.match_here Regex.fence_open t =
    match t with
    | String x t' =>
        if PyStr.isspace x
        then match Regex.match_here Regex.fence_open t' with
             | Some m => Some m
             | None => Regex.match_here Regex.fence_group t
             end
        else Regex.match_here Regex.fence_group t
    | EmptyString => Regex.match_here Regex.fence_group t
    end.
Proof. destruct t; reflexivity. Qed.

Lemma fence_group_none (t : string) :
  Spec.split_at_first "```" t = None -> Regex.match_here Regex.fence_group t = None.
Proof.
  intros H. pose proof (fence_lazy_spec t) as Hl. rewrite H in Hl.
  change (Regex.match_here Regex.fence_group t)
    with (Regex.set_start t <$> Regex.match_here Regex.fence_lazy t).
  destruct (Regex.match_here Regex.fence_lazy t); [contradiction|reflexivity].
Qed.

Lemma split_backticks_lstrip (t : string) :
  Spec.split_at_first "```" (Spec.lstrip t) = None ->
  Spec.split_at_first "```" t = None.
Proof.
  induction t as [|x t IH]; [trivial|].
  destruct (PyStr.isspace x) eqn:Hx.
  - rewrite (lstrip_space _ _ Hx). intros H.
    rewrite (split_at_first_cons _ _ _ (strip_backticks_space _ t Hx)), (IH H).
    reflexivity.
  - now rewrite (lstrip_nonspace _ _ Hx).
Qed.

(** The greedy [\s*] ends up having consumed all the leading whitespace. *)
Lemma fence_open_spec (t : string) :
  Regex.match_here Regex.fence_open t = Regex.match_here Regex.fence_group (Spec.lstrip t).
Proof.
  induction t as [|x t IH]; [reflexivity|].
  rewrite fence_open_eq. destruct (PyStr.isspace x) eqn:Hx.
  - rewrite (lstrip_space _ _ Hx), IH.
    destruct (Regex.match_here Regex.fence_group (Spec.lstrip t)) eqn:Hg; [reflexivity|].
    apply fence_group_none.
    rewrite (split_at_first_cons _ _ _ (strip_backticks_space _ t Hx)).
    rewrite split_backticks_lstrip; [reflexivity|].
    pose proof (fence_lazy_spec (Spec.lstrip t)) as Hl.
    change (Regex.match_here Regex.fence_group (Spec.lstrip t))
      with (Regex.set_start (Spec.lstrip t)
              <$> Regex.match_here Regex.fence_lazy (Spec.lstrip t)) in Hg.
    destruct (Regex.match_here Regex.fence_lazy (Spec.lstrip t)); [discriminate|].
    destruct (Spec.split_at_first "```" (Spec.lstrip t)); [contradiction|reflexivity].
  - now rewrite (lstrip_nonspace _ _ Hx).
Qed.

(** A match of the fence pattern at the start of [s]. *)
Lemma match_at_fence (s : string) :
  Regex.group1 <$> Regex.match_at Regex.fence_pattern s =
    match Spec.strip_prefix "```json" s with
    | Some after =>
        match Spec.split_at_first "```" (Spec.lstrip after) with
        | Some (body, _) => Some (Some (Spec.rstrip body))
        | None => None
        end
    | None => None
    end.
Proof.
  unfold Regex.match_at, Regex.fence_pattern.
  rewrite match_here_lits.
  destruct (Spec.strip_prefix "```json" s) as [after|]; [|reflexivity].
  change (Regex.match_here _ after) with (Regex.match_here Regex.fence_open after).
  rewrite fence_open_spec.
  change (Regex.match_here Regex.fence_group (Spec.lstrip after))
    with (Regex.set_start (Spec.lstrip after)
            <$> Regex.match_here Regex.fence_lazy (Spec.lstrip after)).
  pose proof (fence_lazy_spec (Spec.lstrip after)) as Hl.
  destruct (Regex.match_here Regex.fence_lazy (Spec.lstrip after)) as [m|],
           (Spec.split_at_first "```" (Spec.lstrip after)) as [[body e]|];
    try contradiction; [|reflexivity].
  destruct Hl as (te & -> & Ht). cbn. rewrite Ht at 1. now rewrite between_app.
Qed.

Lemma split_at_first_none_tail p x t :
  Spec.split_at_first p (String x t) = None -> Spec.split_at_first p t = None.
Proof.
  cbn [Spec.split_at_first]. destruct (Spec.strip_prefix p (String x t)); [discriminate|].
  destruct (Spec.split_at_first p t) as [[b a]|]; [discriminate|reflexivity].
Qed.

Lemma fmap_none_inv {A B} (f : A -> B) (o : option A) : f <$> o = None -> o = None.
Proof. destruct o; [discriminate|reflexivity]. Qed.

Lemma search_fence_none (u : string) :
  Spec.split_at_first "```" u = None -> Regex.search Regex.fence_pattern u = None.
Proof.
  induction u as [|x u IH]; intros H.
  - reflexivity.
  - cbn [Regex.search].
    assert (Regex.match_at Regex.fence_pattern (String x u) = None) as ->.
    { apply (fmap_none_inv Regex.group1). rewrite match_at_fence.
      destruct (Spec.strip_prefix "```json" (String x u)) as [after|] eqn:Hp;
        [|reflexivity].
      apply strip_prefix_app in Hp.
      assert (Spec.strip_prefix "```" (String x u) = Some ("json" ++ after)%string) as Hq
        by (rewrite Hp; reflexivity).
      now rewrite (split_at_first_here _ _ _ Hq) in H. }
    apply IH. eapply split_at_first_none_tail, H.
Qed.

Lemma match_at_fence_none (s : string) :
  Spec.strip_prefix "```json" s = None -> Regex.match_at Regex.fence_pattern s = None.
Proof.
  intros H. apply (fmap_none_inv Regex.group1). now rewrite match_at_fence, H.
Qed.

(** [re.search] with the fence pattern captures the contents of the first
    fenced block. *)
Lemma search_fence_contents (s : string) :
  Regex.group1 <$> Regex.search Regex.fence_pattern s = Some <$> Spec.fence_contents s.
Proof.
  unfold Spec.fence_contents.
  induction s as [|x s IH]; [reflexivity|].
  cbn [Regex.search].
  destruct (Spec.strip_prefix "```json" (String x s)) as [after|] eqn:Hp.
  - rewrite (split_at_first_here _ _ _ Hp).
    pose proof (match_at_fence (String x s)) as Hm. rewrite Hp in Hm.
    destruct (Spec.split_at_first "```" (Spec.lstrip after)) as [[body e]|] eqn:Hs.
    + destruct (Regex.match_at Regex.fence_pattern (String x s)); [|discriminate].
      exact Hm.
    + apply fmap_none_inv in Hm. rewrite Hm.
      apply split_backticks_lstrip in Hs.
      apply strip_prefix_app in Hp. injection Hp as -> ->.
      clear IH Hm. rewrite !append_cons.
      change (EmptyString ++ after)%string with after.
      do 6 (cbn [Regex.search]; rewrite match_at_fence_none by reflexivity).
      now rewrite (search_fence_none _ Hs).
  - rewrite (match_at_fence_none _ Hp), (split_at_first_cons _ _ _ Hp).
    rewrite IH. destruct (Spec.split_at_first "```json" s) as [[b a]|]; reflexivity.
Qed.

Example search_fence_example :
  Regex.group1 <$> Regex.search Regex.fence_pattern
                     "Here you go: ```json  {a: [1, 2]}  ``` or ```json {b}```"
  = Some (Some "{a: [1, 2]}").
Proof. reflexivity. Qed.

Example search_brace_example :
  Regex.group0 <$> Regex.search Regex.brace_pattern "} plan: {a: {b}} or {c}."
  = Some "{a: {b}} or {c}".
Proof. reflexivity. Qed.

(** ** core/ai_client.py *)

(** What [json.loads] raises on the whole response, when it is no
    [JSONDecodeError], is raised as it is: no fallback is tried, whatever
    the response holds. *)
Lemma parse_json_response_propagates (env : AIClient.Env) (response : string)
    (e : exn) :
  AIClient.json_loads env response = Raises e ->
  is_JSONDecodeError e = false ->
  AIClient._parse_json_response env response = Raises e.
Proof.
  intros Hl He. unfold AIClient._parse_json_response, AIClient.loads.
  rewrite Hl. cbn [try_except_on]. now rewrite He.
Qed.

(** C1, as the claim states it, fails: the response below is no JSON and has
    a fenced block whose contents, 'not json', are no JSON either, so there
    is no parse of them to return; [_parse_json_response] raises the
    [JSONDecodeError] of the block, and never tries the braces that follow,
    which are valid JSON. *)
Lemma parse_json_response_fenced_block_not_json :
  AIClient.json_loads Examples.env_fenced_reply Examples.fenced_reply
  = Raises JSONDecodeError
  /\ Regex.group1 <$> Regex.search Regex.fence_pattern Examples.fenced_reply
     = Some (Some "not json")
  /\ AIClient.json_loads Examples.env_fenced_reply "not json" = Raises JSONDecodeError
  /\ Regex.group0 <$> Regex.search Regex.brace_pattern Examples.fenced_reply
     = Some "{}"
  /\ AIClient.json_loads Examples.env_fenced_reply "{}" = Returns (PyDict [])
  /\ AIClient._parse_json_response Examples.env_fenced_reply Examples.fenced_reply
     = Raises JSONDecodeError.
Proof. repeat split; vm_compute; reflexivity. Qed.

(** C1, amended. [_parse_json_response] returns what [json.loads] returns on
    the whole response.  When [json.loads] raises [JSONDecodeError] there,
    the result is that of [json.loads] on the contents of the first fenced
    block when there is one, else on the text from the first ['{'] to the
    last ['}'] when there is one, and else the [ValueError] that no JSON was
    found; the parse of the block or of the braces is final, returned or
    raised, and a block that does not parse keeps the braces from being
    tried.  Anything else that [json.loads] raises on the whole response is
    raised as it is, without a fallback. *)
Theorem parse_json_response_order (env : AIClient.Env) (response : string) :
  AIClient._parse_json_response env response =
    match AIClient.json_loads env response with
    | Returns parsed => Returns parsed
    | Raises e =>
        if is_JSONDecodeError e
        then
          match Spec.fence_contents response with
          | Some block => AIClient.json_loads env block
          | None =>
              match Spec.brace_span response with
              | Some braces => AIClient.json_loads env braces
              | None => Raises (ValueError "No valid JSON found in response")
              end
          end
        else Raises e
    end.
Proof.
  unfold AIClient._parse_json_response, AIClient.loads.
  destruct (AIClient.json_loads env response) as [parsed|e]; [reflexivity|].
  cbn [try_except_on]. destruct (is_JSONDecodeError e); [|reflexivity].
  pose proof (search_fence_contents response) as Hf.
  pose proof (search_brace_span response) as Hb.
  destruct (Regex.search Regex.fence_pattern response) as [m|],
           (Spec.fence_contents response) as [block|]; try discriminate Hf.
  - injection Hf as Hf. now rewrite Hf.
  - destruct (Regex.search Regex.brace_pattern response) as [m|],
             (Spec.brace_span response) as [braces|]; try discriminate Hb.
    + injection Hb as Hb. now rewrite Hb.
    + reflexivity.
Qed.

(** The validation of a dict is the presence of the two keys. *)
Lemma all_in_dict (k1 k2 : string) (entries : list (string * pyval)) :
  all_in [k1; k2] (PyDict entries) = Returns true <->
  has_key k1 (PyDict entries) /\ has_key k2 (PyDict entries).
Proof.
  cbn [all_in contains Py.bind has_key].
  destruct (dict_lookup k1 entries) as [v1|], (dict_lookup k2 entries) as [v2|];
    cbn; split; try discriminate; eauto;
    intros [H1 H2]; try (destruct H1 as [? [=]]); try (destruct H2 as [? [=]]).
Qed.

(** A [try: ... except Exception:] block whose handler returns does return. *)
Lemma try_except_returns {A} (body : outcome A) (fallback : A) :
  exists a, try_except body (fun _ => Returns fallback) = Returns a
            /\ (body = Returns a \/ a = fallback).
Proof. destruct body as [a|e]; cbn; eauto. Qed.

(** [generate_meal_plan] never raises: it returns the plan of the provider
    when [_validate_meal_plan] accepts it, and the fallback plan otherwise. *)
Lemma generate_meal_plan_returns (env : AIClient.Env) (user_profile : pyval) :
  exists plan,
    AIClient.generate_meal_plan env user_profile = Returns plan
    /\ (plan = AIClient._get_fallback_meal_plan user_profile
        \/ AIClient._validate_meal_plan plan = Returns true).
Proof.
  unfold AIClient.generate_meal_plan.
  destruct (AIClient.get_meal_plan_prompt env user_profile) as [prompt|e];
    [|cbn; eauto].
  cbn [mbind outcome_bind Py.bind].
  destruct (AIClient._call_ai_api env prompt 2000) as [response|e]; [|cbn; eauto].
  cbn [mbind outcome_bind Py.bind].
  destruct (AIClient._parse_json_response env response) as [meal_plan|e];
    [|cbn; eauto].
  cbn [mbind outcome_bind Py.bind].
  destruct (AIClient._validate_meal_plan meal_plan) as [[|]|e] eqn:Hv; cbn; eauto.
Qed.

Lemma fallback_meal_plan_keys (user_profile : pyval) :
  has_key "daily_calories" (AIClient._get_fallback_meal_plan user_profile)
  /\ has_key "days" (AIClient._get_fallback_meal_plan user_profile).
Proof. split; cbn; eauto. Qed.

(** C2. When the provider answers with the JSON array
    [["daily_calories", "days"]], [_validate_meal_plan] accepts the parsed
    list, because [key in meal_plan] is true of a list that has the key as an
    item, and [generate_meal_plan] returns that list: not a dictionary and
    without the key ['daily_calories']. *)
Theorem generate_meal_plan_list_reply :
  AIClient.generate_meal_plan Examples.env_list_reply (PyDict [])
    = Returns (PyList [PyStr "daily_calories"; PyStr "days"])
  /\ ~ has_key "daily_calories" (PyList [PyStr "daily_calories"; PyStr "days"])
  /\ ~ has_key "days" (PyList [PyStr "daily_calories"; PyStr "days"]).
Proof. split; [vm_compute; reflexivity|]. split; intros []. Qed.

(** C3, as the claim states it, fails: with the provider out of reach the
    plan returned is the fallback plan, and its Plank entry has no ['reps']. *)
Lemma generate_workout_plan_plank_without_reps :
  exists plan exercise,
    AIClient.generate_workout_plan Examples.env_api_down (PyDict []) = Returns plan
    /\ In exercise (Spec.plan_exercises plan)
    /\ dict_lookup "name" (match exercise with PyDict d => d | _ => [] end)
       = Some (PyStr "Plank")
    /\ ~ has_key "reps" exercise.
Proof.
  eexists. eexists. split; [vm_compute; reflexivity|].
  split; [right; left; reflexivity|].
  split; [reflexivity|].
  cbn. intros [v Hv]. discriminate Hv.
Qed.

(** A plan of the provider is accepted on its two keys alone: the reply
    below is returned as the plan, and its one exercise, which has a name
    only, has neither ['sets'] nor ['reps']. *)
Lemma generate_workout_plan_accepts_bare_exercise :
  AIClient.generate_workout_plan Examples.env_bare_plan (PyDict [])
  = Returns Examples.bare_plan
  /\ AIClient._parse_json_response Examples.env_bare_plan Examples.bare_plan_reply
     = Returns Examples.bare_plan
  /\ Examples.bare_plan <> AIClient._get_fallback_workout_plan (PyDict [])
  /\ Spec.plan_exercises Examples.bare_plan = [PyDict [("name", PyStr "Jog")]]
  /\ ~ has_key "sets" (PyDict [("name", PyStr "Jog")])
  /\ ~ has_key "reps" (PyDict [("name", PyStr "Jog")]).
Proof.
  split; [vm_compute; reflexivity|]. split; [vm_compute; reflexivity|].
  split; [discriminate|]. split; [reflexivity|].
  split; cbn; intros [v Hv]; discriminate Hv.
Qed.

(** C3, amended. [generate_workout_plan] never raises.  It returns the plan
    of the provider, that is the parse of the reply to the workout prompt,
    whenever the prompt is built, the provider replies, the reply parses and
    [_validate_workout_plan] accepts the parse, which looks at ['plan_name']
    and ['days'] only; in every other case it returns the fallback plan.
    Every exercise entry of every day of the fallback plan has a ['sets']
    field and a ['reps'] or a ['duration'] field. *)
Theorem generate_workout_plan_exercises (env : AIClient.Env) (user_profile : pyval) :
  exists plan,
    AIClient.generate_workout_plan env user_profile = Returns plan
    /\ ((exists prompt response,
           AIClient.get_workout_prompt env user_profile = Returns prompt
           /\ AIClient._call_ai_api env prompt 1500 = Returns response
           /\ AIClient._parse_json_response env response = Returns plan
           /\ AIClient._validate_workout_plan plan = Returns true)
        \/ (plan = AIClient._get_fallback_workout_plan user_profile
            /\ forall prompt response parsed,
                 AIClient.get_workout_prompt env user_profile = Returns prompt ->
                 AIClient._call_ai_api env prompt 1500 = Returns response ->
                 AIClient._parse_json_response env response = Returns parsed ->
                 AIClient._validate_workout_plan parsed <> Returns true))
    /\ Forall (fun exercise =>
                 has_key "sets" exercise
                 /\ (has_key "reps" exercise \/ has_key "duration" exercise))
              (Spec.plan_exercises (AIClient._get_fallback_workout_plan user_profile)).
Proof.
  assert (Hfallback :
    Forall (fun exercise =>
              has_key "sets" exercise
              /\ (has_key "reps" exercise \/ has_key "duration" exercise))
           (Spec.plan_exercises (AIClient._get_fallback_workout_plan user_profile))).
  { cbn. constructor; [|constructor; [|constructor]].
    - split; [|left]; cbn; eauto.
    - split; [|right]; cbn; eauto. }
  unfold AIClient.generate_workout_plan.
  destruct (AIClient.get_workout_prompt env user_profile) as [prompt|e] eqn:Hprompt.
  2:{ eexists. split; [reflexivity|]. split; [|exact Hfallback].
      right. split; [reflexivity|]. intros ? ? ? [=]. }
  cbn [mbind outcome_bind Py.bind].
  destruct (AIClient._call_ai_api env prompt 1500) as [response|e] eqn:Hcall.
  2:{ eexists. split; [reflexivity|]. split; [|exact Hfallback].
      right. split; [reflexivity|]. intros ? ? ? [= <-]. congruence. }
  cbn [mbind outcome_bind Py.bind].
  destruct (AIClient._parse_json_response env response) as [workout_plan|e] eqn:Hparse.
  2:{ eexists. split; [reflexivity|]. split; [|exact Hfallback].
      right. split; [reflexivity|]. intros ? ? ? [= <-] Hc. congruence. }
  cbn [mbind outcome_bind Py.bind].
  destruct (AIClient._validate_workout_plan workout_plan) as [[|]|e] eqn:Hv;
    cbn [mbind outcome_bind Py.bind try_except try_except_on];
    eexists; (split; [reflexivity|]); (split; [|exact Hfallback]).
  - left. exists prompt, response. repeat split; assumption.
  - right. split; [reflexivity|].
    intros ? ? ? [= <-] Hc Hp. assert (response0 = response) as -> by congruence.
    assert (parsed = workout_plan) as -> by congruence. congruence.
  - right. split; [reflexivity|].
    intros ? ? ? [= <-] Hc Hp. assert (response0 = response) as -> by congruence.
    assert (parsed = workout_plan) as -> by congruence. congruence.
Qed.

(** ** The context service of apps/chat/services.py *)

Lemma startswith_spec (p s : string) :
  PyStr.startswith p s = true <-> exists after, s = (p ++ after)%string.
Proof.
  revert s. induction p as [|a p IH]; intros s.
  - split; [intros _; now exists s|reflexivity].
  - destruct s as [|b s].
    + split; [discriminate|]. intros [after H]. discriminate H.
    + cbn [PyStr.startswith]. destruct (Ascii.eqb a b) eqn:E.
      * apply Ascii.eqb_eq in E. subst b. rewrite IH. split.
        -- intros [after ->]. now exists after.
        -- intros [after H]. rewrite append_cons in H. injection H as ->.
           now exists after.
      * split; [discriminate|]. intros [after H]. rewrite append_cons in H.
        injection H as -> _. now rewrite Ascii.eqb_refl in E.
Qed.

Lemma contains_eq (p s : string) :
  PyStr.contains p s =
    if PyStr.startswith p s then true
    else match s with
         | EmptyString => false
         | String _ s' => PyStr.contains p s'
         end.
Proof. destruct s; reflexivity. Qed.

(** [p in s] holds exactly when [p] occurs in [s]. *)
Lemma contains_spec (p s : string) :
  PyStr.contains p s = true <-> Spec.occurs_in p s.
Proof.
  unfold Spec.occurs_in. split.
  - induction s as [|x s IH]; rewrite contains_eq;
      destruct (PyStr.startswith p _) eqn:Hp.
    + intros _. apply startswith_spec in Hp as [after ->]. now exists EmptyString, after.
    + discriminate.
    + intros _. apply startswith_spec in Hp as [after ->]. now exists EmptyString, after.
    + intros H. destruct (IH H) as (before & after & ->).
      now exists (String x before), after.
  - intros (before & after & ->). induction before as [|x before IH].
    + rewrite contains_eq.
      assert (PyStr.startswith p (EmptyString ++ p ++ after) = true) as ->; [|reflexivity].
      apply startswith_spec. now exists after.
    + rewrite contains_eq, append_cons. now destruct (PyStr.startswith p _).
Qed.

Lemma in_list_spec (x : string) (xs : list string) :
  PyStr.in_list x xs = true <-> x ∈ xs.
Proof.
  unfold PyStr.in_list. rewrite existsb_exists, list_elem_of_In. split.
  - intros (y & Hy & E). apply String.eqb_eq in E. now subst.
  - intros H. exists x. split; [exact H|apply String.eqb_refl].
Qed.

(** The loop over [enumerate(words)], started in the middle of the list. *)
Lemma scan_from (triggers suffix prefix found : list string) :
  fold_left (ChatContextService.scan_step triggers (prefix ++ suffix))
            (combine (seq (List.length prefix) (List.length suffix)) suffix) found
  = found ++ Spec.followers triggers suffix.
Proof.
  revert prefix found. induction suffix as [|word rest IH]; intros prefix found.
  - cbn. now rewrite app_nil_r.
  - cbn [List.length seq combine fold_left].
    specialize (IH (prefix ++ [word])).
    rewrite <- app_assoc, length_app in IH. cbn [app List.length] in IH.
    replace (List.length prefix + 1) with (S (List.length prefix)) in IH by lia.
    rewrite IH. clear IH.
    unfold ChatContextService.scan_step.
    destruct rest as [|next rest].
    + replace (List.length prefix + 1 <? List.length (prefix ++ [word]))%nat with false.
      * rewrite andb_false_r. reflexivity.
      * symmetry. apply Nat.ltb_ge. rewrite length_app. cbn. lia.
    + replace (List.length prefix + 1 <? List.length (prefix ++ word :: next :: rest))%nat
        with true.
      * rewrite andb_true_r.
        replace ((prefix ++ word :: next :: rest) !! (List.length prefix + 1))
          with (Some next).
        -- cbn [Spec.followers]. destruct (PyStr.in_list word triggers) eqn:Hw.
           ++ apply in_list_spec in Hw. rewrite decide_True by exact Hw.
              now rewrite <- app_assoc.
           ++ rewrite decide_False; [reflexivity|].
              intros Hin. apply in_list_spec in Hin. congruence.
        -- symmetry. rewrite lookup_app_r by lia.
           replace (List.length prefix + 1 - List.length prefix) with 1 by lia.
           reflexivity.
      * symmetry. apply Nat.ltb_lt. rewrite length_app. cbn. lia.
Qed.

(** The scan appends exactly the words that follow a trigger. *)
Lemma scan_followers (triggers words : list string) :
  ChatContextService.scan triggers words = Spec.followers triggers words.
Proof.
  unfold ChatContextService.scan, ChatContextService.enumerate.
  apply (scan_from triggers words [] []).
Qed.

Lemma orb_occurs (p q s : string) :
  PyStr.contains p s || PyStr.contains q s = true <->
  Spec.occurs_in p s \/ Spec.occurs_in q s.
Proof. now rewrite orb_true_iff, !contains_spec. Qed.

Lemma dict_lookup_set (k k' : string) (v : pyval) (d : list (string * pyval)) :
  dict_lookup k (dict_set k' v d) = if String.eqb k' k then Some v else dict_lookup k d.
Proof.
  induction d as [|[k0 w] d IH]; cbn [dict_set dict_lookup].
  - reflexivity.
  - destruct (String.eqb k0 k') eqn:E0; cbn [dict_lookup].
    + apply String.eqb_eq in E0. subst k0. now destruct (String.eqb k' k).
    + rewrite IH. destruct (String.eqb k0 k) eqn:E1; [|reflexivity].
      apply String.eqb_eq in E1. subst k0. now rewrite String.eqb_sym, E0.
Qed.

(** Comparisons of string literals are evaluated. *)
Ltac eval_string_eqb :=
  repeat match goal with
    | |- context [String.eqb ?a ?b] =>
        let r := eval vm_compute in (String.eqb a b) in
        lazymatch r with
        | true => change (String.eqb a b) with true
        | false => change (String.eqb a b) with false
        end
    end.

Lemma dict_set_keys_NoDup (k : string) (v : pyval) (d : list (string * pyval)) :
  NoDup (map fst d) -> NoDup (map fst (dict_set k v d)).
Proof.
  induction d as [|[k0 w] d IH]; intros Hnd; cbn [dict_set].
  - cbn. apply NoDup_singleton.
  - cbn [map fst] in Hnd. apply NoDup_cons in Hnd as [Hk0 Hnd].
    destruct (String.eqb k0 k) eqn:E; cbn [map fst].
    + apply NoDup_cons. auto.
    + apply NoDup_cons. split; [|auto].
      intros Hin. apply list_elem_of_fmap in Hin as ([k1 v1] & Hk & Hin).
      cbn in Hk. subst k1.
      assert (exists u, dict_lookup k0 (dict_set k v d) = Some u) as [u Hu].
      { clear -Hin. induction (dict_set k v d) as [|[k2 v2] l IHl].
        - inversion Hin.
        - cbn. destruct (String.eqb k2 k0) eqn:E2; [eauto|].
          apply elem_of_cons in Hin as [[= -> ->]|Hin]; [|auto].
          now rewrite String.eqb_refl in E2. }
      rewrite dict_lookup_set in Hu. rewrite String.eqb_sym, E in Hu.
      apply Hk0. clear -Hu. induction d as [|[k2 v2] d IHd]; [discriminate|].
      cbn in Hu. cbn [map fst]. destruct (String.eqb k2 k0) eqn:E2.
      * apply String.eqb_eq in E2. subst. left.
      * right. auto.
Qed.

(** [d.update(e)] for an [e] whose keys differ: the value of [e] where [e]
    has the key, the value of [d] elsewhere. *)
Lemma dict_lookup_update (k : string) (d e : list (string * pyval)) :
  NoDup (map fst e) ->
  dict_lookup k (dict_update d e)
  = match dict_lookup k e with
    | Some v => Some v
    | None => dict_lookup k d
    end.
Proof.
  unfold dict_update. revert d.
  induction e as [|[k0 v0] e IH]; intros d Hnd; [reflexivity|].
  cbn [map fst] in Hnd. apply NoDup_cons in Hnd as [Hk0 Hnd].
  cbn [fold_left fst snd dict_lookup]. rewrite IH by exact Hnd.
  rewrite dict_lookup_set.
  destruct (String.eqb k0 k) eqn:E; [|reflexivity].
  apply String.eqb_eq in E. subst k0.
  destruct (dict_lookup k e) as [v|] eqn:Hl; [|reflexivity].
  exfalso. apply Hk0. clear -Hl. induction e as [|[k2 v2] e IHe]; [discriminate|].
  cbn in Hl. cbn [map fst]. destruct (String.eqb k2 k) eqn:E2.
  - apply String.eqb_eq in E2. subst. left.
  - right. auto.
Qed.

Lemma extracted_preferences_keys (message_content : string) :
  NoDup (map fst (ChatContextService.extracted_preferences message_content)).
Proof.
  unfold ChatContextService.extracted_preferences.
  repeat match goal with
    | |- NoDup (map fst (if ?b then _ else _)) => destruct b
    | |- NoDup (map fst (match ?l with [] => _ | _ :: _ => _ end)) => destruct l
    | |- NoDup (map fst (dict_set _ _ _)) => apply dict_set_keys_NoDup
    | |- NoDup (map fst []) => constructor
    end.
Qed.

(** What the preferences hold of the two scans. *)
Lemma extracted_preferences_lookup (message_content : string) :
  let content := PyStr.lower message_content in
  let preferences := ChatContextService.extracted_preferences message_content in
  dict_lookup "food_likes" preferences
  = match ChatContextService.food_likes content with
    | [] => None
    | _ => Some (PyList (map PyStr (ChatContextService.food_likes content)))
    end
  /\ dict_lookup "food_dislikes" preferences
     = match ChatContextService.food_dislikes content with
       | [] => None
       | _ => Some (PyList (map PyStr (ChatContextService.food_dislikes content)))
       end.
Proof.
  intros content preferences. subst preferences.
  unfold ChatContextService.extracted_preferences. fold content.
  split;
    destruct (ChatContextService.food_likes content),
             (ChatContextService.food_dislikes content);
    repeat first
      [ progress (rewrite ?dict_lookup_set; eval_string_eqb; cbv iota)
      | match goal with |- context [if ?b then _ else _] => destruct b end ];
    reflexivity.
Qed.

Lemma preferences_row_cons (item : ChatContextService.ChatContext)
    (rest : list ChatContextService.ChatContext) :
  Spec.preferences_row (item :: rest)
  = if String.eqb (ChatContextService.context_type item) "nutrition_preferences"
       && String.eqb (ChatContextService.key item) "extracted_preferences"
    then Some item else Spec.preferences_row rest.
Proof. reflexivity. Qed.

(** What [get_or_create] and the merge leave in the row of the extracted
    preferences: the new preferences, over what the row held.  A row whose
    value is no dict has no [update]. *)
Lemma merge_into_recorded (preferences : list (string * pyval))
    (context_items : list ChatContextService.ChatContext) :
  NoDup (map fst preferences) ->
  (exists context_items',
     ChatContextService.merge_into preferences context_items = Returns context_items'
     /\ forall field,
          Spec.recorded field context_items'
          = match dict_lookup field preferences with
            | Some v => Some v
            | None => Spec.recorded field context_items
            end)
  \/ (exists row,
        Spec.preferences_row context_items = Some row
        /\ (forall entries, ChatContextService.value row <> PyDict entries)
        /\ ChatContextService.merge_into preferences context_items
           = Raises (AttributeError "object has no attribute 'update'")).
Proof.
  intros Hnd. induction context_items as [|item rest IH].
  - left. eexists. split; [reflexivity|]. intros field.
    unfold Spec.recorded. cbn.
    destruct (dict_lookup field preferences); reflexivity.
  - cbn [ChatContextService.merge_into]. unfold Spec.recorded.
    rewrite preferences_row_cons.
    destruct (String.eqb (ChatContextService.context_type item) "nutrition_preferences"
              && String.eqb (ChatContextService.key item) "extracted_preferences")
      eqn:E.
    + destruct (ChatContextService.value item) as [| | | | | |existing|] eqn:Hv;
        try (right; exists item; split; [reflexivity|];
             split; [intros entries; rewrite Hv; discriminate|reflexivity]).
      left. eexists. split; [reflexivity|]. intros field.
      rewrite preferences_row_cons. cbn [ChatContextService.context_type
        ChatContextService.key ChatContextService.value]. rewrite E.
      now apply dict_lookup_update.
    + destruct IH as [(rest' & Hm & Hrec)|(row & Hrow & Hvalue & Hm)].
      * left. rewrite Hm. eexists. split; [reflexivity|]. intros field.
        specialize (Hrec field). unfold Spec.recorded in Hrec.
        rewrite preferences_row_cons, E. exact Hrec.
      * right. exists row. rewrite Hm. auto.
Qed.

(** C4. The liked foods are exactly the words that immediately follow a
    token 'love', 'like' or 'enjoy' of the lowercased content, and that scan
    runs if and only if the lowercased content contains 'love' or 'like';
    the disliked foods are the words that follow 'hate', 'dislike' or
    'avoid', scanned if and only if the content contains 'hate' or
    'dislike'.  A list that is not empty is recorded under 'food_likes',
    respectively 'food_dislikes', of the preferences, and
    [_extract_preferences_from_message] stores it in the row of the
    extracted preferences of the session, which it creates when there is
    none: after the call the row holds these words under the key, in the
    place of what it held; an empty list leaves the key as it was.  The one
    case in which the function raises, and records nothing, is that of
    preferences to merge into a row whose value is no dict. *)
Theorem extract_preferences_food_words (message_content : string) :
  let content := PyStr.lower message_content in
  let words := PyStr.split content in
  let likes := ChatContextService.food_likes content in
  let dislikes := ChatContextService.food_dislikes content in
  let preferences := ChatContextService.extracted_preferences message_content in
  ((Spec.occurs_in "love" content \/ Spec.occurs_in "like" content ->
      likes = Spec.followers ["love"; "like"; "enjoy"] words)
   /\ (~ (Spec.occurs_in "love" content \/ Spec.occurs_in "like" content) ->
      likes = []))
  /\ ((Spec.occurs_in "hate" content \/ Spec.occurs_in "dislike" content ->
      dislikes = Spec.followers ["hate"; "dislike"; "avoid"] words)
   /\ (~ (Spec.occurs_in "hate" content \/ Spec.occurs_in "dislike" content) ->
      dislikes = []))
  /\ dict_lookup "food_likes" preferences
     = match likes with [] => None | _ => Some (PyList (map PyStr likes)) end
  /\ dict_lookup "food_dislikes" preferences
     = match dislikes with [] => None | _ => Some (PyList (map PyStr dislikes)) end
  /\ forall context_items : list ChatContextService.ChatContext,
       (exists context_items',
          ChatContextService._extract_preferences_from_message
            context_items message_content = Returns context_items'
          /\ Spec.recorded "food_likes" context_items'
             = match likes with
               | [] => Spec.recorded "food_likes" context_items
               | _ => Some (PyList (map PyStr likes))
               end
          /\ Spec.recorded "food_dislikes" context_items'
             = match dislikes with
               | [] => Spec.recorded "food_dislikes" context_items
               | _ => Some (PyList (map PyStr dislikes))
               end)
       \/ (exists row,
             Spec.preferences_row context_items = Some row
             /\ (forall entries, ChatContextService.value row <> PyDict entries)
             /\ preferences <> []
             /\ ChatContextService._extract_preferences_from_message
                  context_items message_content
                = Raises (AttributeError "object has no attribute 'update'")).
Proof.
  intros content words likes dislikes preferences.
  pose proof (extracted_preferences_lookup message_content) as [Hlikes Hdislikes].
  fold content in Hlikes, Hdislikes. fold likes in Hlikes. fold dislikes in Hdislikes.
  fold preferences in Hlikes, Hdislikes.
  split; [|split; [|split; [exact Hlikes|split; [exact Hdislikes|]]]].
  - subst likes. unfold ChatContextService.food_likes. rewrite <- orb_occurs.
    destruct (_ || _); split; try congruence; intros _; apply scan_followers.
  - subst dislikes. unfold ChatContextService.food_dislikes. rewrite <- orb_occurs.
    destruct (_ || _); split; try congruence; intros _; apply scan_followers.
  - intros context_items.
    unfold ChatContextService._extract_preferences_from_message.
    pose proof (extracted_preferences_keys message_content) as Hnd.
    fold preferences. fold preferences in Hnd.
    destruct preferences as [|kv rest] eqn:Hp.
    + left. exists context_items. split; [reflexivity|].
      cbn in Hlikes, Hdislikes.
      destruct likes; [|discriminate Hlikes].
      destruct dislikes; [|discriminate Hdislikes]. split; reflexivity.
    + destruct (merge_into_recorded (kv :: rest) context_items Hnd)
        as [(items' & Hm & Hrec)|(row & Hrow & Hvalue & Hm)].
      * left. exists items'. split; [exact Hm|].
        rewrite !Hrec, Hlikes, Hdislikes.
        destruct likes, dislikes; split; reflexivity.
      * right. exists row. repeat split; try assumption. discriminate.
Qed.

(** 'I love sushi' in a session without preferences: the new row records
    sushi as the liked food. *)
Example extract_preferences_records_sushi :
  exists context_items',
    ChatContextService._extract_preferences_from_message [] "I love sushi"
    = Returns context_items'
    /\ Spec.recorded "food_likes" context_items' = Some (PyList [PyStr "sushi"]).
Proof. eexists. split; vm_compute; reflexivity. Qed.

(** In a session that has no row of extracted preferences yet, the
    preferences read from a message are stored as a new row of importance
    0.6 that never expires; a message without preferences stores nothing. *)
Lemma extract_preferences_first_time
    (context_items : list ChatContextService.ChatContext) (message_content : string) :
  Forall (fun item =>
            ChatContextService.unique_together item
            <> ("nutrition_preferences", "extracted_preferences")) context_items ->
  ChatContextService._extract_preferences_from_message context_items message_content
  = Returns
      match ChatContextService.extracted_preferences message_content with
      | [] => context_items
      | preferences =>
          context_items ++
          [ {| ChatContextService.context_type := "nutrition_preferences";
               ChatContextService.key := "extracted_preferences";
               ChatContextService.value := PyDict preferences;
               ChatContextService.importance_score := ChatContextService.float_0_6;
               ChatContextService.last_referenced := None;
               ChatContextService.reference_count := 0;
               ChatContextService.expires_at := None |} ]
      end.
Proof.
  intros Hnew. unfold ChatContextService._extract_preferences_from_message.
  destruct (ChatContextService.extracted_preferences message_content)
    as [|kv preferences]; [reflexivity|].
  induction Hnew as [|item rest Hitem _ IH]; [reflexivity|].
  cbn [ChatContextService.merge_into].
  destruct (String.eqb (ChatContextService.context_type item) "nutrition_preferences"
            && String.eqb (ChatContextService.key item) "extracted_preferences") eqn:E.
  - apply andb_true_iff in E as [Et Ek].
    apply String.eqb_eq in Et, Ek. exfalso. apply Hitem.
    unfold ChatContextService.unique_together. now rewrite Et, Ek.
  - rewrite IH. reflexivity.
Qed.

(** ** core/nutrition_api.py *)

Lemma get_amount (nutrition : gmap string Q) (nutrient : string) :
  NutritionAPI.get nutrition nutrient 0 = Spec.amount nutrition nutrient.
Proof.
  unfold NutritionAPI.get, Spec.amount. now destruct (nutrition !! nutrient).
Qed.

Lemma Qgeb_at_least (x bound : Q) : NutritionAPI.Qgeb x bound = Spec.at_least x bound.
Proof.
  unfold NutritionAPI.Qgeb, Spec.at_least.
  destruct (Qlt_le_dec x bound) as [Hlt|Hle].
  - destruct (Qle_bool bound x) eqn:E; [|reflexivity].
    apply Qle_bool_iff in E. exfalso. apply (Qlt_not_le _ _ Hlt E).
  - now apply Qle_bool_iff.
Qed.

Lemma Qgtb_above (x bound : Q) : NutritionAPI.Qgtb x bound = Spec.above x bound.
Proof.
  unfold NutritionAPI.Qgtb, Spec.above.
  destruct (Qlt_le_dec bound x) as [Hlt|Hle].
  - destruct (Qle_bool x bound) eqn:E; [|reflexivity].
    apply Qle_bool_iff in E. exfalso. apply (Qlt_not_le _ _ Hlt E).
  - apply Qle_bool_iff in Hle. now rewrite Hle.
Qed.

Ltac split_ifs :=
  repeat match goal with
    | |- context [if ?b then _ else _] => destruct b
    end.

Lemma health_score_sum (nutrition : gmap string Q) :
  NutritionAPI._calculate_health_score nutrition
  = Spec.clamp 0 100 (50 + Spec.bonuses nutrition - Spec.penalties nutrition).
Proof.
  unfold NutritionAPI._calculate_health_score, Spec.clamp, Spec.bonuses, Spec.penalties.
  rewrite !get_amount, !Qgeb_at_least, !Qgtb_above.
  f_equal. f_equal.
  destruct (Spec.at_least (Spec.amount nutrition "fiber") 25),
           (Spec.at_least (Spec.amount nutrition "fiber") 15),
           (Spec.at_least (Spec.amount nutrition "protein") 50),
           (Spec.at_least (Spec.amount nutrition "protein") 30),
           (Spec.at_least (Spec.amount nutrition "vitamin_c") 90),
           (Spec.at_least (Spec.amount nutrition "calcium") 1000),
           (Spec.above (Spec.amount nutrition "sodium") 2300),
           (Spec.above (Spec.amount nutrition "sodium") 1500),
           (Spec.above (Spec.amount nutrition "sugars") 50),
           (Spec.above (Spec.amount nutrition "sugars") 25),
           (Spec.above (Spec.amount nutrition "fat") 78); reflexivity.
Qed.

Lemma bonuses_range (nutrition : gmap string Q) :
  (0 <= Spec.bonuses nutrition <= 40)%Z.
Proof. unfold Spec.bonuses. split_ifs; lia. Qed.

Lemma penalties_range (nutrition : gmap string Q) :
  (0 <= Spec.penalties nutrition <= 45)%Z.
Proof. unfold Spec.penalties. split_ifs; lia. Qed.

(** C5. The health score is an integer between 0 and 100: the base of 50
    plus the bonuses (fiber >= 25: 15, else fiber >= 15: 10; protein >= 50:
    10, else protein >= 30: 5; vitamin_c >= 90: 10; calcium >= 1000: 5) minus
    the penalties (sodium > 2300: 20, else sodium > 1500: 10; sugars > 50:
    15, else sugars > 25: 8; fat > 78: 10), clamped to 0..100, a nutrient
    that is missing counting as 0. *)
Theorem calculate_health_score_value (nutrition : gmap string Q) :
  NutritionAPI._calculate_health_score nutrition
  = Spec.clamp 0 100 (50 + Spec.bonuses nutrition - Spec.penalties nutrition)
  /\ (0 <= NutritionAPI._calculate_health_score nutrition <= 100)%Z.
Proof.
  split; [apply health_score_sum|].
  rewrite health_score_sum. unfold Spec.clamp. lia.
Qed.

(** The clamp changes nothing: the sum lies between 5 and 90. *)
Lemma health_score_unclamped (nutrition : gmap string Q) :
  NutritionAPI._calculate_health_score nutrition
  = (50 + Spec.bonuses nutrition - Spec.penalties nutrition)%Z.
Proof.
  rewrite health_score_sum. unfold Spec.clamp.
  pose proof (bonuses_range nutrition). pose proof (penalties_range nutrition). lia.
Qed.

Lemma at_least_agree (x y bound : Q) :
  (x == y)%Q -> Spec.at_least x bound = Spec.at_least y bound.
Proof.
  intros E. unfold Spec.at_least.
  destruct (Qlt_le_dec x bound), (Qlt_le_dec y bound); try reflexivity; lra.
Qed.

Lemma above_agree (x y bound : Q) :
  (x == y)%Q -> Spec.above x bound = Spec.above y bound.
Proof.
  intros E. unfold Spec.above.
  destruct (Qlt_le_dec bound x), (Qlt_le_dec bound y); try reflexivity; lra.
Qed.

Lemma above_mono (x y bound : Q) :
  (x <= y)%Q -> Spec.above x bound = true -> Spec.above y bound = true.
Proof.
  unfold Spec.above. intros Hxy.
  destruct (Qlt_le_dec bound x) as [Hx|Hx]; [|discriminate].
  destruct (Qlt_le_dec bound y) as [Hy|Hy]; [reflexivity|]. lra.
Qed.

(** A two-step penalty grows with the amount. *)
Lemma step_penalty_mono (x y hi lo : Q) (p q : Z) :
  (x <= y)%Q -> (0 <= q <= p)%Z ->
  ((if Spec.above x hi then p else if Spec.above x lo then q else 0)
   <= (if Spec.above y hi then p else if Spec.above y lo then q else 0))%Z.
Proof.
  intros Hxy Hpq.
  pose proof (above_mono x y hi Hxy). pose proof (above_mono x y lo Hxy).
  destruct (Spec.above x hi), (Spec.above x lo), (Spec.above y hi), (Spec.above y lo);
    try lia; intuition discriminate.
Qed.

(** C6. The health score is anti-monotone in sodium and in sugars: of two
    mappings that agree on every other nutrient, the one with the larger
    amount of sodium (respectively sugars) has the smaller or equal score. *)
Theorem health_score_antitone (nutrient : string) (n1 n2 : gmap string Q) :
  nutrient = "sodium" \/ nutrient = "sugars" ->
  (forall k, k <> nutrient -> (Spec.amount n1 k == Spec.amount n2 k)%Q) ->
  (Spec.amount n1 nutrient <= Spec.amount n2 nutrient)%Q ->
  (NutritionAPI._calculate_health_score n2 <= NutritionAPI._calculate_health_score n1)%Z.
Proof.
  intros Hn Hagree Hle. rewrite !health_score_unclamped.
  assert (Spec.bonuses n1 = Spec.bonuses n2) as ->.
  { unfold Spec.bonuses.
    rewrite !(at_least_agree (Spec.amount n1 "fiber") (Spec.amount n2 "fiber")),
      !(at_least_agree (Spec.amount n1 "protein") (Spec.amount n2 "protein")),
      !(at_least_agree (Spec.amount n1 "vitamin_c") (Spec.amount n2 "vitamin_c")),
      !(at_least_agree (Spec.amount n1 "calcium") (Spec.amount n2 "calcium"));
      try reflexivity; apply Hagree; destruct Hn as [-> | ->]; discriminate. }
  enough (Spec.penalties n1 <= Spec.penalties n2)%Z by lia.
  unfold Spec.penalties. destruct Hn as [-> | ->].
  - rewrite !(above_agree (Spec.amount n1 "sugars") (Spec.amount n2 "sugars")),
      !(above_agree (Spec.amount n1 "fat") (Spec.amount n2 "fat"))
      by (apply Hagree; discriminate).
    pose proof (step_penalty_mono _ _ 2300 1500 20 10 Hle ltac:(lia)). lia.
  - rewrite !(above_agree (Spec.amount n1 "sodium") (Spec.amount n2 "sodium")),
      !(above_agree (Spec.amount n1 "fat") (Spec.amount n2 "fat"))
      by (apply Hagree; discriminate).
    pose proof (step_penalty_mono _ _ 50 25 15 8 Hle ltac:(lia)). lia.
Qed.

(** The score of a day with 2400 mg of sodium is at most that of the same
    day with 1200 mg. *)
Lemma health_score_antitone_witness :
  (NutritionAPI._calculate_health_score Examples.high_sodium
   <= NutritionAPI._calculate_health_score Examples.low_sodium)%Z.
Proof.
  apply (health_score_antitone "sodium" Examples.low_sodium Examples.high_sodium).
  - left. reflexivity.
  - intros k Hk. unfold Spec.amount, Examples.high_sodium.
    rewrite lookup_insert_ne by congruence. reflexivity.
  - vm_compute. discriminate.
Defined.

(** ** [get_relevant_context] *)

(** In a list whose images under [f] differ, a member is determined by its
    image. *)
Lemma NoDup_fmap_member {A B} (f : A -> B) (l : list A) (x y : A) :
  NoDup (f <$> l) -> x ∈ l -> y ∈ l -> f x = f y -> x = y.
Proof.
  induction l as [|a l IH]; intros Hnd Hx Hy E.
  - inversion Hx.
  - rewrite fmap_cons in Hnd. apply NoDup_cons in Hnd as [Ha Hnd].
    apply elem_of_cons in Hx as [->|Hx], Hy as [->|Hy]; auto.
    + exfalso. apply Ha. rewrite E. now apply list_elem_of_fmap_2.
    + exfalso. apply Ha. rewrite <- E. now apply list_elem_of_fmap_2.
Qed.

Section RelevantContext.
Import ChatContextService.

(** The rows the query excludes for their expiry are the expired ones. *)
Lemma expires_at__lt_is_expired (now : Z) (item : ChatContext) :
  expires_at__lt now item = is_expired now item.
Proof. unfold expires_at__lt, is_expired. now destruct (expires_at item). Qed.

Lemma context_value_add (context_data : gmap string (gmap string pyval))
    (item : ChatContext) (t k : string) :
  Spec.context_value (add_context_item context_data item) t k =
    if decide ((context_type item, key item) = (t, k))
    then Some (value item)
    else Spec.context_value context_data t k.
Proof.
  unfold Spec.context_value, add_context_item.
  destruct (decide (context_type item = t)) as [<-|Ht].
  - rewrite lookup_insert_eq. cbn [mbind option_bind].
    assert (default ∅
              (match context_data !! context_type item with
               | Some _ => context_data
               | None => <[context_type item:=∅]> context_data
               end !! context_type item)
            = default ∅ (context_data !! context_type item)) as ->.
    { destruct (context_data !! context_type item) eqn:E.
      - now rewrite E.
      - now rewrite lookup_insert_eq. }
    destruct (decide (key item = k)) as [<-|Hk].
    + rewrite decide_True by reflexivity. apply lookup_insert_eq.
    + rewrite decide_False by congruence. rewrite lookup_insert_ne by exact Hk.
      destruct (context_data !! context_type item); [reflexivity|].
      apply lookup_empty.
  - rewrite decide_False by congruence. rewrite lookup_insert_ne by exact Ht.
    destruct (context_data !! context_type item); [reflexivity|].
    now rewrite lookup_insert_ne.
Qed.

Lemma context_value_fold_other (l : list ChatContext)
    (context_data : gmap string (gmap string pyval)) (t k : string) :
  (forall item, item ∈ l -> unique_together item <> (t, k)) ->
  Spec.context_value (fold_left add_context_item l context_data) t k
  = Spec.context_value context_data t k.
Proof.
  revert context_data. induction l as [|a l IH]; intros context_data H.
  - reflexivity.
  - cbn [fold_left]. rewrite IH.
    + rewrite context_value_add, decide_False; [reflexivity|].
      apply (H a). left.
    + intros item Hin. apply H. now right.
Qed.

Lemma context_value_fold_row (l : list ChatContext)
    (context_data : gmap string (gmap string pyval)) (item : ChatContext) :
  NoDup (unique_together <$> l) -> item ∈ l ->
  Spec.context_value (fold_left add_context_item l context_data)
                     (context_type item) (key item)
  = Some (value item).
Proof.
  revert context_data. induction l as [|a l IH]; intros context_data Hnd Hin.
  - inversion Hin.
  - cbn [fold_left]. rewrite fmap_cons in Hnd. apply NoDup_cons in Hnd as [Ha Hnd].
    apply elem_of_cons in Hin as [->|Hin].
    + rewrite context_value_fold_other.
      * rewrite context_value_add, decide_True; reflexivity.
      * intros item Hitem E. apply Ha. change (unique_together item = unique_together a) in E.
        rewrite <- E. now apply list_elem_of_fmap_2.
    + now apply IH.
Qed.

Lemma selected_relevant (now : Z) (context_items : list ChatContext) (item : ChatContext) :
  item ∈ high_importance_context now context_items <->
  item ∈ context_items /\ Spec.relevant now item.
Proof.
  unfold high_importance_context, Spec.relevant.
  rewrite !list_elem_of_filter.
  unfold importance_score__gte, expires_at__lt.
  rewrite negb_True, !Is_true_true, Qle_bool_iff.
  split.
  - intros (Hexp & Himp & Hin). repeat split; [exact Hin|exact Himp|].
    intros t Ht Hlt. apply Hexp. rewrite Ht. now apply Z.ltb_lt.
  - intros (Hin & Himp & Hexp). repeat split; [|exact Himp|exact Hin].
    destruct (expires_at item) as [t|]; [|discriminate].
    intros Hlt. apply Z.ltb_lt in Hlt. now apply (Hexp t).
Qed.

Lemma selected_NoDup (now : Z) (context_items : list ChatContext) :
  NoDup (unique_together <$> context_items) ->
  NoDup (unique_together <$> high_importance_context now context_items).
Proof.
  intros H. eapply sublist_NoDup; [exact H|].
  apply fmap_sublist. unfold high_importance_context.
  etransitivity; apply sublist_filter.
Qed.

Lemma context_value_selected (now : Z) (context_items : list ChatContext)
    (t k : string) (v : pyval) :
  NoDup (unique_together <$> context_items) ->
  Spec.context_value (get_relevant_context now context_items).1 t k = Some v <->
  exists item, item ∈ context_items /\ Spec.relevant now item
               /\ context_type item = t /\ key item = k /\ value item = v.
Proof.
  intros Hnd. cbn [get_relevant_context fst].
  pose proof (selected_NoDup now _ Hnd) as Hsel.
  set (l := high_importance_context now context_items) in *.
  split.
  - intros Hv.
    destruct (decide (Exists (fun item => unique_together item = (t, k)) l)) as [Hex|Hno].
    + apply Exists_exists in Hex as (item & Hin & Hk).
      unfold unique_together in Hk. injection Hk as <- <-.
      rewrite (context_value_fold_row l ∅ item Hsel Hin) in Hv.
      injection Hv as <-. apply selected_relevant in Hin as [Hin Hrel].
      exists item. auto.
    + rewrite context_value_fold_other in Hv; [discriminate Hv|].
      intros item Hin Hk. apply Hno, Exists_exists. eauto.
  - intros (item & Hin & Hrel & <- & <- & <-).
    apply context_value_fold_row; [exact Hsel|].
    apply selected_relevant. auto.
Qed.

End RelevantContext.

(** C7. The context data returned by [get_relevant_context] holds exactly the
    rows of the session whose importance score is at least 0.7 and whose
    expiry has not passed: a row whose [expires_at] is set and strictly
    earlier than the current time is not returned, and a row without
    [expires_at] that is important enough is returned whatever its age.
    The rows of a session differ in context type or key. *)
Theorem get_relevant_context_exact (now : Z)
    (context_items : list ChatContextService.ChatContext) :
  NoDup (map ChatContextService.unique_together context_items) ->
  let context_data := (ChatContextService.get_relevant_context now context_items).1 in
  (forall t k v,
     Spec.context_value context_data t k = Some v <->
     exists item, item ∈ context_items /\ Spec.relevant now item
                  /\ ChatContextService.context_type item = t
                  /\ ChatContextService.key item = k
                  /\ ChatContextService.value item = v)
  /\ (forall item t,
        item ∈ context_items -> ChatContextService.expires_at item = Some t ->
        (t < now)%Z ->
        Spec.context_value context_data (ChatContextService.context_type item)
                           (ChatContextService.key item) = None)
  /\ (forall item,
        item ∈ context_items -> ChatContextService.expires_at item = None ->
        (ChatContextService.float_0_7 <= ChatContextService.importance_score item)%Q ->
        Spec.context_value context_data (ChatContextService.context_type item)
                           (ChatContextService.key item)
        = Some (ChatContextService.value item)).
Proof.
  intros Hnd context_data.
  assert (Hiff := fun t k v => context_value_selected now context_items t k v Hnd).
  fold context_data in Hiff.
  split; [exact Hiff|]. split.
  - intros item t Hin Hexp Hlt.
    destruct (Spec.context_value context_data _ _) as [v|] eqn:Hv; [|reflexivity].
    apply Hiff in Hv as (item' & Hin' & [_ Hrel] & Ht & Hk & _).
    assert (item' = item) as ->.
    { apply (NoDup_fmap_member ChatContextService.unique_together context_items);
        [exact Hnd|exact Hin'|exact Hin|].
      unfold ChatContextService.unique_together. congruence. }
    exfalso. exact (Hrel t Hexp Hlt).
  - intros item Hin Hexp Himp. apply Hiff. exists item.
    repeat split; auto. intros t Ht. congruence.
Qed.

(** At time 100 the goal that expired at time 50 is not in the context
    data. *)
Lemma get_relevant_context_exact_witness :
  Spec.context_value
    (ChatContextService.get_relevant_context 100 Examples.context_rows).1
    "conversation_memory" "goal_mentioned_2" = None.
Proof.
  assert (NoDup (map ChatContextService.unique_together Examples.context_rows))
    as Hnd.
  { apply (bool_decide_unpack _). vm_compute. reflexivity. }
  apply (proj1 (proj2 (get_relevant_context_exact 100 Examples.context_rows Hnd))
           (Examples.goal_row "goal_mentioned_2" (Some 50%Z)) 50%Z).
  - right. left.
  - reflexivity.
  - reflexivity.
Defined.

(** ** The chat service *)

(** [.get] on what [chat_response] returns raises [AttributeError]. *)
Lemma chat_response_has_no_get (ai : AIClient.Env) (message : string)
    (context : pyval) (key_ : string) (default_ : pyval) :
  call_get (AIClient.chat_response ai message context) key_ default_
  = Raises (AttributeError "'generator' object has no attribute 'get'").
Proof. reflexivity. Qed.

(** C8. [generate_ai_response] always ends in its exception branch: either
    the context cannot be built, or [.get('content', '')] on the generator
    object that [chat_response] returns raises [AttributeError] before any
    message is created.  The result has the message type 'error' and the
    fixed apology as content, and the one row added to the messages is the
    error message. *)
Theorem generate_ai_response_error (env : ChatService.Env)
    (user_message : ChatService.Message) (st : ChatService.State) :
  let st1 := (ChatService._build_conversation_context env user_message st).2 in
  exists (e : exn) (error_message : ChatService.Message),
    ChatService.generate_ai_response env user_message st
    = (Returns (PyDict [
         ("message_id", PyStr (ChatService.id error_message));
         ("content", PyStr ChatService.apology);
         ("message_type", PyStr "error");
         ("error", PyStr (str_of_exn e))]),
       {| ChatService.session := ChatService.session st1;
          ChatService.messages := ChatService.messages st1 ++ [error_message];
          ChatService.analytics := ChatService.analytics st1 |})
    /\ ChatService.role error_message = "assistant"
    /\ ChatService.content error_message = PyStr ChatService.apology
    /\ ChatService.message_type error_message = PyStr "error"
    /\ ChatService.parent_message error_message = Some (ChatService.id user_message)
    /\ match (ChatService._build_conversation_context env user_message st).1 with
       | Returns _ => e = AttributeError "'generator' object has no attribute 'get'"
       | Raises e' => e = e'
       end.
Proof.
  intros st1. subst st1.
  unfold ChatService.generate_ai_response, ChatService.try_except_M.
  unfold mbind at 1. unfold ChatService.M_bind at 1.
  destruct (ChatService._build_conversation_context env user_message st)
    as [[context|e] st1].
  - exists (AttributeError "'generator' object has no attribute 'get'").
    eexists. cbn. repeat split.
  - exists e. eexists. cbn. repeat split.
Qed.

(** ** The analytics service *)

(** [models] is bound neither in the module nor among the built-ins. *)
Lemma models_not_defined :
  ChatAnalyticsService.load_global "models" = Raises (NameError "models").
Proof. reflexivity. Qed.

(** [_analyze_communication_patterns] stops at [models.Length] with a
    [NameError], whatever the messages. *)
Lemma analyze_communication_patterns_raises (env : ChatAnalyticsService.Env)
    (messages : list ChatAnalyticsService.Message) :
  ChatAnalyticsService._analyze_communication_patterns env messages
  = Raises (NameError "models").
Proof. reflexivity. Qed.

(** C9. [generate_user_insights] returns a dictionary with ['success'] equal
    to [False] for every user and period: the first analysis it runs,
    [_analyze_communication_patterns], raises [NameError] at [models.Length],
    and the wrapper turns what is raised into the failure result. *)
Theorem generate_user_insights_fails (env : ChatAnalyticsService.Env)
    (user_ : string) (period_days : Z) :
  exists e : exn,
    ChatAnalyticsService.generate_user_insights env user_ period_days
    = Returns (PyDict [("success", PyBool false); ("error", PyStr (str_of_exn e))])
    /\ match ChatAnalyticsService.start_date_of env period_days with
       | Returns _ => e = NameError "models"
       | Raises e' => e = e'
       end.
Proof.
  unfold ChatAnalyticsService.generate_user_insights.
  destruct (ChatAnalyticsService.start_date_of env period_days) as [start_date|e].
  - exists (NameError "models"). split; [|reflexivity].
    cbn [mbind outcome_bind Py.bind].
    rewrite analyze_communication_patterns_raises. reflexivity.
  - exists e. split; reflexivity.
Qed.

(** ** The grocery list *)

Section GroceryList.
Context {float : Type} `{FloatOps float}.
Import MealPlanningService.

Abbreviation grocery := (list (string * @GroceryItem float)).

(** The two loops visit the meal foods of the plan in order. *)
Lemma fold_meals {S} (f : S -> @MealFood float -> S) (ms : list (@Meal float)) (st : S) :
  fold_left (fun st meal => fold_left f (foods meal) st) ms st
  = fold_left f (concat (map foods ms)) st.
Proof.
  revert st. induction ms as [|m ms IH]; intros st; [reflexivity|].
  cbn [fold_left map concat]. now rewrite fold_left_app, IH.
Qed.

Lemma has_key_spec (food_name : string) (gi : grocery) :
  has_key food_name gi = true <-> food_name ∈ map fst gi.
Proof.
  unfold has_key. rewrite existsb_exists, list_elem_of_In, in_map_iff. split.
  - intros (kv & Hin & E). apply String.eqb_eq in E. eauto.
  - intros (kv & E & Hin). exists kv. split; [exact Hin|]. now apply String.eqb_eq.
Qed.

Lemma add_quantity_keys (food_name : string) (q : float) (gi : grocery) :
  map fst (add_quantity food_name q gi) = map fst gi.
Proof.
  induction gi as [|[k item] gi IH]; [reflexivity|].
  cbn [add_quantity]. destruct (String.eqb k food_name); cbn [map fst]; [reflexivity|].
  now rewrite IH.
Qed.

Lemma add_quantity_elem (food_name : string) (q : float) (gi : grocery)
    (k : string) (item' : GroceryItem) :
  NoDup (map fst gi) ->
  (k, item') ∈ add_quantity food_name q gi ->
  (k <> food_name /\ (k, item') ∈ gi)
  \/ (k = food_name /\ exists item, (k, item) ∈ gi /\ item' = add_to_item q item).
Proof.
  induction gi as [|[k0 item0] gi IH]; intros Hnd Hin.
  - inversion Hin.
  - cbn [map fst] in Hnd. apply NoDup_cons in Hnd as [Hk0 Hnd].
    cbn [add_quantity] in Hin. destruct (String.eqb k0 food_name) eqn:E.
    + apply String.eqb_eq in E. subst k0.
      apply elem_of_cons in Hin as [[= -> ->]|Hin].
      * right. split; [reflexivity|]. exists item0. split; [left|reflexivity].
      * left. split; [|now right]. intros ->. apply Hk0.
        change food_name with (fst (food_name, item')). now apply list_elem_of_fmap_2.
    + apply String.eqb_neq in E.
      apply elem_of_cons in Hin as [[= -> ->]|Hin].
      * left. split; [exact E|left].
      * destruct (IH Hnd Hin) as [[Hne Hin']|(-> & item & Hin' & ->)].
        -- left. split; [exact Hne|now right].
        -- right. split; [reflexivity|]. exists item. split; [now right|reflexivity].
Qed.

Lemma quantities_snoc (food_name : string) (l : list (@MealFood float)) (mf : @MealFood float) :
  Spec.quantities food_name (l ++ [mf]) =
    if decide (Spec.food_name_of mf = food_name)
    then Spec.quantities food_name l ++ [quantity mf]
    else Spec.quantities food_name l.
Proof.
  unfold Spec.quantities. rewrite filter_app, map_app.
  destruct (decide (Spec.food_name_of mf = food_name)) as [E|E].
  - rewrite filter_cons_True by exact E. reflexivity.
  - rewrite filter_cons_False by exact E. cbn. apply app_nil_r.
Qed.

Lemma quantities_absent (food_name : string) (l : list (@MealFood float)) :
  food_name ∉ map Spec.food_name_of l -> Spec.quantities food_name l = [].
Proof.
  unfold Spec.quantities. induction l as [|mf l IH]; intros Hn; [reflexivity|].
  rewrite filter_cons_False.
  - apply IH. intros Hin. apply Hn. now right.
  - intros E. apply Hn. rewrite <- E. left.
Qed.

Lemma sum_of_snoc (qs : list float) (s q : float) :
  Spec.sum_of qs = Some s -> Spec.sum_of (qs ++ [q]) = Some (float_add s q).
Proof.
  destruct qs as [|q0 qs]; [discriminate|]. cbn [Spec.sum_of app].
  intros [= <-]. now rewrite fold_left_app.
Qed.

Lemma collected_nil : Spec.collected [] [].
Proof.
  split; [constructor|reflexivity|]. intros k item Hin. inversion Hin.
Qed.

Lemma collected_step (l : list (@MealFood float)) (st : grocery * list (string * list string))
    (mf : @MealFood float) :
  Spec.collected l st.1 -> Spec.collected (l ++ [mf]) (collect st mf).1.
Proof.
  destruct st as [gi cats]. cbn [fst]. intros [Hnd Hkeys Hent].
  unfold collect. cbn [fst]. fold (Spec.food_name_of mf).
  set (n := Spec.food_name_of mf).
  assert (Hnames : forall k, k ∈ map Spec.food_name_of (l ++ [mf])
                             <-> k ∈ map Spec.food_name_of l \/ k = n).
  { intros k. rewrite map_app, elem_of_app. cbn. rewrite list_elem_of_singleton.
    reflexivity. }
  destruct (has_key n gi) eqn:Hhas.
  - apply has_key_spec in Hhas. split.
    + now rewrite add_quantity_keys.
    + intros k. rewrite add_quantity_keys, Hnames, Hkeys. split; [auto|].
      intros [Hk| ->]; [exact Hk|]. now apply Hkeys.
    + intros k item' Hin. rewrite quantities_snoc. fold n.
      apply add_quantity_elem in Hin; [|exact Hnd].
      destruct Hin as [[Hne Hin]|(-> & item & Hin & ->)].
      * rewrite decide_False by congruence. now apply Hent.
      * rewrite decide_True by reflexivity. destruct (Hent _ _ Hin) as [Hname Hsum].
        split; [exact Hname|]. now apply sum_of_snoc.
  - assert (Hfresh : n ∉ map fst gi).
    { intros Hin. apply has_key_spec in Hin. congruence. }
    split.
    + rewrite map_app. cbn [map fst]. apply NoDup_app. split; [exact Hnd|].
      split; [|apply NoDup_singleton].
      intros k Hk Hk'. apply list_elem_of_singleton in Hk'. now subst k.
    + intros k. rewrite map_app, elem_of_app, Hnames, Hkeys. cbn [map fst].
      now rewrite list_elem_of_singleton.
    + intros k item' Hin. rewrite quantities_snoc. fold n.
      apply elem_of_app in Hin as [Hin|Hin].
      * assert (k <> n) as Hne.
        { intros ->. apply Hfresh. change n with (fst (n, item')).
          now apply list_elem_of_fmap_2. }
        rewrite decide_False by congruence. now apply Hent.
      * apply list_elem_of_singleton in Hin as [= -> ->].
        rewrite decide_True by reflexivity. split; [reflexivity|].
        rewrite quantities_absent; [reflexivity|]. now rewrite <- Hkeys.
Qed.

Lemma collected_fold (l : list (@MealFood float)) :
  Spec.collected l (fold_left collect l ([], [])).1.
Proof.
  induction l as [|mf l IH] using rev_ind; [apply collected_nil|].
  rewrite fold_left_app. cbn [fold_left]. now apply collected_step.
Qed.

Lemma item_names_keys (l : list (@MealFood float)) (gi : grocery) :
  Spec.collected l gi -> map item_name (map snd gi) = map fst gi.
Proof.
  intros [_ _ Hent]. rewrite map_map. apply map_ext_in.
  intros [k item] Hin. apply list_elem_of_In in Hin. now apply Hent.
Qed.

End GroceryList.

(** C10. In the grocery list of a meal plan every distinct food name of the
    meals appears exactly once among the items, the quantity of an item is
    the sum of the Spec.quantities of that food over its occurrences in the
    meals, and ['total_items'] is the number of distinct food names. *)
Theorem generate_grocery_list_totals {float : Type} `{FloatOps float}
    (meal_plan : @MealPlanningService.MealPlan float) :
  let result := MealPlanningService.generate_grocery_list meal_plan in
  let names := map MealPlanningService.item_name (MealPlanningService.items result) in
  NoDup names
  /\ (forall food_name, food_name ∈ names <-> food_name ∈ Spec.food_names meal_plan)
  /\ (forall item,
        item ∈ MealPlanningService.items result ->
        Spec.sum_of (Spec.quantities_of (MealPlanningService.item_name item) meal_plan)
        = Some (MealPlanningService.item_quantity item))
  /\ MealPlanningService.total_items result
     = size (list_to_set (Spec.food_names meal_plan) : gset string).
Proof.
  intros result names. subst names result.
  unfold MealPlanningService.generate_grocery_list.
  rewrite fold_meals. fold (MealPlanningService.all_foods meal_plan).
  pose proof (collected_fold (MealPlanningService.all_foods meal_plan)) as Hc.
  destruct (fold_left MealPlanningService.collect _ _) as [gi cats]. cbn [fst] in Hc.
  cbn [MealPlanningService.items MealPlanningService.total_items].
  rewrite (item_names_keys _ _ Hc). destruct Hc as [Hnd Hkeys Hent].
  split; [exact Hnd|]. split; [exact Hkeys|]. split.
  - intros item Hin. apply list_elem_of_fmap in Hin as ([k item'] & -> & Hin).
    destruct (Hent _ _ Hin) as [Hname Hsum]. cbn [snd]. rewrite Hname. exact Hsum.
  - rewrite <- (length_map fst gi), <- (size_list_to_set (C:=gset string)) by exact Hnd.
    f_equal. apply set_eq. intros n. rewrite !elem_of_list_to_set. apply Hkeys.
Qed.

(** * More of the code: proofs *)

(** ** core/ai_client.py *)

(** The fallback plans pass the validation of their kind. *)
Lemma fallback_plans_valid (user_profile : pyval) :
  AIClient._validate_meal_plan (AIClient._get_fallback_meal_plan user_profile)
  = Returns true
  /\ AIClient._validate_workout_plan (AIClient._get_fallback_workout_plan user_profile)
     = Returns true.
Proof. split; reflexivity. Qed.

(** X1. [generate_meal_plan] and [generate_workout_plan] never raise, and
    what they return passes the validation of its kind, whether it is the
    plan of the provider or the fallback plan. *)
Theorem generated_plans_valid (env : AIClient.Env) (user_profile : pyval) :
  (exists plan,
     AIClient.generate_meal_plan env user_profile = Returns plan
     /\ AIClient._validate_meal_plan plan = Returns true)
  /\ (exists plan,
        AIClient.generate_workout_plan env user_profile = Returns plan
        /\ AIClient._validate_workout_plan plan = Returns true).
Proof.
  split.
  - unfold AIClient.generate_meal_plan.
    destruct (AIClient.get_meal_plan_prompt env user_profile) as [prompt|e];
      [|cbn; eauto].
    cbn [mbind outcome_bind Py.bind].
    destruct (AIClient._call_ai_api env prompt 2000) as [response|e]; [|cbn; eauto].
    cbn [mbind outcome_bind Py.bind].
    destruct (AIClient._parse_json_response env response) as [meal_plan|e];
      [|cbn; eauto].
    cbn [mbind outcome_bind Py.bind].
    destruct (AIClient._validate_meal_plan meal_plan) as [[|]|e] eqn:Hv; cbn; eauto.
  - unfold AIClient.generate_workout_plan.
    destruct (AIClient.get_workout_prompt env user_profile) as [prompt|e];
      [|cbn; eauto].
    cbn [mbind outcome_bind Py.bind].
    destruct (AIClient._call_ai_api env prompt 1500) as [response|e]; [|cbn; eauto].
    cbn [mbind outcome_bind Py.bind].
    destruct (AIClient._parse_json_response env response) as [workout_plan|e];
      [|cbn; eauto].
    cbn [mbind outcome_bind Py.bind].
    destruct (AIClient._validate_workout_plan workout_plan) as [[|]|e] eqn:Hv;
      cbn; eauto.
Qed.

(** With a provider other than the three known ones every call raises. *)
Lemma call_ai_api_unsupported (env : AIClient.Env) (prompt : string) (max_tokens : Z) :
  AIClient.provider env <> "deepseek" ->
  AIClient.provider env <> "localai" ->
  AIClient.provider env <> "huggingface" ->
  AIClient._call_ai_api env prompt max_tokens
  = Raises (ValueError ("Unsupported AI provider: " ++ AIClient.provider env)).
Proof.
  intros H1 H2 H3. unfold AIClient._call_ai_api.
  apply String.eqb_neq in H1, H2, H3. now rewrite H1, H2, H3.
Qed.

(** X2. When the configured provider is none of 'deepseek', 'localai' and
    'huggingface', the client degrades without raising: the meal plan and the
    workout plan are the fallback plans, and the chat generator yields the
    apology and nothing else. *)
Theorem unsupported_provider_fallbacks (env : AIClient.Env) (user_profile : pyval)
    (message : string) (context : pyval) :
  AIClient.provider env <> "deepseek" ->
  AIClient.provider env <> "localai" ->
  AIClient.provider env <> "huggingface" ->
  AIClient.generate_meal_plan env user_profile
  = Returns (AIClient._get_fallback_meal_plan user_profile)
  /\ AIClient.generate_workout_plan env user_profile
     = Returns (AIClient._get_fallback_workout_plan user_profile)
  /\ AIClient.chat_response env message context
     = PyGenerator
         ["I apologize, but I'm having trouble responding right now. Please try again later."].
Proof.
  intros H1 H2 H3. split; [|split].
  - unfold AIClient.generate_meal_plan.
    destruct (AIClient.get_meal_plan_prompt env user_profile) as [prompt|e];
      [|reflexivity].
    cbn [mbind outcome_bind Py.bind].
    now rewrite call_ai_api_unsupported.
  - unfold AIClient.generate_workout_plan.
    destruct (AIClient.get_workout_prompt env user_profile) as [prompt|e];
      [|reflexivity].
    cbn [mbind outcome_bind Py.bind].
    now rewrite call_ai_api_unsupported.
  - unfold AIClient.chat_response, AIClient.chat_response_yields.
    destruct (AIClient.get_chat_prompt env message context) as [prompt|e];
      [|reflexivity].
    unfold AIClient._call_ai_api_stream.
    apply String.eqb_neq in H1 as E1, H2 as E2. rewrite E1, E2.
    now rewrite call_ai_api_unsupported.
Qed.

Lemma unsupported_provider_fallbacks_witness :
  AIClient.generate_meal_plan ExamplesMore.env_unsupported (PyDict [])
  = Returns (AIClient._get_fallback_meal_plan (PyDict [])).
Proof.
  apply (unsupported_provider_fallbacks ExamplesMore.env_unsupported (PyDict [])
           "hello" (PyDict [])); discriminate.
Defined.

(** X3. A reply that parses to [null], a boolean or a number makes the
    validation raise [TypeError], which the wrapper catches: the plan returned
    is the fallback plan. *)
Theorem scalar_reply_falls_back (env : AIClient.Env) (user_profile : pyval)
    (prompt response : string) (parsed : pyval) :
  AIClient.get_meal_plan_prompt env user_profile = Returns prompt ->
  AIClient._call_ai_api env prompt 2000 = Returns response ->
  AIClient.json_loads env response = Returns parsed ->
  ExamplesMore.not_iterable parsed ->
  (exists msg, AIClient._validate_meal_plan parsed = Raises (TypeError msg))
  /\ AIClient.generate_meal_plan env user_profile
     = Returns (AIClient._get_fallback_meal_plan user_profile).
Proof.
  intros Hprompt Hcall Hloads Hscalar.
  assert (exists msg, AIClient._validate_meal_plan parsed = Raises (TypeError msg))
    as [msg Hv].
  { destruct parsed; try contradiction; cbn; eauto. }
  split; [eauto|].
  unfold AIClient.generate_meal_plan. rewrite Hprompt.
  cbn [mbind outcome_bind Py.bind]. rewrite Hcall.
  cbn [mbind outcome_bind Py.bind].
  unfold AIClient._parse_json_response, AIClient.loads. rewrite Hloads.
  cbn [try_except_on mbind outcome_bind Py.bind]. rewrite Hv. reflexivity.
Qed.

Lemma scalar_reply_falls_back_witness :
  AIClient.generate_meal_plan ExamplesMore.env_number_reply (PyDict [])
  = Returns (AIClient._get_fallback_meal_plan (PyDict [])).
Proof.
  apply (scalar_reply_falls_back ExamplesMore.env_number_reply (PyDict [])
           "meal plan prompt" "42" (PyInt 42)); first [reflexivity | exact I].
Defined.

Lemma slice_to_length {A} (n : nat) (xs : list A) :
  List.length (PyStrMore.slice_to n xs) <= n.
Proof. unfold PyStrMore.slice_to. rewrite length_firstn. lia. Qed.

Lemma slice_to_Forall {A} (P : A -> Prop) (n : nat) (xs : list A) :
  Forall P xs -> Forall P (PyStrMore.slice_to n xs).
Proof.
  unfold PyStrMore.slice_to. intros H. revert n.
  induction H as [|x xs Hx _ IH]; intros [|n]; cbn; constructor; auto.
Qed.

(** The lines kept by a filter of the analysis, stripped. *)
Lemma kept_lines (keep : string -> bool) (lines : list string) :
  Forall (fun r => exists line, line ∈ lines /\ r = PyStrMore.strip line
                                /\ keep line = true)
         (flat_map (fun line => if keep line then [PyStrMore.strip line] else [])
                   lines).
Proof.
  induction lines as [|line lines IH]; [constructor|].
  cbn [flat_map]. apply Forall_app. split.
  - destruct (keep line) eqn:E; constructor; [|constructor].
    exists line. split; [left|auto].
  - eapply Forall_impl; [exact IH|]. cbn.
    intros r (l & Hin & Hr & Hk). exists l. split; [now right|auto].
Qed.

Lemma any_in_spec (words : list string) (s : string) :
  PyStrMore.any_in words s = true <-> exists word, word ∈ words /\ Spec.occurs_in word s.
Proof.
  unfold PyStrMore.any_in. rewrite existsb_exists. split.
  - intros (w & Hin & Hc). exists w. split; [now apply list_elem_of_In|].
    now apply contains_spec.
  - intros (w & Hin & Hc). exists w. split; [now apply list_elem_of_In|].
    now apply contains_spec.
Qed.

(** X4. [analyze_nutrition] never raises and returns the three keys.  There
    are at most five recommendations and at most five insights; each
    recommendation is a line of the analysis, stripped, that contains
    'recommend' or 'suggest' whatever the case of its letters, and each
    insight a stripped line that contains 'high', 'low', 'deficient' or
    'excess'. *)
Theorem analyze_nutrition_result (env : AIClientAnalysis.Env) (food_data : pyval) :
  exists (analysis : string) (recommendations insights : list string),
    AIClientAnalysis.analyze_nutrition env food_data
    = Returns (PyDict [
        ("analysis", PyStr analysis);
        ("recommendations", PyList (map PyStr recommendations));
        ("insights", PyList (map PyStr insights))])
    /\ List.length recommendations <= 5
    /\ List.length insights <= 5
    /\ Forall (fun r =>
                 exists line,
                   line ∈ PyStrMore.split_on "010" analysis
                   /\ r = PyStrMore.strip line
                   /\ (Spec.occurs_in "recommend" (PyStr.lower line)
                       \/ Spec.occurs_in "suggest" (PyStr.lower line)))
              recommendations
    /\ Forall (fun r =>
                 exists line word,
                   line ∈ PyStrMore.split_on "010" analysis
                   /\ r = PyStrMore.strip line
                   /\ word ∈ ["high"; "low"; "deficient"; "excess"]
                   /\ Spec.occurs_in word (PyStr.lower line))
              insights.
Proof.
  unfold AIClientAnalysis.analyze_nutrition.
  destruct (AIClientAnalysis.get_nutrition_analysis_prompt env food_data)
    as [prompt|e].
  2:{ exists "Analysis unavailable", [], []. cbn. repeat split; auto; lia. }
  cbn [mbind outcome_bind Py.bind].
  destruct (AIClient._call_ai_api (AIClientAnalysis.client env) prompt 1000)
    as [response|e].
  2:{ exists "Analysis unavailable", [], []. cbn. repeat split; auto; lia. }
  exists response, (AIClientAnalysis._extract_recommendations response),
    (AIClientAnalysis._extract_insights response).
  split; [reflexivity|].
  split; [apply slice_to_length|]. split; [apply slice_to_length|]. split.
  - apply slice_to_Forall. eapply Forall_impl; [apply kept_lines|]. cbv beta.
    intros r (line & Hin & Hr & Hk). exists line. split; [exact Hin|].
    split; [exact Hr|]. now apply orb_occurs.
  - apply slice_to_Forall. eapply Forall_impl; [apply kept_lines|]. cbv beta.
    intros r (line & Hin & Hr & Hk). apply any_in_spec in Hk as (word & Hw & Ho).
    exists line, word. auto.
Qed.

Example extract_recommendations_example :
  AIClientAnalysis._extract_recommendations
    "Fiber is low.
  I RECOMMEND more beans.  
No change is suggested for protein."
  = ["I RECOMMEND more beans."; "No change is suggested for protein."].
Proof. reflexivity. Qed.

(** ** apps/chat/services.py and apps/chat/models.py *)

(** X5. [_determine_response_type] answers with one of the six message
    types that are not 'error', and all it can raise is the [AttributeError]
    of a response that is not a dict, whose content is not a str or whose
    structured data have no [get]. *)
Theorem determine_response_type_range (ai_response_data : pyval) :
  match ChatService._determine_response_type ai_response_data with
  | Returns message_type =>
      message_type ∈ ["meal_plan"; "workout_plan"; "nutrition_analysis";
                      "progress_update"; "recommendation"; "text"]
  | Raises e => exists msg, e = AttributeError msg
  end.
Proof.
  unfold ChatService._determine_response_type.
  assert (Hget : forall obj key_ dflt,
            match call_get obj key_ dflt with
            | Returns _ => True
            | Raises e => exists msg, e = AttributeError msg
            end).
  { intros [] ? ?; cbn; eauto. }
  pose proof (Hget ai_response_data "content" (PyStr "")) as H1.
  destruct (call_get ai_response_data "content" (PyStr "")) as [c|e]; [|exact H1].
  cbn [mbind outcome_bind Py.bind].
  destruct c; cbn [ChatService.call_lower mbind outcome_bind Py.bind]; eauto.
  pose proof (Hget ai_response_data "structured_data" (PyDict [])) as H2.
  destruct (call_get ai_response_data "structured_data" (PyDict [])) as [sd|e];
    [|exact H2].
  cbn [mbind outcome_bind Py.bind]. unfold ChatService.type_is.
  pose proof (Hget sd "type" PyNone) as H3.
  destruct (PyStr.contains "meal plan" (PyStr.lower s)).
  { cbn. set_solver. }
  destruct (call_get sd "type" PyNone) as [ty|e]; [|exact H3].
  cbn [mbind outcome_bind Py.bind].
  destruct (eq_str "meal_plan" ty); [cbn; set_solver|].
  destruct (PyStr.contains "workout" (PyStr.lower s)); [cbn; set_solver|].
  cbn [mbind outcome_bind Py.bind].
  destruct (eq_str "workout_plan" ty); [cbn; set_solver|].
  destruct (_ && _); [set_solver|].
  destruct (_ || _); [set_solver|].
  destruct (_ || _); set_solver.
Qed.

(** X6. When the session already has its row of extracted preferences, a
    message with preferences updates that row in place: key by key the new
    preferences replace the stored ones, and what the message does not
    mention stays.  The list of liked foods is thus replaced, not extended.
    The other rows, and the importance of the row, do not change. *)
Theorem extract_preferences_merges
    (before after : list ChatContextService.ChatContext)
    (row : ChatContextService.ChatContext) (stored : list (string * pyval))
    (message_content : string) :
  Forall (fun item =>
            ChatContextService.unique_together item
            <> ("nutrition_preferences", "extracted_preferences")) before ->
  ChatContextService.unique_together row
  = ("nutrition_preferences", "extracted_preferences") ->
  ChatContextService.value row = PyDict stored ->
  ChatContextService.extracted_preferences message_content <> [] ->
  exists merged,
    ChatContextService._extract_preferences_from_message
      (before ++ row :: after) message_content
    = Returns
        (before ++
         {| ChatContextService.context_type := ChatContextService.context_type row;
            ChatContextService.key := ChatContextService.key row;
            ChatContextService.value := PyDict merged;
            ChatContextService.importance_score :=
              ChatContextService.importance_score row;
            ChatContextService.last_referenced :=
              ChatContextService.last_referenced row;
            ChatContextService.reference_count :=
              ChatContextService.reference_count row;
            ChatContextService.expires_at := ChatContextService.expires_at row |}
         :: after)
    /\ forall k,
         dict_lookup k merged
         = match dict_lookup k
                   (ChatContextService.extracted_preferences message_content) with
           | Some v => Some v
           | None => dict_lookup k stored
           end.
Proof.
  intros Hbefore Hrow Hvalue Hprefs.
  exists (dict_update stored (ChatContextService.extracted_preferences message_content)).
  split; [|intros k; apply dict_lookup_update, extracted_preferences_keys].
  unfold ChatContextService._extract_preferences_from_message.
  destruct (ChatContextService.extracted_preferences message_content)
    as [|kv preferences] eqn:Hp; [congruence|].
  clear Hprefs Hp. unfold ChatContextService.unique_together in Hrow.
  injection Hrow as Ht Hk.
  induction Hbefore as [|item rest Hitem _ IH].
  - cbn [app ChatContextService.merge_into]. rewrite Ht, Hk, Hvalue. reflexivity.
  - cbn [app ChatContextService.merge_into].
    destruct (String.eqb (ChatContextService.context_type item) "nutrition_preferences"
              && String.eqb (ChatContextService.key item) "extracted_preferences")
      eqn:E.
    + apply andb_true_iff in E as [Et Ek].
      apply String.eqb_eq in Et, Ek. exfalso. apply Hitem.
      unfold ChatContextService.unique_together. now rewrite Et, Ek.
    + rewrite IH. reflexivity.
Qed.

Lemma extract_preferences_merges_witness :
  exists merged,
    ChatContextService._extract_preferences_from_message
      ([] ++ ExamplesChat.stored_preferences :: []) "I love sushi"
    = Returns
        ([] ++
         {| ChatContextService.context_type := "nutrition_preferences";
            ChatContextService.key := "extracted_preferences";
            ChatContextService.value := PyDict merged;
            ChatContextService.importance_score := ChatContextService.float_0_6;
            ChatContextService.last_referenced := None;
            ChatContextService.reference_count := 0;
            ChatContextService.expires_at := None |}
         :: [])
    /\ forall k,
         dict_lookup k merged
         = match dict_lookup k (ChatContextService.extracted_preferences "I love sushi") with
           | Some v => Some v
           | None =>
               dict_lookup k [("diet_type", PyStr "vegan");
                              ("food_likes", PyList [PyStr "pizza"])]
           end.
Proof.
  apply (extract_preferences_merges [] [] ExamplesChat.stored_preferences
           [("diet_type", PyStr "vegan"); ("food_likes", PyList [PyStr "pizza"])]
           "I love sushi").
  - constructor.
  - reflexivity.
  - reflexivity.
  - vm_compute. discriminate.
Defined.

Lemma float_0_6_below_0_7 :
  ~ (ChatContextService.float_0_7 <= ChatContextService.float_0_6)%Q.
Proof. unfold Qle. cbn. lia. Qed.

(** X7. The preferences read from messages never reach the context of a
    prompt: in a session that had no row of extracted preferences, the row
    that [_extract_preferences_from_message] creates has importance 0.6,
    below the 0.7 that [get_relevant_context] asks for. *)
Theorem extracted_preferences_not_relevant
    (context_items context_items' : list ChatContextService.ChatContext)
    (message_content : string) (now : Z) :
  NoDup (map ChatContextService.unique_together context_items) ->
  Forall (fun item =>
            ChatContextService.unique_together item
            <> ("nutrition_preferences", "extracted_preferences")) context_items ->
  ChatContextService._extract_preferences_from_message context_items message_content
  = Returns context_items' ->
  Spec.context_value (ChatContextService.get_relevant_context now context_items').1
    "nutrition_preferences" "extracted_preferences" = None.
Proof.
  intros Hnd Hnew Hret.
  rewrite (extract_preferences_first_time _ _ Hnew) in Hret. injection Hret as <-.
  assert (Hold : forall item, item ∈ context_items ->
            ~ (ChatContextService.context_type item = "nutrition_preferences"
               /\ ChatContextService.key item = "extracted_preferences")).
  { intros item Hin [Ht Hk]. rewrite Forall_forall in Hnew.
    apply (Hnew item Hin). unfold ChatContextService.unique_together.
    now rewrite Ht, Hk. }
  destruct (Spec.context_value _ _ _) as [v|] eqn:Hv; [exfalso|reflexivity].
  destruct (ChatContextService.extracted_preferences message_content)
    as [|kv preferences].
  - apply context_value_selected in Hv; [|exact Hnd].
    destruct Hv as (item & Hin & _ & Ht & Hk & _). exact (Hold item Hin (conj Ht Hk)).
  - apply context_value_selected in Hv.
    + destruct Hv as (item & Hin & [Himp _] & Ht & Hk & _).
      apply elem_of_app in Hin as [Hin|Hin]; [exact (Hold item Hin (conj Ht Hk))|].
      apply list_elem_of_singleton in Hin. subst item.
      exact (float_0_6_below_0_7 Himp).
    + rewrite fmap_app. apply NoDup_app. split; [exact Hnd|]. split.
      * intros k Hk Hk'. apply list_elem_of_singleton in Hk'. subst k.
        apply list_elem_of_fmap in Hk as (item & Hk & Hin).
        unfold ChatContextService.unique_together in Hk at 1. injection Hk as Ht Hk.
        apply (Hold item Hin). split; congruence.
      * apply NoDup_singleton.
Qed.

Lemma extracted_preferences_not_relevant_witness :
  Spec.context_value
    (ChatContextService.get_relevant_context 100
       [ {| ChatContextService.context_type := "nutrition_preferences";
            ChatContextService.key := "extracted_preferences";
            ChatContextService.value :=
              PyDict [("food_likes", PyList [PyStr "sushi"])];
            ChatContextService.importance_score := ChatContextService.float_0_6;
            ChatContextService.last_referenced := None;
            ChatContextService.reference_count := 0;
            ChatContextService.expires_at := None |} ]).1
    "nutrition_preferences" "extracted_preferences" = None.
Proof.
  apply (extracted_preferences_not_relevant [] _ "I love sushi" 100).
  - constructor.
  - constructor.
  - reflexivity.
Defined.

Lemma float_0_8_above_0_7 :
  (ChatContextService.float_0_7 <= ChatContextMemory.float_0_8)%Q.
Proof. unfold Qle. cbn. lia. Qed.

Lemma create_fresh (row : ChatContextService.ChatContext)
    (context_items : list ChatContextService.ChatContext) :
  Forall (fun item => ChatContextService.unique_together item
                      <> ChatContextService.unique_together row) context_items ->
  ChatContextMemory.ChatContext_objects_create row context_items
  = Returns (context_items ++ [row]).
Proof.
  intros Hfresh. unfold ChatContextMemory.ChatContext_objects_create.
  destruct (existsb _ context_items) eqn:E; [exfalso|reflexivity].
  apply existsb_exists in E as (item & Hin & Hk).
  apply andb_true_iff in Hk as [Ht Hk]. apply String.eqb_eq in Ht, Hk.
  rewrite Forall_forall in Hfresh. apply (Hfresh item).
  - now apply list_elem_of_In.
  - unfold ChatContextService.unique_together. now rewrite Ht, Hk.
Qed.

(** X8. A message that mentions a goal ('goal', 'want to', 'trying to' or
    'plan to', whatever the case) is remembered for thirty days: from the
    moment it is stored, [get_relevant_context] returns the memory for every
    time up to and including thirty days later, and not after that. *)
Theorem goal_memory_window (stored_at : Z)
    (context_items : list ChatContextService.ChatContext)
    (message_id message_content timestamp : string) :
  NoDup (map ChatContextService.unique_together context_items) ->
  Forall (fun item =>
            ChatContextService.unique_together item
            <> ("conversation_memory", "goal_mentioned_" ++ message_id)%string)
         context_items ->
  (exists word, word ∈ ["goal"; "want to"; "trying to"; "plan to"]
                /\ Spec.occurs_in word (PyStr.lower message_content)) ->
  exists context_items',
    ChatContextMemory._store_conversation_memory stored_at context_items
      message_id message_content timestamp = Returns context_items'
    /\ forall now,
         Spec.context_value
           (ChatContextService.get_relevant_context now context_items').1
           "conversation_memory" ("goal_mentioned_" ++ message_id)
         = if (now <=? stored_at + ChatContextMemory.days 30)%Z
           then Some (PyDict [("user_message", PyStr message_content);
                              ("timestamp", PyStr timestamp);
                              ("context", PyStr "goal_setting")])
           else None.
Proof.
  intros Hnd Hfresh Hgoal. apply any_in_spec in Hgoal.
  unfold ChatContextMemory._store_conversation_memory. rewrite Hgoal.
  rewrite create_fresh by exact Hfresh.
  eexists. split; [reflexivity|]. intros now.
  set (row := {| ChatContextService.context_type := "conversation_memory" |}).
  assert (Hnd' : NoDup (ChatContextService.unique_together <$> context_items ++ [row])).
  { rewrite fmap_app. apply NoDup_app. split; [exact Hnd|]. split.
    - intros k Hk Hk'. apply list_elem_of_singleton in Hk'. subst k.
      apply list_elem_of_fmap in Hk as (item & Hk & Hin).
      rewrite Forall_forall in Hfresh. apply (Hfresh item Hin). now symmetry.
    - apply NoDup_singleton. }
  destruct (now <=? stored_at + ChatContextMemory.days 30)%Z eqn:Hnow.
  - apply context_value_selected; [exact Hnd'|]. exists row.
    split; [apply elem_of_app; right; left|].
    split; [|auto]. split; [exact float_0_8_above_0_7|].
    intros t [= <-]. apply Z.leb_le in Hnow. lia.
  - destruct (Spec.context_value _ _ _) as [v|] eqn:Hv; [exfalso|reflexivity].
    apply context_value_selected in Hv; [|exact Hnd'].
    destruct Hv as (item & Hin & [_ Hexp] & Ht & Hk & _).
    apply elem_of_app in Hin as [Hin|Hin].
    + rewrite Forall_forall in Hfresh. apply (Hfresh item Hin).
      unfold ChatContextService.unique_together. now rewrite Ht, Hk.
    + apply list_elem_of_singleton in Hin. subst item.
      apply Z.leb_gt in Hnow. apply (Hexp (stored_at + ChatContextMemory.days 30)%Z).
      * reflexivity.
      * exact Hnow.
Qed.

Lemma goal_memory_window_witness :
  exists context_items',
    ChatContextMemory._store_conversation_memory 0 [] "m1" "My GOAL is a 5k" "t0"
    = Returns context_items'
    /\ forall now,
         Spec.context_value
           (ChatContextService.get_relevant_context now context_items').1
           "conversation_memory" ("goal_mentioned_" ++ "m1")
         = if (now <=? 0 + ChatContextMemory.days 30)%Z
           then Some (PyDict [("user_message", PyStr "My GOAL is a 5k");
                              ("timestamp", PyStr "t0");
                              ("context", PyStr "goal_setting")])
           else None.
Proof.
  apply (goal_memory_window 0 [] "m1" "My GOAL is a 5k" "t0").
  - constructor.
  - constructor.
  - exists "goal". split; [left|]. apply contains_spec. reflexivity.
Defined.

(** A message that mentions no goal stores nothing. *)
Lemma no_goal_no_memory (now : Z)
    (context_items : list ChatContextService.ChatContext)
    (message_id message_content timestamp : string) :
  PyStrMore.any_in ["goal"; "want to"; "trying to"; "plan to"]
                   (PyStr.lower message_content) = false ->
  ChatContextMemory._store_conversation_memory now context_items
    message_id message_content timestamp = Returns context_items.
Proof.
  intros H. unfold ChatContextMemory._store_conversation_memory. now rewrite H.
Qed.

Lemma prefix_length (n : nat) (s : string) :
  String.length (ChatSessionTitle.prefix n s) = Nat.min n (String.length s).
Proof.
  unfold ChatSessionTitle.prefix. revert n.
  induction s as [|c s IH]; intros [|n]; cbn; auto.
Qed.

Lemma prefix_short (n : nat) (s : string) :
  String.length s <= n -> ChatSessionTitle.prefix n s = s.
Proof.
  unfold ChatSessionTitle.prefix. revert n.
  induction s as [|c s IH]; intros [|n] H; cbn in *; try reflexivity; try lia.
  f_equal. apply IH. lia.
Qed.

Lemma first_user_message (before after : list (string * string)) (content : string) :
  Forall (fun m => fst m <> "user") before ->
  exists rest,
    firstn 3 (filter (fun m => fst m = "user") (before ++ ("user", content) :: after))
    = ("user", content) :: rest.
Proof.
  intros H. induction H as [|m before Hm _ IH].
  - cbn [app]. rewrite filter_cons_True by reflexivity. cbn. eauto.
  - cbn [app]. rewrite filter_cons_False by exact Hm. exact IH.
Qed.

(** X9. [generate_title] leaves a session that has a title as it is, and
    never touches the messages.  A session without a title gets one from its
    first message of the user: the content itself when it has fewer than 50
    characters, and otherwise its first 50 characters followed by '...' (a
    content of exactly 50 characters gets the dots too); the title has at
    most 53 characters.  Generating twice is generating once. *)
Theorem generate_title_result (self : ChatSessionTitle.ChatSession) :
  (ChatSessionTitle.title self <> EmptyString ->
   ChatSessionTitle.generate_title self = self)
  /\ ChatSessionTitle.messages (ChatSessionTitle.generate_title self)
     = ChatSessionTitle.messages self
  /\ (ChatSessionTitle.title self = EmptyString ->
      (String.length (ChatSessionTitle.title (ChatSessionTitle.generate_title self))
       <= 53)
      /\ forall before after content,
           ChatSessionTitle.messages self = before ++ ("user", content) :: after ->
           Forall (fun m => fst m <> "user") before ->
           ChatSessionTitle.title (ChatSessionTitle.generate_title self)
           = ChatSessionTitle.title_of content)
  /\ ChatSessionTitle.generate_title (ChatSessionTitle.generate_title self)
     = ChatSessionTitle.generate_title self.
Proof.
  destruct self as [t ms].
  assert (Hlen : forall c,
            String.length
              (if Nat.eqb (String.length (ChatSessionTitle.prefix 50 c)) 50
               then (ChatSessionTitle.prefix 50 c ++ "...")%string
               else ChatSessionTitle.prefix 50 c) <= 53).
  { intros c. pose proof (prefix_length 50 c).
    destruct (Nat.eqb _ 50); [rewrite length_append; cbn|]; lia. }
  assert (Htitle : forall c,
            (if Nat.eqb (String.length (ChatSessionTitle.prefix 50 c)) 50
             then (ChatSessionTitle.prefix 50 c ++ "...")%string
             else ChatSessionTitle.prefix 50 c) = ChatSessionTitle.title_of c).
  { intros c. unfold ChatSessionTitle.title_of. pose proof (prefix_length 50 c) as Hp.
    destruct (String.length c <? 50)%nat eqn:Hc.
    - apply Nat.ltb_lt in Hc.
      replace (Nat.eqb (String.length (ChatSessionTitle.prefix 50 c)) 50) with false
        by (symmetry; apply Nat.eqb_neq; lia).
      apply prefix_short. lia.
    - apply Nat.ltb_ge in Hc.
      replace (Nat.eqb (String.length (ChatSessionTitle.prefix 50 c)) 50) with true
        by (symmetry; apply Nat.eqb_eq; lia).
      reflexivity. }
  unfold ChatSessionTitle.generate_title. cbn [ChatSessionTitle.title ChatSessionTitle.messages].
  split; [|split; [|split]].
  - destruct t; [congruence|reflexivity].
  - destruct t; [|reflexivity].
    destruct (firstn 3 _) as [|[r c] rest]; reflexivity.
  - intros ->. split.
    + destruct (firstn 3 _) as [|[r c] rest];
        cbn [snd ChatSessionTitle.title String.length]; [lia|apply Hlen].
    + intros before after content -> Hbefore.
      destruct (first_user_message before after content Hbefore) as [rest ->].
      cbn [snd ChatSessionTitle.title]. apply Htitle.
  - destruct t as [|a t]; [|reflexivity].
    destruct (firstn 3 _) as [|[r c] rest] eqn:Hf;
      cbn [snd ChatSessionTitle.title ChatSessionTitle.messages]; [now rewrite Hf|].
    destruct (if Nat.eqb _ 50 then _ else _) eqn:Ht; [|reflexivity].
    rewrite Hf. cbn [snd]. now rewrite Ht.
Qed.

(** The reply of [generate_ai_response] is the error message, whatever the
    session and the message. *)
Lemma generate_ai_response_shape (env : ChatService.Env)
    (user_message : ChatService.Message) (st : ChatService.State) :
  exists (e : exn) (message_id : string) (st' : ChatService.State),
    ChatService.generate_ai_response env user_message st
    = (Returns (PyDict [
         ("message_id", PyStr message_id);
         ("content", PyStr ChatService.apology);
         ("message_type", PyStr "error");
         ("error", PyStr (str_of_exn e))]), st').
Proof.
  unfold ChatService.generate_ai_response, ChatService.try_except_M.
  unfold mbind at 1. unfold ChatService.M_bind at 1.
  destruct (ChatService._build_conversation_context env user_message st)
    as [[context|e] st1]; cbn; eauto.
Qed.

Ltac step_M :=
  match goal with
  | |- context [mbind ?k ?c ?st] =>
      change (mbind k c st)
        with (match c st with
              | (Returns a, st') => k a st'
              | (Raises e, st') => (Raises e, st')
              end)
  end.

Ltac failed_case :=
  cbn -[ChatServiceMore.is_DoesNotExist];
  match goal with
  | |- context [ChatServiceMore.is_DoesNotExist ?e] =>
      destruct (ChatServiceMore.is_DoesNotExist e)
  end;
  do 2 eexists; (split; [reflexivity|]); (split; [left; reflexivity|]);
  (split; [|intros; reflexivity]).

(** X10. [send_message] never raises.  Whenever it reports success, the reply
    it carries is the error message with the fixed apology: no message sent
    through it gets an answer of the assistant.  A message sent to a session
    that exists is reported as a success when its text under 'message' is a
    str, its type, if given, a str of at most 20 characters, its context, if
    given, a dict, and it names no parent.  A message whose text is [None]
    is reported as a failure: the database refuses the row. *)
Theorem send_message_reply_is_error (env : ChatServiceMore.Env)
    (message_data : pyval) (st : ChatService.State) :
  exists (result : list (string * pyval)) (st' : ChatService.State),
    ChatServiceMore.send_message env message_data st = (Returns (PyDict result), st')
    /\ (dict_lookup "success" result = Some (PyBool false)
        \/ (dict_lookup "success" result = Some (PyBool true)
            /\ exists reply,
                 dict_lookup "ai_response" result = Some (PyDict reply)
                 /\ dict_lookup "message_type" reply = Some (PyStr "error")
                 /\ dict_lookup "content" reply = Some (PyStr ChatService.apology)))
    /\ (forall entries text,
          ChatServiceMore.session_found env = true ->
          message_data = PyDict entries ->
          dict_lookup "message" entries = Some (PyStr text) ->
          ChatServiceMore.is_short_str 20
            (default (PyStr "text") (dict_lookup "message_type" entries)) = true ->
          ChatServiceMore.is_dict
            (default (PyDict []) (dict_lookup "context" entries)) = true ->
          dict_lookup "parent_message_id" entries = None ->
          dict_lookup "success" result = Some (PyBool true))
    /\ (forall entries,
          message_data = PyDict entries ->
          dict_lookup "message" entries = Some PyNone ->
          dict_lookup "success" result = Some (PyBool false)).
Proof.
  unfold ChatServiceMore.send_message.
  step_M. unfold ChatServiceMore.ChatSession_objects_get at 1.
  destruct (ChatServiceMore.session_found env) eqn:Hfound.
  2:{ cbn. do 2 eexists. split; [reflexivity|]. split; [left; reflexivity|].
      split; [intros ? ? [=]|intros; reflexivity]. }
  step_M. unfold ChatService.lift at 1.
  destruct (ChatServiceMore.subscript message_data "message") as [content_|e] eqn:Hsub.
  2:{ failed_case; intros entries text _ -> Hm; cbn in Hsub; rewrite Hm in Hsub;
      discriminate. }
  step_M. unfold ChatService.lift at 1.
  destruct (call_get message_data "message_type" (PyStr "text")) as [mt|e] eqn:Hmt.
  2:{ failed_case; intros entries text _ ->; discriminate. }
  step_M. unfold ChatService.lift at 1.
  destruct (call_get message_data "context" (PyDict [])) as [cd|e] eqn:Hcd.
  2:{ failed_case; intros entries text _ ->; discriminate. }
  step_M. unfold ChatService.lift at 1.
  destruct (call_get message_data "parent_message_id" PyNone) as [pid|e] eqn:Hpid.
  2:{ failed_case; intros entries text _ ->; discriminate. }
  step_M. cbv beta.
  destruct (ChatServiceMore.parent_of pid st) as [parent|e] eqn:Hparent.
  2:{ failed_case; intros entries text _ -> _ _ _ Hp; cbn in Hpid; rewrite Hp in Hpid;
      injection Hpid as <-; discriminate. }
  step_M. unfold ChatService.Message_objects_create at 1.
  cbn [ChatService.not_null_columns ChatServiceMore.user_message_row
       ChatService.content ChatService.message_type ChatService.ai_model
       ChatService.prompt_tokens ChatService.completion_tokens
       ChatService.total_tokens ChatService.structured_data
       ChatService.context_data existsb ChatService.is_None orb].
  rewrite !orb_false_r.
  destruct (ChatService.is_None content_
            || (ChatService.is_None mt || ChatService.is_None cd)) eqn:Hnull.
  { failed_case; intros entries text _ -> Hm Ht Hc _;
      cbn in Hsub, Hmt, Hcd; rewrite Hm in Hsub;
      injection Hsub as <-; injection Hmt as <-; injection Hcd as <-;
      destruct (dict_lookup "message_type" entries) as [[]|],
               (dict_lookup "context" entries) as [[]|];
      cbn in Ht, Hc, Hnull; first [discriminate Hnull | discriminate Ht
                                  | discriminate Hc]. }
  step_M. unfold ChatServiceMore.count_message at 1.
  step_M.
  match goal with
  | |- context [ChatService.generate_ai_response ?e ?um ?s] =>
      destruct (generate_ai_response_shape e um s) as (err & mid & st1 & ->)
  end.
  step_M. cbn.
  do 2 eexists. split; [reflexivity|]. split; [|split].
  - right. split; [reflexivity|]. eexists. split; [reflexivity|]. split; reflexivity.
  - reflexivity.
  - intros entries -> Hm. cbn in Hsub. rewrite Hm in Hsub. injection Hsub as <-.
    discriminate Hnull.
Qed.

Lemma getattr_stream_chat_response :
  ChatServiceMore.getattr_ai_client "stream_chat_response"
  = Raises (AttributeError
              "'AIClient' object has no attribute 'stream_chat_response'").
Proof. reflexivity. Qed.

Lemma getattr_generate_conversation_summary :
  ChatServiceMore.getattr_ai_client "generate_conversation_summary"
  = Raises (AttributeError
              "'AIClient' object has no attribute 'generate_conversation_summary'").
Proof. reflexivity. Qed.

(** The placeholder has no [None] in a column that is not nullable. *)
Ltac placeholder_accepted :=
  match goal with
  | |- context [existsb ChatService.is_None ?columns] =>
      change (existsb ChatService.is_None columns) with false
  end; cbv iota.

(** X11. [stream_ai_response] yields exactly one item, and it is an error
    item marked complete: the client has no method [stream_chat_response], so
    no chunk of a reply is ever streamed.  When the session exists, the
    message has its text under 'message' and the context is built, the error
    is that missing attribute, and the table of messages is left with the
    user's message followed, after what the context building did, by an
    assistant message whose content is empty. *)
Theorem stream_ai_response_single_error (env : ChatServiceMore.Env)
    (session_id : string) (message_data : pyval) (st : ChatService.State) :
  (exists (e : exn) (st' : ChatService.State),
     ChatServiceMore.stream_ai_response env session_id message_data st
     = ([PyDict [("error", PyStr (str_of_exn e)); ("is_complete", PyBool true)]], st'))
  /\ (forall entries text user_message st1 context st2,
        ChatServiceMore.session_found env = true ->
        message_data = PyDict entries ->
        dict_lookup "message" entries = Some text ->
        ChatService.Message_objects_create (ChatServiceMore.service env)
          (ChatServiceMore.user_message_row text
             (default (PyStr "text") (dict_lookup "message_type" entries))
             (default (PyDict []) (dict_lookup "context" entries)) None) st
        = (Returns user_message, st1) ->
        ChatService._build_conversation_context (ChatServiceMore.service env)
          user_message st1 = (Returns context, st2) ->
        exists placeholder st',
          ChatServiceMore.stream_ai_response env session_id message_data st
          = ([PyDict [("error",
                       PyStr "'AIClient' object has no attribute 'stream_chat_response'");
                      ("is_complete", PyBool true)]], st')
          /\ ChatService.messages st' = (ChatService.messages st2 ++ [placeholder])%list
          /\ ChatService.role placeholder = "assistant"
          /\ ChatService.content placeholder = PyStr ""
          /\ ChatService.parent_message placeholder
             = Some (ChatService.id user_message)).
Proof.
  split.
  - unfold ChatServiceMore.stream_ai_response.
    match goal with
    | |- context [mbind ?k ?c st] => set (run := mbind k c st)
    end.
    assert (H : exists e st', run = (Raises e, st')).
    { subst run. step_M. unfold ChatServiceMore.ChatSession_objects_get at 1.
      destruct (ChatServiceMore.session_found env); [|eauto].
      step_M. unfold ChatService.lift at 1.
      destruct (ChatServiceMore.subscript message_data "message"); [|eauto].
      step_M. unfold ChatService.lift at 1.
      destruct (call_get message_data "message_type" (PyStr "text")); [|eauto].
      step_M. unfold ChatService.lift at 1.
      destruct (call_get message_data "context" (PyDict [])); [|eauto].
      step_M. unfold ChatService.Message_objects_create at 1.
      destruct (existsb ChatService.is_None _); [eauto|].
      step_M.
      match goal with
      | |- context [ChatService._build_conversation_context ?e ?um ?s] =>
          destruct (ChatService._build_conversation_context e um s) as [[c|e'] s']
      end; [|eauto].
      step_M. unfold ChatService.Message_objects_create at 1.
      placeholder_accepted.
      step_M. rewrite getattr_stream_chat_response. cbn. eauto. }
    destruct H as (e & st' & ->). eauto.
  - intros entries text user_message st1 context st2 Hfound -> Htext Hcreate Hctx.
    unfold ChatServiceMore.stream_ai_response.
    step_M. unfold ChatServiceMore.ChatSession_objects_get at 1. rewrite Hfound.
    step_M. unfold ChatService.lift at 1.
    unfold ChatServiceMore.subscript. rewrite Htext.
    step_M. unfold ChatService.lift at 1.
    replace (call_get (PyDict entries) "message_type" (PyStr "text"))
      with (Returns (default (PyStr "text") (dict_lookup "message_type" entries)))
      by (cbn; destruct (dict_lookup "message_type" entries); reflexivity).
    step_M. unfold ChatService.lift at 1.
    replace (call_get (PyDict entries) "context" (PyDict []))
      with (Returns (default (PyDict []) (dict_lookup "context" entries)))
      by (cbn; destruct (dict_lookup "context" entries); reflexivity).
    step_M. cbv iota beta. rewrite Hcreate.
    step_M. cbv iota beta. rewrite Hctx.
    step_M. unfold ChatService.Message_objects_create at 1.
    placeholder_accepted.
    step_M. rewrite getattr_stream_chat_response. cbn.
    eexists _, _. split; [reflexivity|]. cbn. repeat split; reflexivity.
Qed.

(** X12. [generate_session_summary] never succeeds and creates no summary
    record: a session of fewer than three messages is too short, and for any
    other the client has no method [generate_conversation_summary]. *)
Theorem generate_session_summary_fails (env : ChatServiceMore.Env)
    (chat_type : string) (messages : list ChatAnalyticsService.Message) :
  ChatServiceMore.generate_session_summary env chat_type messages
  = (Returns (PyDict [
       ("success", PyBool false);
       ("error",
        PyStr (if (List.length messages <? 3)%nat
               then "Session too short to summarize"
               else "'AIClient' object has no attribute 'generate_conversation_summary'"))]),
     None).
Proof.
  unfold ChatServiceMore.generate_session_summary.
  destruct (List.length messages <? 3)%nat; [reflexivity|].
  rewrite getattr_generate_conversation_summary. reflexivity.
Qed.

(** ** [_calculate_health_score], beyond the claims *)

(** X13. The health score lies between 5 and 90, and both bounds are
    reached: the clamp to 0..100 at the end of [_calculate_health_score]
    never changes the score. *)
Theorem health_score_range (nutrition : gmap string Q) :
  (5 <= NutritionAPI._calculate_health_score nutrition <= 90)%Z
  /\ NutritionAPI._calculate_health_score ExamplesNutrition.worst_day = 5%Z
  /\ NutritionAPI._calculate_health_score ExamplesNutrition.best_day = 90%Z.
Proof.
  split; [|split; vm_compute; reflexivity].
  rewrite health_score_unclamped.
  pose proof (bonuses_range nutrition). pose proof (penalties_range nutrition). lia.
Qed.

Lemma at_least_mono (x y bound : Q) :
  (x <= y)%Q -> Spec.at_least x bound = true -> Spec.at_least y bound = true.
Proof.
  unfold Spec.at_least. intros Hxy.
  destruct (Qlt_le_dec x bound) as [Hx|Hx]; [discriminate|].
  destruct (Qlt_le_dec y bound) as [Hy|Hy]; [lra|reflexivity].
Qed.

(** A two-step bonus grows with the amount. *)
Lemma step_bonus_mono (x y hi lo : Q) (p q : Z) :
  (x <= y)%Q -> (0 <= q <= p)%Z ->
  ((if Spec.at_least x hi then p else if Spec.at_least x lo then q else 0)
   <= (if Spec.at_least y hi then p else if Spec.at_least y lo then q else 0))%Z.
Proof.
  intros Hxy Hpq.
  pose proof (at_least_mono x y hi Hxy). pose proof (at_least_mono x y lo Hxy).
  destruct (Spec.at_least x hi), (Spec.at_least x lo),
           (Spec.at_least y hi), (Spec.at_least y lo);
    try lia; intuition discriminate.
Qed.

(** X14. The health score reads seven nutrients only, and is monotone in
    each: a day with at least as much fiber, protein, vitamin C and calcium
    and at most as much sodium, sugars and fat as another has at least its
    score, whatever else the two mappings hold. *)
Theorem health_score_monotone (n1 n2 : gmap string Q) :
  (forall k, In k ["fiber"; "protein"; "vitamin_c"; "calcium"] ->
             (Spec.amount n1 k <= Spec.amount n2 k)%Q) ->
  (forall k, In k ["sodium"; "sugars"; "fat"] ->
             (Spec.amount n2 k <= Spec.amount n1 k)%Q) ->
  (NutritionAPI._calculate_health_score n1
   <= NutritionAPI._calculate_health_score n2)%Z.
Proof.
  intros Hgood Hbad. rewrite !health_score_unclamped.
  enough (Spec.bonuses n1 <= Spec.bonuses n2
          /\ Spec.penalties n2 <= Spec.penalties n1)%Z by lia.
  split.
  - unfold Spec.bonuses.
    pose proof (step_bonus_mono _ _ 25 15 15 10
                  (Hgood "fiber" ltac:(simpl; tauto)) ltac:(lia)).
    pose proof (step_bonus_mono _ _ 50 30 10 5
                  (Hgood "protein" ltac:(simpl; tauto)) ltac:(lia)).
    pose proof (at_least_mono _ _ 90 (Hgood "vitamin_c" ltac:(simpl; tauto))).
    pose proof (at_least_mono _ _ 1000 (Hgood "calcium" ltac:(simpl; tauto))).
    destruct (Spec.at_least (Spec.amount n1 "vitamin_c") 90),
             (Spec.at_least (Spec.amount n2 "vitamin_c") 90),
             (Spec.at_least (Spec.amount n1 "calcium") 1000),
             (Spec.at_least (Spec.amount n2 "calcium") 1000);
      try lia; intuition discriminate.
  - unfold Spec.penalties.
    pose proof (step_penalty_mono _ _ 2300 1500 20 10
                  (Hbad "sodium" ltac:(simpl; tauto)) ltac:(lia)).
    pose proof (step_penalty_mono _ _ 50 25 15 8
                  (Hbad "sugars" ltac:(simpl; tauto)) ltac:(lia)).
    pose proof (above_mono _ _ 78 (Hbad "fat" ltac:(simpl; tauto))).
    destruct (Spec.above (Spec.amount n2 "fat") 78),
             (Spec.above (Spec.amount n1 "fat") 78);
      try lia; intuition discriminate.
Qed.

(** The day with every penalty scores at most the day with every bonus. *)
Lemma health_score_monotone_witness :
  (NutritionAPI._calculate_health_score ExamplesNutrition.worst_day
   <= NutritionAPI._calculate_health_score ExamplesNutrition.best_day)%Z.
Proof.
  apply (health_score_monotone ExamplesNutrition.worst_day ExamplesNutrition.best_day).
  - intros k Hk. simpl in Hk.
    destruct Hk as [<-|[<-|[<-|[<-|[]]]]]; vm_compute; discriminate.
  - intros k Hk. simpl in Hk.
    destruct Hk as [<-|[<-|[<-|[]]]]; vm_compute; discriminate.
Defined.

(** ** core/nutrition_api.py: names, totals, daily values, analysis *)

Lemma lookup_In {A} (key : string) (d : list (string * A)) (v : A) :
  NutritionFacts.lookup key d = Some v -> In (key, v) d.
Proof.
  induction d as [|[k w] d IH]; cbn [NutritionFacts.lookup]; [discriminate|].
  destruct (String.eqb k key) eqn:E.
  - apply String.eqb_eq in E. intros [= ->]. left. now subst.
  - intros Hl. right. auto.
Qed.

Lemma lookup_assign {A} (key key' : string) (v : A) (d : list (string * A)) :
  NutritionFacts.lookup key (NutritionFacts.assign key' v d)
  = if String.eqb key' key then Some v else NutritionFacts.lookup key d.
Proof.
  induction d as [|[k w] d IH]; cbn [NutritionFacts.lookup NutritionFacts.assign].
  - destruct (String.eqb key' key); reflexivity.
  - destruct (String.eqb k key') eqn:E; cbn [NutritionFacts.lookup].
    + apply String.eqb_eq in E. subst k.
      destruct (String.eqb key' key); reflexivity.
    + rewrite IH. destruct (String.eqb k key) eqn:E2; [|reflexivity].
      apply String.eqb_eq in E2. subst k. now rewrite String.eqb_sym, E.
Qed.

Lemma lower_char_idempotent (c : ascii) :
  PyStr.lower_char (PyStr.lower_char c) = PyStr.lower_char c.
Proof. destruct c as [[] [] [] [] [] [] [] []]; reflexivity. Qed.

Lemma standardized_chars (s : string) :
  PyStrMore.all_chars NutritionFacts.standard_char
    (NutritionFacts.replace_char "," ""
       (NutritionFacts.replace_char " " "_" (PyStr.lower s))) = true.
Proof.
  induction s as [|c s IH]; [reflexivity|].
  cbn [PyStr.lower NutritionFacts.replace_char].
  destruct (Ascii.eqb (PyStr.lower_char c) " ") eqn:E1.
  - change ("_" ++ ?t)%string with (String "_" t).
    cbn [NutritionFacts.replace_char]. change (Ascii.eqb "_" ",") with false.
    cbv iota. cbn [PyStrMore.all_chars]. rewrite IH. reflexivity.
  - cbn [NutritionFacts.replace_char].
    destruct (Ascii.eqb (PyStr.lower_char c) ",") eqn:E2.
    + exact IH.
    + cbn [PyStrMore.all_chars]. rewrite IH.
      unfold NutritionFacts.standard_char.
      rewrite lower_char_idempotent, Ascii.eqb_refl, E1, E2. reflexivity.
Qed.

Lemma standard_chars_fixed (s : string) :
  PyStrMore.all_chars NutritionFacts.standard_char s = true ->
  NutritionFacts.replace_char "," "" (NutritionFacts.replace_char " " "_" (PyStr.lower s))
  = s.
Proof.
  induction s as [|c s IH]; [reflexivity|].
  cbn [PyStrMore.all_chars]. intros Hs.
  apply andb_prop in Hs as [Hc Hs]. unfold NutritionFacts.standard_char in Hc.
  apply andb_prop in Hc as [Hc H3]. apply andb_prop in Hc as [H1 H2].
  apply Ascii.eqb_eq in H1. apply negb_true_iff in H2, H3.
  cbn [PyStr.lower NutritionFacts.replace_char]. rewrite H1, H2.
  cbn [NutritionFacts.replace_char]. rewrite H3, (IH Hs). reflexivity.
Qed.

Lemma standard_chars_unmapped (s : string) :
  PyStrMore.all_chars NutritionFacts.standard_char s = true ->
  NutritionFacts.lookup s NutritionFacts.name_mapping = None.
Proof.
  destruct s as [|c s]; [reflexivity|].
  cbn [PyStrMore.all_chars]. intros Hs. apply andb_prop in Hs as [Hc _].
  destruct c as [[] [] [] [] [] [] [] []];
    first [discriminate Hc | reflexivity].
Qed.

(** X15. [_standardize_nutrient_name] is idempotent: a standardized name
    standardizes to itself, whether it came from the table or from lowering
    the name and replacing its spaces and commas.  The standard names of the
    table are the keys of the nutrition totals, in the same order. *)
Theorem standardize_nutrient_name_idempotent {number : Type} `{NumberOps number}
    (name : string) :
  NutritionFacts._standardize_nutrient_name
    (NutritionFacts._standardize_nutrient_name name)
  = NutritionFacts._standardize_nutrient_name name
  /\ map snd NutritionFacts.name_mapping
     = map fst (NutritionFacts._initialize_nutrition_totals (number := number)).
Proof.
  split; [|reflexivity].
  unfold NutritionFacts._standardize_nutrient_name at 2 3.
  destruct (NutritionFacts.lookup name NutritionFacts.name_mapping) as [standard|] eqn:E.
  - apply lookup_In in E. cbn in E.
    repeat (destruct E as [E|E]; [injection E as <- <-; reflexivity|]).
    destruct E.
  - unfold NutritionFacts._standardize_nutrient_name.
    rewrite (standard_chars_unmapped _ (standardized_chars name)).
    apply standard_chars_fixed, standardized_chars.
Qed.

Section NutritionAnalysisProofs.
Context {number : Type} `{NumberOps number}.

Lemma add_to_totals_keys (totals : list (string * number))
    (nutrients : list (string * option number)) (quantity : number) :
  map fst (NutritionFacts._add_to_nutrition_totals totals nutrients quantity)
  = map fst totals.
Proof.
  unfold NutritionFacts._add_to_nutrition_totals. rewrite map_map.
  apply map_ext. intros [key total].
  destruct (NutritionFacts.lookup key nutrients); reflexivity.
Qed.

Lemma total_nutrition_keys (foods : list (list (string * option number) * number)) :
  map fst (NutritionFacts.total_nutrition foods)
  = map fst (NutritionFacts._initialize_nutrition_totals (number := number)).
Proof.
  unfold NutritionFacts.total_nutrition.
  generalize (NutritionFacts._initialize_nutrition_totals (number := number)).
  induction foods as [|[nutrients quantity] foods IH]; intros totals; [reflexivity|].
  cbn [fold_left]. rewrite IH. apply add_to_totals_keys.
Qed.

Lemma lookup_keys {A} (key : string) (d : list (string * A)) :
  In key (map fst d) -> NutritionFacts.lookup key d <> None.
Proof.
  induction d as [|[k w] d IH]; cbn [map fst In NutritionFacts.lookup]; [tauto|].
  intros [->|Hin].
  - now rewrite String.eqb_refl.
  - destruct (String.eqb k key); [discriminate|auto].
Qed.

(** One round of the loop of [_calculate_daily_values]. *)
Lemma daily_value_step (percentages : list (string * NutritionFacts.percentage))
    (nutrient : string) (value : number) (key : string) :
  NutritionFacts.lookup key NutritionFacts.daily_values_reference = None ->
  let percentages' :=
    match NutritionFacts.lookup nutrient NutritionFacts.daily_values_reference with
    | Some reference =>
        if (reference >? 0)%Z
        then NutritionFacts.assign nutrient
               (NutritionFacts.Rounded (number_percent value reference)) percentages
        else NutritionFacts.assign nutrient NutritionFacts.IntZero percentages
    | None => NutritionFacts.assign nutrient NutritionFacts.IntZero percentages
    end in
  NutritionFacts.lookup key percentages'
  = if String.eqb nutrient key then Some NutritionFacts.IntZero
    else NutritionFacts.lookup key percentages.
Proof.
  intros Hkey. cbv zeta.
  destruct (String.eqb nutrient key) eqn:E.
  - apply String.eqb_eq in E. subst nutrient. rewrite Hkey.
    rewrite lookup_assign, String.eqb_refl. reflexivity.
  - destruct (NutritionFacts.lookup nutrient NutritionFacts.daily_values_reference)
      as [reference|]; [destruct (reference >? 0)%Z|];
      rewrite lookup_assign, E; reflexivity.
Qed.

(** A nutrient without a reference value gets the daily value 0. *)
Lemma daily_value_without_reference (nutrition : list (string * number))
    (key : string) :
  NutritionFacts.lookup key NutritionFacts.daily_values_reference = None ->
  NutritionFacts.lookup key (NutritionFacts._calculate_daily_values nutrition)
  = match NutritionFacts.lookup key nutrition with
    | Some _ => Some NutritionFacts.IntZero
    | None => None
    end.
Proof.
  intros Hkey. unfold NutritionFacts._calculate_daily_values.
  assert (G : forall percentages,
    NutritionFacts.lookup key
      (fold_left
         (fun percentages '(nutrient, value) =>
            match NutritionFacts.lookup nutrient NutritionFacts.daily_values_reference with
            | Some reference =>
                if (reference >? 0)%Z
                then NutritionFacts.assign nutrient
                       (NutritionFacts.Rounded (number_percent value reference))
                       percentages
                else NutritionFacts.assign nutrient NutritionFacts.IntZero percentages
            | None => NutritionFacts.assign nutrient NutritionFacts.IntZero percentages
            end) nutrition percentages)
    = match NutritionFacts.lookup key nutrition with
      | Some _ => Some NutritionFacts.IntZero
      | None => NutritionFacts.lookup key percentages
      end).
  { induction nutrition as [|[nutrient value] nutrition IH]; intros percentages;
      [reflexivity|].
    cbn [fold_left NutritionFacts.lookup]. rewrite IH.
    destruct (NutritionFacts.lookup key nutrition).
    - destruct (String.eqb nutrient key); reflexivity.
    - rewrite (daily_value_step percentages nutrient value key Hkey).
      destruct (String.eqb nutrient key); reflexivity. }
  rewrite G. reflexivity.
Qed.

Lemma assign_keys {A} (key : string) (v : A) (d : list (string * A)) :
  map fst (NutritionFacts.assign key v d)
  = match NutritionFacts.lookup key d with
    | Some _ => map fst d
    | None => (map fst d ++ [key])%list
    end.
Proof.
  induction d as [|[k0 w] d IH]; cbn [NutritionFacts.assign NutritionFacts.lookup];
    [reflexivity|].
  destruct (String.eqb k0 key); [reflexivity|].
  cbn [map fst]. rewrite IH.
  destruct (NutritionFacts.lookup key d); reflexivity.
Qed.

Lemma assign_keys_NoDup {A} (key : string) (v : A) (d : list (string * A)) :
  NoDup (map fst d) -> NoDup (map fst (NutritionFacts.assign key v d)).
Proof.
  intros Hd. rewrite assign_keys.
  destruct (NutritionFacts.lookup key d) eqn:E; [exact Hd|].
  apply NoDup_app. split; [exact Hd|]. split; [|apply NoDup_singleton].
  intros k Hk Hk'. apply list_elem_of_singleton in Hk'. subst k.
  apply list_elem_of_In in Hk. now apply lookup_keys in Hk.
Qed.

Lemma In_lookup {A} (key : string) (v : A) (d : list (string * A)) :
  NoDup (map fst d) -> In (key, v) d -> NutritionFacts.lookup key d = Some v.
Proof.
  induction d as [|[k0 w] d IH]; cbn [map fst In NutritionFacts.lookup]; [tauto|].
  intros Hd Hin. apply NoDup_cons in Hd as [Hk0 Hd].
  destruct Hin as [[= -> ->]|Hin].
  - now rewrite String.eqb_refl.
  - destruct (String.eqb k0 key) eqn:E; [|auto].
    apply String.eqb_eq in E. subst k0. exfalso. apply Hk0.
    apply list_elem_of_In. apply (in_map fst) in Hin. exact Hin.
Qed.

Lemma daily_values_keys_NoDup (nutrition : list (string * number)) :
  NoDup (map fst (NutritionFacts._calculate_daily_values nutrition)).
Proof.
  unfold NutritionFacts._calculate_daily_values.
  assert (G : NoDup (map fst ([] : list (string * @NutritionFacts.percentage number))))
    by apply NoDup_nil_2.
  revert G. generalize ([] : list (string * @NutritionFacts.percentage number)).
  induction nutrition as [|[nutrient value] nutrition IH]; intros percentages G;
    [exact G|].
  cbn [fold_left]. apply IH.
  destruct (NutritionFacts.lookup nutrient NutritionFacts.daily_values_reference)
    as [reference|]; [destruct (reference >? 0)%Z|]; now apply assign_keys_NoDup.
Qed.

(** Where the concerns of the loop over the daily values come from. *)
Lemma concerns_origin (l : list (string * NutritionFacts.percentage))
    (analysis : NutritionFacts.Analysis) (c : string) :
  In c (NutritionFacts.concerns (fold_left NutritionFacts.analyze_nutrient l analysis)) ->
  In c (NutritionFacts.concerns analysis)
  \/ exists nutrient p,
       In (nutrient, p) l
       /\ ((c = ("High" ++ " " ++ nutrient ++ ": " ++ NutritionFacts.percentage_str p
                 ++ "% of daily value")%string
            /\ PyStr.in_list nutrient ["sodium"; "sugars"] = true
            /\ NutritionFacts.percentage_ge p 100 = true)
           \/ c = ("Low" ++ " " ++ nutrient ++ ": " ++ NutritionFacts.percentage_str p
                   ++ "% of daily value")%string).
Proof.
  revert analysis. induction l as [|[nutrient p] l IH]; intros analysis Hc;
    [now left|].
  cbn [fold_left] in Hc. apply IH in Hc as [Hc|(n' & p' & Hin & Hc)].
  2:{ right. exists n', p'. split; [now right|exact Hc]. }
  unfold NutritionFacts.analyze_nutrient in Hc.
  destruct (NutritionFacts.percentage_ge p 100) eqn:E100.
  - destruct (PyStr.in_list nutrient ["sodium"; "sugars"]) eqn:Ein;
      cbn [NutritionFacts.concerns] in Hc; [|now left].
    apply in_app_or in Hc as [Hc|[<-|[]]]; [now left|].
    right. exists nutrient, p. split; [now left|]. left. auto.
  - destruct (NutritionFacts.percentage_ge p 75);
      cbn [NutritionFacts.concerns] in Hc; [now left|].
    destruct (NutritionFacts.percentage_lt p 25);
      cbn [NutritionFacts.concerns] in Hc; [|now left].
    apply in_app_or in Hc as [Hc|[<-|[]]]; [now left|].
    right. exists nutrient, p. split; [now left|]. now right.
Qed.

Lemma concerns_grow (l : list (string * NutritionFacts.percentage))
    (analysis : NutritionFacts.Analysis) (c : string) :
  In c (NutritionFacts.concerns analysis) ->
  In c (NutritionFacts.concerns (fold_left NutritionFacts.analyze_nutrient l analysis)).
Proof.
  revert analysis. induction l as [|[nutrient p] l IH]; intros analysis Hc;
    [exact Hc|].
  cbn [fold_left]. apply IH. unfold NutritionFacts.analyze_nutrient.
  repeat match goal with
         | |- context [if ?b then _ else _] => destruct b
         end; cbn [NutritionFacts.concerns]; try exact Hc;
    apply in_or_app; now left.
Qed.

(** A daily value that is the int 0 is reported as low. *)
Lemma zero_is_low (l : list (string * NutritionFacts.percentage))
    (analysis : NutritionFacts.Analysis) (nutrient : string) :
  In (nutrient, NutritionFacts.IntZero) l ->
  In ("Low " ++ nutrient ++ ": 0% of daily value")%string
     (NutritionFacts.concerns (fold_left NutritionFacts.analyze_nutrient l analysis)).
Proof.
  revert analysis. induction l as [|[n' p'] l IH]; intros analysis Hin; [destruct Hin|].
  cbn [fold_left]. destruct Hin as [[= -> ->]|Hin]; [|now apply IH].
  apply concerns_grow. cbn. apply in_or_app. right. left. reflexivity.
Qed.

End NutritionAnalysisProofs.

(** X16. In the analysis of [_generate_nutrition_analysis], sugars are never
    reported as high: every concern is a high sodium or a low nutrient, the
    percentage of a high sodium being a rounded number.  A nutrient of the
    dict that has no reference value, as sugars, is always reported as low at
    0% of the daily value, whatever its amount. *)
Theorem nutrition_analysis_concerns {number : Type} `{NumberOps number}
    (nutrition : list (string * number)) :
  (forall c, In c (NutritionFacts.concerns
                     (NutritionFacts._generate_nutrition_analysis nutrition)) ->
     (exists x, c = ("High sodium: " ++ number_str x ++ "% of daily value")%string)
     \/ (exists nutrient p,
           c = ("Low " ++ nutrient ++ ": " ++ NutritionFacts.percentage_str p
                ++ "% of daily value")%string))
  /\ (forall nutrient,
        In nutrient (map fst nutrition) ->
        NutritionFacts.lookup nutrient NutritionFacts.daily_values_reference = None ->
        In ("Low " ++ nutrient ++ ": 0% of daily value")%string
           (NutritionFacts.concerns
              (NutritionFacts._generate_nutrition_analysis nutrition)))
  /\ NutritionFacts.lookup "sugars" NutritionFacts.daily_values_reference = None.
Proof.
  unfold NutritionFacts._generate_nutrition_analysis. cbn [NutritionFacts.concerns].
  split; [|split; [|reflexivity]].
  - intros c Hc. apply concerns_origin in Hc as [[]|(nutrient & p & Hin & Hc)].
    destruct Hc as [[-> [Hn Hge]]| ->]; [|right; exists nutrient, p; reflexivity].
    left. apply In_lookup in Hin; [|apply daily_values_keys_NoDup].
    unfold PyStr.in_list in Hn. cbn [existsb] in Hn.
    destruct (String.eqb nutrient "sodium") eqn:E1.
    + apply String.eqb_eq in E1. subst nutrient.
      destruct p as [|x]; [discriminate Hge|]. exists x. reflexivity.
    + destruct (String.eqb nutrient "sugars") eqn:E2; [|discriminate Hn].
      apply String.eqb_eq in E2. subst nutrient.
      rewrite daily_value_without_reference in Hin by reflexivity.
      destruct (NutritionFacts.lookup "sugars" nutrition); [|discriminate Hin].
      injection Hin as <-. discriminate Hge.
  - intros nutrient Hin Href. apply zero_is_low. apply lookup_In.
    rewrite daily_value_without_reference by exact Href.
    apply lookup_keys in Hin.
    destruct (NutritionFacts.lookup nutrient nutrition); [reflexivity|congruence].
Qed.

(** X17. The totals that [get_nutrition_facts] and the recipe fallback add
    up always have the fifteen keys of [_initialize_nutrition_totals], in
    that order, whatever the foods hold; sugars being one of them, the
    analysis of such totals always holds the concern that sugars are low at
    0% of the daily value. *)
Theorem total_nutrition_sugars_low {number : Type} `{NumberOps number}
    (foods : list (list (string * option number) * number)) :
  map fst (NutritionFacts.total_nutrition foods)
  = [ "calories"; "protein"; "fat"; "carbohydrates"; "fiber"; "sugars";
      "sodium"; "calcium"; "iron"; "vitamin_c"; "vitamin_d"; "potassium";
      "magnesium"; "phosphorus"; "zinc" ]
  /\ In "Low sugars: 0% of daily value"
        (NutritionFacts.concerns
           (NutritionFacts._generate_nutrition_analysis
              (NutritionFacts.total_nutrition foods))).
Proof.
  split; [rewrite total_nutrition_keys; reflexivity|].
  unfold NutritionFacts._generate_nutrition_analysis. cbn [NutritionFacts.concerns].
  apply (zero_is_low _ _ "sugars"). apply lookup_In.
  rewrite daily_value_without_reference by reflexivity.
  assert (Hin : In "sugars" (map fst (NutritionFacts.total_nutrition foods))).
  { rewrite total_nutrition_keys. cbn. tauto. }
  apply lookup_keys in Hin.
  destruct (NutritionFacts.lookup "sugars" (NutritionFacts.total_nutrition foods));
    [reflexivity|congruence].
Qed.

(** ** core/nutrition_api.py: ingredients *)

Lemma split_words_nonempty (s cur w : string) :
  In w (PyStr.split_from cur s) -> w <> EmptyString.
Proof.
  revert cur. induction s as [|c s IH]; intros cur; cbn [PyStr.split_from].
  - destruct cur; [intros []|]. intros [<-|[]]. discriminate.
  - destruct (PyStr.isspace c).
    + destruct cur; [apply IH|]. intros [<-|Hw]; [discriminate|]. now apply IH in Hw.
    + apply IH.
Qed.

Lemma split_nil (s cur : string) :
  PyStr.split_from cur s = [] ->
  cur = EmptyString /\ PyStrMore.all_chars PyStr.isspace s = true.
Proof.
  revert cur. induction s as [|c s IH]; intros cur;
    cbn [PyStr.split_from PyStrMore.all_chars].
  - destruct cur; [auto|discriminate].
  - destruct (PyStr.isspace c).
    + destruct cur; [|discriminate]. intros Hs. apply IH in Hs as [_ Hs]. auto.
    + intros Hs. apply IH in Hs as [Hcur _]. destruct cur; discriminate.
Qed.

Lemma all_space_split (s : string) :
  PyStrMore.all_chars PyStr.isspace s = true -> PyStr.split s = [].
Proof.
  unfold PyStr.split. induction s as [|c s IH]; [reflexivity|].
  cbn [PyStrMore.all_chars PyStr.split_from]. intros Hs.
  apply andb_prop in Hs as [-> Hs]. auto.
Qed.

Lemma all_space_lstrip (s : string) :
  PyStrMore.all_chars PyStr.isspace s = true -> Spec.lstrip s = EmptyString.
Proof.
  induction s as [|c s IH]; [reflexivity|].
  cbn [PyStrMore.all_chars Spec.lstrip]. intros Hs.
  apply andb_prop in Hs as [-> Hs]. auto.
Qed.




Lemma extract_food_name_nonblank (ingredient : string) :
  PyStr.split ingredient <> [] ->
  exists name,
    Ingredients._extract_food_name ingredient = Returns name
    /\ name <> EmptyString
    /\ (name = PyStrMore.strip
                 (PyStrMore.replace "organic" ""
                    (PyStrMore.replace "extra virgin" ""
                       (String.concat " "
                          (List.filter Ingredients.is_food_word
                             (PyStr.split
                                (PyStrMore.strip (PyStr.lower ingredient)))))))
        \/ exists rest, PyStr.split ingredient = name :: rest).
Proof.
  intros Hs. unfold Ingredients._extract_food_name.
  match goal with
  | |- context [match ?n with EmptyString => _ | String _ _ => _ end] =>
      destruct n as [|c name] eqn:E
  end.
  - destruct (PyStr.split ingredient) as [|word rest] eqn:Ew; [congruence|].
    exists word. split; [reflexivity|]. split; [|right; eauto].
    apply (split_words_nonempty ingredient EmptyString).
    unfold PyStr.split in Ew. rewrite Ew. now left.
  - eexists. split; [reflexivity|]. split; [discriminate|]. now left.
Qed.








Example extract_food_name_examples :
  Ingredients._extract_food_name "1/2 cup extra virgin olive oil" = Returns "olive oil"
  /\ Ingredients._extract_food_name "2 Cups" = Returns "2".
Proof. split; vm_compute; reflexivity. Qed.

(** An ingredient that passes the length test has a word. *)
Lemma long_enough_has_word (ingredient : string) :
  (String.length (PyStrMore.strip ingredient) <? 2)%nat = false ->
  PyStr.split ingredient <> [].
Proof.
  intros Hlen Hs. apply split_nil in Hs as [_ Hs].
  unfold PyStrMore.strip in Hlen. rewrite (all_space_lstrip _ Hs) in Hlen.
  discriminate Hlen.
Qed.

Ltac done_with a b c :=
  eexists _, a, b, c; split; [reflexivity|];
  cbn [Ingredients.valid_ingredients Ingredients.invalid_ingredients
       Ingredients.warnings Ingredients.add_valid Ingredients.add_invalid
       Ingredients.add_suggestions Ingredients.add_warning];
  rewrite ?app_nil_r;
  repeat (split; [first [reflexivity | cbn; lia]|]);
  repeat constructor; eauto.

(** What one round of the loop of [validate_ingredient_list] does. *)
Lemma validate_ingredient_step (env : Ingredients.Env)
    (validated : Ingredients.Validated) (ingredient : string) :
  exists (validated' : Ingredients.Validated) (a b : list pyval) (c : list string),
    Ingredients.validate_ingredient env validated ingredient = Returns validated'
    /\ Ingredients.valid_ingredients validated'
       = (Ingredients.valid_ingredients validated ++ a)%list
    /\ Ingredients.invalid_ingredients validated'
       = (Ingredients.invalid_ingredients validated ++ b)%list
    /\ Ingredients.warnings validated' = (Ingredients.warnings validated ++ c)%list
    /\ (List.length a + List.length b <= 1
        <= List.length a + List.length b + List.length c)%nat
    /\ Forall (fun entry =>
                 exists reason,
                   entry = PyDict [("original", PyStr ingredient);
                                   ("reason", PyStr reason)]
                   /\ (reason = "Too short or empty"
                       \/ reason = "Food not found in database")) b.
Proof.
  unfold Ingredients.validate_ingredient.
  destruct (String.eqb ingredient "" || _)%bool eqn:Eshort.
  { done_with (@nil pyval)
      [PyDict [("original", PyStr ingredient); ("reason", PyStr "Too short or empty")]]
      (@nil string). }
  apply orb_false_elim in Eshort as [_ Hlen].
  destruct (extract_food_name_nonblank ingredient (long_enough_has_word _ Hlen))
    as (name & -> & Hne & _).
  unfold mbind at 1. unfold outcome_bind at 1. unfold Py.bind at 1. cbv beta iota.
  destruct (String.eqb name "") eqn:En; [apply String.eqb_eq in En; congruence|].
  destruct (Ingredients.search_food env name 1) as [search_results|e].
  2:{ done_with (@nil pyval) (@nil pyval)
        [("Could not validate ingredient: " ++ ingredient)%string]. }
  destruct (call_get search_results "foods" PyNone) as [foods|e].
  2:{ done_with (@nil pyval) (@nil pyval)
        [("Could not validate ingredient: " ++ ingredient)%string]. }
  destruct (Ingredients.truthy foods).
  - match goal with
    | |- context [match ?x with Returns _ => _ | Raises _ => _ end] =>
        destruct x as [found|e]
    end.
    + done_with [PyDict [("original", PyStr ingredient); ("cleaned", PyStr name);
                         ("found_food", found)]] (@nil pyval) (@nil string).
    + done_with (@nil pyval) (@nil pyval)
        [("Could not validate ingredient: " ++ ingredient)%string].
  - cbv zeta.
    destruct (Ingredients.get_food_suggestions env name 3) as [found|e].
    + destruct (Ingredients.truthy found);
        done_with (@nil pyval)
          [PyDict [("original", PyStr ingredient);
                   ("reason", PyStr "Food not found in database")]] (@nil string).
    + done_with (@nil pyval)
        [PyDict [("original", PyStr ingredient);
                 ("reason", PyStr "Food not found in database")]]
        [("Could not validate ingredient: " ++ ingredient)%string].
Qed.

Lemma validate_loop_result (env : Ingredients.Env) (ingredients : list string)
    (validated : Ingredients.Validated) :
  exists (validated' : Ingredients.Validated) (a b : list pyval) (c : list string),
    Ingredients.validate_loop env validated ingredients = Returns validated'
    /\ Ingredients.valid_ingredients validated'
       = (Ingredients.valid_ingredients validated ++ a)%list
    /\ Ingredients.invalid_ingredients validated'
       = (Ingredients.invalid_ingredients validated ++ b)%list
    /\ Ingredients.warnings validated' = (Ingredients.warnings validated ++ c)%list
    /\ (List.length a + List.length b <= List.length ingredients
        <= List.length a + List.length b + List.length c)%nat
    /\ Forall (fun entry =>
                 exists ingredient reason,
                   In ingredient ingredients
                   /\ entry = PyDict [("original", PyStr ingredient);
                                      ("reason", PyStr reason)]
                   /\ (reason = "Too short or empty"
                       \/ reason = "Food not found in database")) b.
Proof.
  revert validated. induction ingredients as [|ingredient rest IH]; intros validated.
  - exists validated, [], [], []. cbn. rewrite !app_nil_r. repeat split; auto.
  - cbn [Ingredients.validate_loop].
    destruct (validate_ingredient_step env validated ingredient)
      as (v1 & a1 & b1 & c1 & -> & Ha1 & Hb1 & Hc1 & Hlen1 & Hreason1).
    unfold mbind at 1. unfold outcome_bind at 1. unfold Py.bind at 1. cbv beta iota.
    destruct (IH v1) as (v2 & a2 & b2 & c2 & -> & Ha2 & Hb2 & Hc2 & Hlen2 & Hreason2).
    exists v2, (a1 ++ a2)%list, (b1 ++ b2)%list, (c1 ++ c2)%list.
    split; [reflexivity|].
    rewrite Ha2, Hb2, Hc2, Ha1, Hb1, Hc1, <- !app_assoc.
    repeat (split; [reflexivity|]).
    split; [rewrite !length_app; cbn [List.length]; lia|].
    apply Forall_app. split.
    + eapply Forall_impl; [exact Hreason1|]. intros entry (reason & -> & Hr).
      exists ingredient, reason. split; [now left|auto].
    + eapply Forall_impl; [exact Hreason2|].
      intros entry (ingredient' & reason & Hin & -> & Hr).
      exists ingredient', reason. split; [now right|auto].
Qed.

(** X19. [validate_ingredient_list] never raises, on any list of strings and
    whatever the search and the suggestions do.  An invalid entry is one of
    the ingredients with the reason 'Too short or empty' or 'Food not found
    in database': the reason 'Could not extract food name' never occurs.  The
    valid and the invalid entries are together at most as many as the
    ingredients, and with the warnings at least as many. *)
Theorem validate_ingredient_list_result (env : Ingredients.Env)
    (ingredients : list string) :
  exists validated : Ingredients.Validated,
    Ingredients.validate_ingredient_list env ingredients = Returns validated
    /\ (List.length (Ingredients.valid_ingredients validated)
        + List.length (Ingredients.invalid_ingredients validated)
        <= List.length ingredients
        <= List.length (Ingredients.valid_ingredients validated)
           + List.length (Ingredients.invalid_ingredients validated)
           + List.length (Ingredients.warnings validated))%nat
    /\ Forall (fun entry =>
                 exists ingredient reason,
                   In ingredient ingredients
                   /\ entry = PyDict [("original", PyStr ingredient);
                                      ("reason", PyStr reason)]
                   /\ (reason = "Too short or empty"
                       \/ reason = "Food not found in database"))
              (Ingredients.invalid_ingredients validated).
Proof.
  unfold Ingredients.validate_ingredient_list.
  destruct (validate_loop_result env ingredients
              {| Ingredients.valid_ingredients := [];
                 Ingredients.invalid_ingredients := [];
                 Ingredients.suggestions := [];
                 Ingredients.warnings := [] |})
    as (v & a & b & c & -> & Ha & Hb & Hc & Hlen & Hreason).
  cbn in Ha, Hb, Hc. subst a b c. eauto.
Qed.

(** ** [_estimate_quantity] *)

Lemma span_digits_digits (s : string) :
  PyStrMore.all_chars Ingredients.is_digit (fst (Ingredients.span_digits s)) = true.
Proof.
  induction s as [|c s IH]; [reflexivity|]. cbn [Ingredients.span_digits].
  destruct (Ingredients.is_digit c) eqn:E; [|reflexivity].
  destruct (Ingredients.span_digits s) as [digits rest].
  cbn [fst PyStrMore.all_chars] in *. now rewrite E, IH.
Qed.

Lemma span_digits_all (digits : string) :
  PyStrMore.all_chars Ingredients.is_digit digits = true ->
  Ingredients.span_digits digits = (digits, EmptyString).
Proof.
  induction digits as [|c digits IH]; [reflexivity|].
  cbn [PyStrMore.all_chars Ingredients.span_digits]. intros Hd.
  apply andb_prop in Hd as [-> Hd]. now rewrite (IH Hd).
Qed.

Lemma span_digits_point (digits more : string) :
  PyStrMore.all_chars Ingredients.is_digit digits = true ->
  Ingredients.span_digits (digits ++ String "." more) = (digits, String "." more).
Proof.
  induction digits as [|c digits IH]; [reflexivity|].
  cbn [PyStrMore.all_chars]. intros Hd. apply andb_prop in Hd as [Hc Hd].
  rewrite append_cons. cbn [Ingredients.span_digits]. now rewrite Hc, (IH Hd).
Qed.

(** What [findall] finds first is a decimal numeral. *)
Lemma first_number_decimal (s number : string) :
  Quantity.first_number s = Some number -> Quantity.decimal_numeral number = true.
Proof.
  induction s as [|c s IH]; [discriminate|].
  cbn [Quantity.first_number].
  destruct (Ingredients.is_digit c) eqn:Ec; [|exact IH].
  pose proof (span_digits_digits (String c s)) as Hd.
  cbn [Ingredients.span_digits] in *. rewrite Ec in *.
  destruct (Ingredients.span_digits s) as [digits rest]. cbn [fst] in Hd.
  assert (Hplain : Quantity.decimal_numeral (String c digits) = true).
  { unfold Quantity.decimal_numeral, Ingredients.digits1.
    rewrite (span_digits_all _ Hd). reflexivity. }
  destruct rest as [|x rest]; [now intros [= <-]|].
  destruct (Ascii.eqb x ".") eqn:Ex.
  - apply Ascii.eqb_eq in Ex. subst x.
    pose proof (span_digits_digits rest) as Hm.
    destruct (Ingredients.span_digits rest) as [more rest']. cbn [fst] in Hm.
    intros [= <-]. unfold Quantity.decimal_numeral, Ingredients.digits1.
    rewrite (span_digits_point _ more Hd).
    now rewrite (span_digits_all _ Hm).
  - assert (Some (String c digits) = Some number -> 
            Quantity.decimal_numeral number = true) by now intros [= <-].
    destruct x as [[] [] [] [] [] [] [] []]; first [discriminate Ex | assumption].
Qed.

(** Without a digit there is no fraction. *)
Lemma no_number_no_fraction (s : string) :
  Quantity.first_number s = None -> Quantity.fraction_search s = None.
Proof.
  induction s as [|c s IH]; [reflexivity|].
  cbn [Quantity.first_number Quantity.fraction_search].
  unfold Quantity.fraction_at, Ingredients.digits1.
  cbn [Ingredients.span_digits].
  destruct (Ingredients.is_digit c) eqn:Ec.
  - destruct (Ingredients.span_digits s) as [digits rest].
    destruct rest as [|x rest]; [discriminate|].
    destruct (Ingredients.span_digits rest).
    destruct x as [[] [] [] [] [] [] [] []]; discriminate.
  - exact IH.
Qed.

(** X20. When [float] reads every decimal numeral, [_estimate_quantity] is
    the first number of the ingredient times the factor of its unit, and 1.0
    for an ingredient without a digit: the handler of ValueError and the
    search for a fraction after it are never reached, so that of a fraction
    as 1/2 only the numerator counts. *)
Theorem estimate_quantity_first_number {float : Type} `{QuantityOps float}
    (ingredient : string) :
  (forall s, Quantity.decimal_numeral s = true -> exists x, float_of_str s = Returns x) ->
  match Quantity.first_number ingredient with
  | Some number =>
      exists quantity,
        float_of_str number = Returns quantity
        /\ Quantity._estimate_quantity ingredient
           = Returns (float_times quantity
                        (Quantity.unit_factor (PyStr.lower ingredient)))
  | None => Quantity._estimate_quantity ingredient = Returns float_1
  end.
Proof.
  intros Hfloat. unfold Quantity._estimate_quantity.
  destruct (Quantity.first_number ingredient) as [number|] eqn:E.
  - destruct (Hfloat number (first_number_decimal _ _ E)) as [quantity Hq].
    exists quantity. now rewrite Hq.
  - now rewrite (no_number_no_fraction _ E).
Qed.

(** Half a cup of milk is estimated as one cup. *)
Lemma estimate_quantity_first_number_witness :
  match Quantity.first_number "1/2 cup milk" with
  | Some number =>
      exists quantity,
        float_of_str (QuantityOps := Quantity.symbolic) number = Returns quantity
        /\ Quantity._estimate_quantity (H := Quantity.symbolic) "1/2 cup milk"
           = Returns (float_times (QuantityOps := Quantity.symbolic) quantity
                        (Quantity.unit_factor (PyStr.lower "1/2 cup milk")))
  | None =>
      Quantity._estimate_quantity (H := Quantity.symbolic) "1/2 cup milk"
      = Returns (float_1 (QuantityOps := Quantity.symbolic))
  end.
Proof.
  apply (estimate_quantity_first_number (H := Quantity.symbolic) "1/2 cup milk").
  intros s Hs. exists (s, []). cbn. rewrite Hs. reflexivity.
Defined.

Example estimate_quantity_example :
  Quantity._estimate_quantity (H := Quantity.symbolic) "1/2 cup milk"
  = Returns ("1", [8 # 10]).
Proof. vm_compute. reflexivity. Qed.

(** ** The grocery list, beyond the claims *)

Section GroceryListMore.
Context {float : Type} `{FloatOps float}.
Import MealPlanningService.

Lemma find_app_Some {A} (f : A -> bool) (l l' : list A) (x : A) :
  find f l = Some x -> find f (l ++ l') = Some x.
Proof.
  induction l as [|a l IH]; [discriminate|]. cbn [find app].
  destruct (f a); auto.
Qed.

Lemma find_app_None {A} (f : A -> bool) (l l' : list A) :
  find f l = None -> find f (l ++ l') = find f l'.
Proof.
  induction l as [|a l IH]; [reflexivity|]. cbn [find app].
  destruct (f a); [discriminate|auto].
Qed.

Lemma first_with_name_absent (food_name : string) (l : list (@MealFood float)) :
  food_name ∉ map Spec.food_name_of l -> GroceryMore.first_with_name food_name l = None.
Proof.
  unfold GroceryMore.first_with_name.
  induction l as [|mf l IH]; intros Hn; [reflexivity|]. cbn [find].
  destruct (String.eqb (name (food_item mf)) food_name) eqn:E.
  - apply String.eqb_eq in E. exfalso. apply Hn. rewrite <- E. left.
  - apply IH. intros Hin. apply Hn. now right.
Qed.

Lemma from_first_step (l : list (@MealFood float))
    (st : list (string * @GroceryItem float) * list (string * list string))
    (mf : @MealFood float) :
  Spec.collected l st.1 -> GroceryMore.from_first l st.1 ->
  GroceryMore.from_first (l ++ [mf]) (collect st mf).1.
Proof.
  destruct st as [gi cats]. cbn [fst]. intros [Hnd Hkeys Hent] Hfirst.
  unfold collect. cbn [fst]. set (n := name (food_item mf)).
  assert (Hold : forall k item, (k, item) ∈ gi ->
            exists first,
              GroceryMore.first_with_name k (l ++ [mf]) = Some first
              /\ estimated_cost item = _estimate_item_cost k (quantity first)
              /\ item_unit item = unit first
              /\ item_category item = GroceryMore.category_of first).
  { intros k item Hin. destruct (Hfirst k item Hin) as (first & Hf & Hrest).
    exists first. split; [|exact Hrest]. now apply find_app_Some. }
  destruct (has_key n gi) eqn:Hhas.
  - intros k item' Hin. apply add_quantity_elem in Hin; [|exact Hnd].
    destruct Hin as [[_ Hin]|(-> & item & Hin & ->)]; [now apply Hold|].
    destruct (Hold _ _ Hin) as (first & Hf & Hc & Hu & Hcat).
    exists first. cbn [add_to_item estimated_cost item_unit item_category]. auto.
  - intros k item' Hin. apply elem_of_app in Hin as [Hin|Hin]; [now apply Hold|].
    apply list_elem_of_singleton in Hin as [= -> ->].
    exists mf. cbn [estimated_cost item_unit item_category].
    split; [|repeat split].
    unfold GroceryMore.first_with_name. rewrite find_app_None.
    + cbn [find]. fold n. now rewrite String.eqb_refl.
    + apply first_with_name_absent. rewrite <- Hkeys. intros Hin.
      apply has_key_spec in Hin. congruence.
Qed.

Lemma from_first_fold (l : list (@MealFood float)) :
  GroceryMore.from_first l (fold_left collect l ([], [])).1.
Proof.
  induction l as [|mf l IH] using rev_ind.
  - intros k item Hin. inversion Hin.
  - rewrite fold_left_app. cbn [fold_left].
    apply from_first_step; [apply collected_fold|exact IH].
Qed.

(** The categories that were opened are those of the meal foods. *)
Lemma add_to_category_length (category food_name : string)
    (cats : list (string * list string)) (c : string) :
  category_length (add_to_category category food_name cats) c <> None
  <-> category = c \/ category_length cats c <> None.
Proof.
  unfold category_length.
  induction cats as [|[c0 names] cats IH]; cbn [add_to_category find].
  - cbn [fst]. destruct (String.eqb category c) eqn:E.
    + apply String.eqb_eq in E. cbn. split; [auto|discriminate].
    + apply String.eqb_neq in E. cbn. tauto.
  - destruct (String.eqb c0 category) eqn:E0; cbn [find fst].
    + apply String.eqb_eq in E0. subst c0.
      destruct (String.eqb category c) eqn:E; cbn [fmap option_fmap option_map].
      * apply String.eqb_eq in E. split; [auto|discriminate].
      * apply String.eqb_neq in E. tauto.
    + destruct (String.eqb c0 c) eqn:E; cbn [fmap option_fmap option_map].
      * split; [right|]; discriminate.
      * exact IH.
Qed.

Lemma categories_fold (l : list (@MealFood float))
    (st : list (string * @GroceryItem float) * list (string * list string))
    (c : string) :
  category_length (fold_left collect l st).2 c <> None
  <-> category_length st.2 c <> None
      \/ exists mf, In mf l /\ GroceryMore.category_of mf = c.
Proof.
  revert st. induction l as [|mf l IH]; intros st; cbn [fold_left].
  - split; [auto|]. intros [Hc|(mf & [] & _)]. exact Hc.
  - rewrite IH. destruct st as [gi cats]. unfold collect. cbn [snd].
    rewrite add_to_category_length. fold (GroceryMore.category_of mf). split.
    + intros [[Hc|Hc]|(mf' & Hin & Hc)]; [right|left|right]; eauto.
      * exists mf. split; [now left|exact Hc].
      * exists mf'. split; [now right|exact Hc].
    + intros [Hc|(mf' & [<-|Hin] & Hc)]; [left; now right|left; now left|].
      right. eauto.
Qed.

End GroceryListMore.

(** X21. In the grocery list, the estimated cost of an item, its unit and its
    category are those of the first meal food with its name: the cost is
    estimated from the quantity of that first occurrence, and is not brought
    up to date when later occurrences add to the quantity of the item. *)
Theorem grocery_item_from_first_occurrence {float : Type} `{FloatOps float}
    (meal_plan : @MealPlanningService.MealPlan float) :
  Forall (fun item =>
            exists first,
              GroceryMore.first_with_name (MealPlanningService.item_name item)
                (MealPlanningService.all_foods meal_plan) = Some first
              /\ MealPlanningService.estimated_cost item
                 = MealPlanningService._estimate_item_cost
                     (MealPlanningService.item_name item)
                     (MealPlanningService.quantity first)
              /\ MealPlanningService.item_unit item = MealPlanningService.unit first
              /\ MealPlanningService.item_category item = GroceryMore.category_of first)
         (MealPlanningService.items
            (MealPlanningService.generate_grocery_list meal_plan)).
Proof.
  unfold MealPlanningService.generate_grocery_list.
  rewrite fold_meals. fold (MealPlanningService.all_foods meal_plan).
  pose proof (collected_fold (MealPlanningService.all_foods meal_plan)) as Hc.
  pose proof (from_first_fold (MealPlanningService.all_foods meal_plan)) as Hf.
  destruct (fold_left MealPlanningService.collect _ _) as [gi cats].
  cbn [fst] in Hc, Hf. cbn [MealPlanningService.items].
  apply List.Forall_forall. intros item Hin. apply in_map_iff in Hin as ([k item'] & <- & Hin).
  apply list_elem_of_In in Hin. cbn [snd].
  destruct Hc as [_ _ Hent]. destruct (Hent _ _ Hin) as [-> _].
  exact (Hf _ _ Hin).
Qed.

(** 100 g and 300 g of rice make an item of 400 g at the cost of 100 g. *)
Example grocery_cost_of_first_occurrence :
  map (fun item => (MealPlanningService.item_name item,
                    MealPlanningService.item_quantity item,
                    MealPlanningService.estimated_cost item))
      (MealPlanningService.items
         (MealPlanningService.generate_grocery_list (H := GroceryMore.exact)
            GroceryMore.two_meals))
  = [("Brown rice", 400%Q, 1 # 2); ("Spinach", 50%Q, 1%Q)].
Proof. vm_compute. reflexivity. Qed.

(** X22. The shopping tips of a grocery list are at most three tips that
    depend on the categories, followed by the two tips that are always
    given; the tip about vegetables is among them exactly when some meal
    food of the plan is of the category 'Vegetables'. *)
Theorem grocery_list_shopping_tips {float : Type} `{FloatOps float}
    (meal_plan : @MealPlanningService.MealPlan float) :
  let tips := MealPlanningService.shopping_tips
                (MealPlanningService.generate_grocery_list meal_plan) in
  (exists first_tips,
     tips = (first_tips ++
             ["Check store flyers for weekly specials on your list items";
              "Bring reusable bags and stick to your list to avoid impulse purchases"])%list
     /\ (List.length first_tips <= 3)%nat)
  /\ (In "Shop for vegetables 2-3 times per week for maximum freshness" tips
      <-> exists meal_food,
            In meal_food (MealPlanningService.all_foods meal_plan)
            /\ MealPlanningService.category (MealPlanningService.food_item meal_food)
               = "Vegetables").
Proof.
  intros tips. subst tips. unfold MealPlanningService.generate_grocery_list.
  rewrite fold_meals. fold (MealPlanningService.all_foods meal_plan).
  pose proof (categories_fold (MealPlanningService.all_foods meal_plan) ([], [])
                "Vegetables") as Hveg.
  destruct (fold_left MealPlanningService.collect _ _) as [gi cats].
  cbn [snd] in Hveg. cbn [MealPlanningService.shopping_tips].
  assert (Hcat : forall mf : @MealPlanningService.MealFood float,
            GroceryMore.category_of mf = "Vegetables"
            <-> MealPlanningService.category (MealPlanningService.food_item mf)
                = "Vegetables").
  { intros mf. unfold GroceryMore.category_of.
    destruct (MealPlanningService.category (MealPlanningService.food_item mf));
      [split; discriminate|reflexivity]. }
  unfold MealPlanningService._generate_shopping_tips. split.
  - eexists. split; [reflexivity|].
    destruct (MealPlanningService.category_length cats "Fruits") as [n1|];
      [destruct (3 <? n1)%nat|];
      (destruct (MealPlanningService.category_length cats "Vegetables");
       (destruct (MealPlanningService.category_length cats "Proteins") as [n3|];
        [destruct (2 <? n3)%nat|])); cbn; lia.
  - rewrite in_app_iff.
    assert (Hlast : ~ In "Shop for vegetables 2-3 times per week for maximum freshness"
                      ["Check store flyers for weekly specials on your list items";
                       "Bring reusable bags and stick to your list to avoid impulse purchases"]).
    { intros [E|[E|[]]]; discriminate E. }
    split.
    + intros [Hin|Hin]; [|tauto].
      assert (Hsome : MealPlanningService.category_length cats "Vegetables" <> None).
      { intros Hnone. rewrite Hnone in Hin.
        destruct (MealPlanningService.category_length cats "Fruits") as [n1|];
          [destruct (3 <? n1)%nat|];
          (destruct (MealPlanningService.category_length cats "Proteins") as [n3|];
           [destruct (2 <? n3)%nat|]); cbn in Hin;
          repeat (destruct Hin as [Hin|Hin]; [discriminate Hin|]); exact Hin. }
      apply Hveg in Hsome as [Hsome|(mf & Hin' & Hc)]; [now cbn in Hsome|].
      exists mf. split; [exact Hin'|now apply Hcat].
    + intros (mf & Hin & Hc). left.
      assert (Hsome : MealPlanningService.category_length cats "Vegetables" <> None).
      { apply Hveg. right. exists mf. split; [exact Hin|now apply Hcat]. }
      destruct (MealPlanningService.category_length cats "Vegetables"); [|congruence].
      destruct (MealPlanningService.category_length cats "Fruits") as [n1|];
        [destruct (3 <? n1)%nat|];
        (destruct (MealPlanningService.category_length cats "Proteins") as [n3|];
         [destruct (2 <? n3)%nat|]); cbn; tauto.
Qed.


(** ** apps/fitness/services.py *)

(** Building the prompt stops at the read of [user_profile.height_cm]: the
    profile has a field [height], and no attribute [height_cm]. *)
Lemma build_workout_plan_prompt_raises (env : WorkoutPlanningService.Env)
    (user_profile : string -> pyval) (params : pyval) :
  WorkoutPlanningService._build_workout_plan_prompt env user_profile params
  = Raises (AttributeError "'UserProfile' object has no attribute 'height_cm'").
Proof. reflexivity. Qed.

Ltac step_outcome :=
  unfold mbind at 1; unfold outcome_bind at 1; unfold Py.bind at 1; cbv beta iota.

(** X23. [generate_personalized_workout_plan] never reports a success and
    never reaches the client.  With the profile of the user found, building
    the prompt ends at the read of [user_profile.height_cm], an attribute
    that [UserProfile] does not have; [weight_kg], read next, and the method
    [PromptTemplates.get_workout_plan_prompt] that the prompt would be asked
    of do not exist either.  For parameters that are a dict the result is
    the failure, with the text of that error or of what the lookup of the
    profile raised, and with the fallback plan, whose duration is the
    'duration_weeks' of the parameters or 4; for any other parameters the
    fallback raises in its turn. *)
Theorem generate_personalized_workout_plan_fails (env : WorkoutPlanningService.Env)
    (params : pyval) :
  match params with
  | PyDict entries =>
      exists plan,
        WorkoutPlanningService.generate_personalized_workout_plan env params
        = Returns (PyDict [
            ("success", PyBool false);
            ("error",
             PyStr (match WorkoutPlanningService.UserProfile_objects_get env with
                    | Returns _ =>
                        "'UserProfile' object has no attribute 'height_cm'"
                    | Raises e => str_of_exn e
                    end));
            ("fallback_plan", PyDict plan)])
        /\ (p ← dict_lookup "program_overview" plan;
            match p with
            | PyDict overview => dict_lookup "duration_weeks" overview
            | _ => None
            end)
           = Some (default (PyInt 4) (dict_lookup "duration_weeks" entries))
  | _ =>
      exists e,
        WorkoutPlanningService.generate_personalized_workout_plan env params = Raises e
  end
  /\ (forall user_profile : string -> pyval,
        WorkoutPlanningService.getattr_user_profile user_profile "weight_kg"
        = Raises (AttributeError "'UserProfile' object has no attribute 'weight_kg'"))
  /\ WorkoutPlanningService.getattr_PromptTemplates "get_workout_plan_prompt"
     = Raises (AttributeError
                 "type object 'PromptTemplates' has no attribute 'get_workout_plan_prompt'").
Proof.
  split; [|split; reflexivity].
  unfold WorkoutPlanningService.generate_personalized_workout_plan.
  destruct (WorkoutPlanningService.UserProfile_objects_get env)
    as [user_profile|e0] eqn:Hget;
    destruct params; step_outcome;
    try rewrite build_workout_plan_prompt_raises; try step_outcome;
    try (cbn; eauto; fail);
    (eexists; split; [reflexivity|];
     cbn; destruct (dict_lookup "duration_weeks" entries); reflexivity).
Qed.

(** ** [NutritionAnalysisService.generate_user_insights] *)

Section InsightProofs.
Context {number : Type} `{PatternOps number}.
Import NutritionAnalysisService.

Lemma place_Permutation (x : pyval) (sorted : list pyval) :
  Permutation (place x sorted) (x :: sorted).
Proof.
  induction sorted as [|y rest IH]; cbn [place]; [reflexivity|].
  destruct (_get_priority_score x <? _get_priority_score y)%Z; [|reflexivity].
  rewrite IH. apply perm_swap.
Qed.

Lemma sort_by_priority_Permutation (insights : list pyval) :
  Permutation (sort_by_priority insights) insights.
Proof.
  induction insights as [|x rest IH]; cbn [sort_by_priority]; [reflexivity|].
  rewrite place_Permutation. now constructor.
Qed.

Lemma place_sorted (x : pyval) (sorted : list pyval) :
  StronglySorted (fun a b => (_get_priority_score b <= _get_priority_score a)%Z) sorted ->
  StronglySorted (fun a b => (_get_priority_score b <= _get_priority_score a)%Z)
    (place x sorted).
Proof.
  induction sorted as [|y rest IH]; cbn [place]; intros Hs.
  - repeat constructor.
  - apply StronglySorted_inv in Hs as [Hrest Hy].
    destruct (_get_priority_score x <? _get_priority_score y)%Z eqn:E.
    + apply Z.ltb_lt in E. constructor; [now apply IH|].
      rewrite place_Permutation. constructor; [lia|exact Hy].
    + apply Z.ltb_ge in E. constructor; [now constructor|].
      constructor; [exact E|].
      eapply List.Forall_impl; [|exact Hy]. cbv beta. intros z Hz. lia.
Qed.

Lemma sort_by_priority_sorted (insights : list pyval) :
  StronglySorted (fun a b => (_get_priority_score b <= _get_priority_score a)%Z)
    (sort_by_priority insights).
Proof.
  induction insights as [|x rest IH]; cbn [sort_by_priority]; [constructor|].
  now apply place_sorted.
Qed.

Lemma insights_length (patterns : Patterns) :
  (List.length (_generate_calorie_insights patterns
                ++ _generate_macronutrient_insights patterns
                ++ _generate_adherence_insights patterns
                ++ _generate_energy_insights patterns) <= 5)%nat.
Proof.
  rewrite !length_app.
  unfold _generate_calorie_insights, _generate_macronutrient_insights,
    _generate_adherence_insights, _generate_energy_insights.
  repeat match goal with
         | |- context [if ?b then _ else _] => destruct b
         end; cbn [List.length app]; lia.
Qed.

End InsightProofs.

(** X24. [generate_user_insights] of the nutrition service never raises and
    returns at most five insights, the higher priorities first; the cut to
    the first ten never drops one: when the logs are not empty and the
    patterns are computed, the result is a rearrangement of the insights on
    calories, macronutrients, adherence and energy. *)
Theorem nutrition_insights_sorted {number : Type} `{PatternOps number}
    (logs_empty : bool)
    (patterns : outcome (@NutritionAnalysisService.Patterns number)) :
  let insights :=
    NutritionAnalysisService.generate_user_insights logs_empty patterns in
  (List.length insights <= 5)%nat
  /\ StronglySorted
       (fun a b => (NutritionAnalysisService._get_priority_score b
                    <= NutritionAnalysisService._get_priority_score a)%Z)
       insights
  /\ match logs_empty, patterns with
     | false, Returns found =>
         Permutation insights
           (NutritionAnalysisService._generate_calorie_insights found
            ++ NutritionAnalysisService._generate_macronutrient_insights found
            ++ NutritionAnalysisService._generate_adherence_insights found
            ++ NutritionAnalysisService._generate_energy_insights found)
     | _, _ => insights = []
     end.
Proof.
  intros insights. subst insights.
  unfold NutritionAnalysisService.generate_user_insights.
  destruct logs_empty; [cbn; repeat split; [lia|constructor]|].
  destruct patterns as [found|e]; [|cbn; repeat split; [lia|constructor]].
  cbv zeta.
  pose proof (insights_length found) as Hlen.
  set (l := (_ ++ _)%list) in *.
  assert (Hsame : List.length (NutritionAnalysisService.sort_by_priority l)
                  = List.length l)
    by apply Permutation_length, sort_by_priority_Permutation.
  rewrite firstn_all2 by lia.
  split; [lia|]. split; [apply sort_by_priority_sorted|].
  apply sort_by_priority_Permutation.
Qed.
